(** * Rainfall covariates for under-five mortality records

    A shallow embedding of the three exposure pipelines of the repository
    ([calculate_extreme_precip.py], [calculate_rainfall_deviation.py] and
    [calculate_wet_days.py]) together with the properties their
    specification states about them.

    Conventions of the embedding.
    - A Python/numpy [float] is an IEEE 754 binary64 value: the
      standard library's [spec_float] at precision 53 and maximal exponent
      1024, with its NaN, infinities and signed zeros.
    - A [pd.Timestamp] is a calendar date (the time of day plays no role in
      the code); [ts - pd.DateOffset(months=m)] is calendar arithmetic.
    - A data frame is the list of its rows; a boolean mask is a [bool]
      predicate and mask indexing is [List.filter].  A row loop that
      assigns every derived cell of every row with [df.at] is the map of
      its body over the rows.
    - A directory of CSV files is a finite map from file names to tables;
      a Python [dict] is a finite map.
    - An exception is a value of [exn]; code that may raise lives in the
      [result] monad.
    - The reductions of pandas are the ones of pandas and numpy
      themselves: [Series.sum()] is numpy's pairwise summation over the
      column with [0.0] in the place of NaN, [groupby(...).sum()] is the
      compensated summation of pandas, a row sum over columns adds the
      columns from left to right, and Python's [sum] adds from left to
      right starting at [0]. *)

From Stdlib Require Import ZArith List Bool Lia.
From Stdlib Require Import SpecFloat.
From stdpp Require Import base option list gmap strings.

Open Scope Z_scope.

(** ** Exceptions *)

Inductive exn : Type :=
| FileNotFoundError
| IndexError
| KeyError.

Inductive result (A : Type) : Type :=
| Ok (a : A)
| Raise (e : exn).

Arguments Ok {A} a.
Arguments Raise {A} e.

#[global] Instance result_ret : MRet result := fun A a => Ok a.

#[global] Instance result_bind : MBind result := fun A B f m =>
  match m with
  | Ok a => f a
  | Raise e => Raise e
  end.

(** [d[k]] on a dict: [KeyError] when the key is absent. *)
Definition dict_get {A} (d : gmap Z A) (k : Z) : result A :=
  match d !! k with
  | Some v => Ok v
  | None => Raise KeyError
  end.

(** [pd.read_csv(dir / name)]: [FileNotFoundError] when the file is absent. *)
Definition read_csv {K} `{Countable K} {A} (dir : gmap K A) (name : K) : result A :=
  match dir !! name with
  | Some t => Ok t
  | None => Raise FileNotFoundError
  end.

(** [xs.values[0]]: [IndexError] on an empty selection. *)
Definition values0 {A} (xs : list A) : result A :=
  match xs with
  | x :: _ => Ok x
  | [] => Raise IndexError
  end.

(** [range(a, b + 1)] for the loops [for m in range(1, N + 1)]. *)
Definition range1 (n : Z) : list Z := map Z.of_nat (seq 1 (Z.to_nat n)).

(** ** Floating point: binary64 *)

Module Float64.

Definition prec : Z := 53.
Definition emax : Z := 1024.

Abbreviation float := spec_float.

Definition zero : float := S754_zero false.
Definition neg_zero : float := S754_zero true.
Definition nan : float := S754_nan.

(** The float nearest to [m * 2^e]; exact for the constants used here. *)
Definition of_dyadic (m e : Z) : float := binary_normalize prec emax m e false.

(** The float of a Python [int]. *)
Definition of_Z (z : Z) : float := of_dyadic z 0.

Definition add : float -> float -> float := SFadd prec emax.
Definition sub : float -> float -> float := SFsub prec emax.
Definition mul : float -> float -> float := SFmul prec emax.
Definition div : float -> float -> float := SFdiv prec emax.
Definition sqrt : float -> float := SFsqrt prec emax.

Definition eqb : float -> float -> bool := SFeqb.
Definition ltb : float -> float -> bool := SFltb.
Definition leb : float -> float -> bool := SFleb.
Definition gtb (x y : float) : bool := ltb y x.

Definition is_nan (x : float) : bool :=
  match x with S754_nan => true | _ => false end.

Definition is_finite (x : float) : bool :=
  match x with
  | S754_zero _ | S754_finite _ _ _ => true
  | _ => false
  end.

End Float64.

Import Float64.

(** ** Reductions of numpy and pandas over a float column *)

Module Numpy.

(** The eight running sums of the unrolled loop: the values are taken in
    groups of eight, the k-th of a group added to [rk]; when fewer than
    eight are left the running sums are combined pairwise and the values
    left are added one after the other. *)
Fixpoint unrolled (r0 r1 r2 r3 r4 r5 r6 r7 : float) (a : list float) : float :=
  match a with
  | a0 :: a1 :: a2 :: a3 :: a4 :: a5 :: a6 :: a7 :: rest =>
      unrolled (add r0 a0) (add r1 a1) (add r2 a2) (add r3 a3)
               (add r4 a4) (add r5 a5) (add r6 a6) (add r7 a7) rest
  | _ =>
      fold_left add a
        (add (add (add r0 r1) (add r2 r3)) (add (add r4 r5) (add r6 r7)))
  end.

(** A block of at most 128 values: fewer than eight are added one after
    the other, starting from [-0.0]; otherwise the first eight start the
    running sums. *)
Definition block_sum (a : list float) : float :=
  match a with
  | a0 :: a1 :: a2 :: a3 :: a4 :: a5 :: a6 :: a7 :: rest =>
      unrolled a0 a1 a2 a3 a4 a5 a6 a7 rest
  | _ => fold_left add a neg_zero
  end.

Definition PW_BLOCKSIZE : nat := 128.

(** The pairwise summation of the add loop of numpy: more than 128
    values are split in two, the first part of [n / 2] values rounded
    down to a multiple of eight.  [depth] bounds the nesting of the
    splits; the length of the array is always enough. *)
Fixpoint pairwise_sum (depth : nat) (a : list float) : float :=
  match depth with
  | S depth' =>
      if (PW_BLOCKSIZE <? length a)%nat then
        let n2 := (length a / 2)%nat in
        let n2 := (n2 - n2 mod 8)%nat in
        add (pairwise_sum depth' (firstn n2 a)) (pairwise_sum depth' (skipn n2 a))
      else block_sum a
  | O => block_sum a
  end.

(** [a.sum()] on a one-dimensional float64 array: the reduction starts
    from the identity of the addition, [-0.0], and adds the pairwise sum
    of the values; the sum of no value is [0.0]. *)
Definition sum (a : list float) : float :=
  match a with
  | [] => zero
  | _ => add neg_zero (pairwise_sum (length a) a)
  end.

End Numpy.

(** [Series.sum()], [Series.mean()] and [Series.std()] skip NaN entries
    ([skipna=True]): pandas puts [0.0] in their place and lets numpy sum
    the column, and counts the entries that are not NaN. *)

Module Pandas.

Definition dropna (xs : list float) : list float :=
  List.filter (fun x => negb (is_nan x)) xs.

Definition fillna (xs : list float) : list float :=
  map (fun x => if is_nan x then zero else x) xs.

Definition count (xs : list float) : Z := Z.of_nat (length (dropna xs)).

Definition sum (xs : list float) : float := Numpy.sum (fillna xs).

(** The mean of a selection without a value is NaN. *)
Definition mean (xs : list float) : float :=
  if 0 <? count xs then div (sum xs) (of_Z (count xs)) else nan.

(** Sample standard deviation ([ddof=1]), in two passes; NaN with fewer
    than two values. *)
Definition std (xs : list float) : float :=
  if count xs <=? 1 then nan
  else
    let avg := div (sum xs) (of_Z (count xs)) in
    let sqr := map (fun x => if is_nan x then zero
                             else let d := sub avg x in mul d d) xs in
    sqrt (div (Numpy.sum sqr) (of_Z (count xs - 1))).

(** [mask.sum()] on a boolean column counts its [True] entries. *)
Definition sum_bool (bs : list bool) : Z :=
  fold_left (fun acc (b : bool) => acc + (if b then 1 else 0)) bs 0.

(** Python's builtin [sum(xs)]: starts from the integer [0]. *)
Definition py_sum (xs : list float) : float := fold_left add xs (of_Z 0).

(** One step of the compensated summation of [groupby(...).sum()]
    ([group_sum]): the running sum and the compensation of a group, and
    the next value of the group.  NaN values are skipped; a compensation
    that became NaN is reset to [0.0]. *)
Definition group_sum_step (st : float * float) (val : float) : float * float :=
  let '(sumx, compensation) := st in
  if is_nan val then st
  else
    let y := sub val compensation in
    let t := add sumx y in
    let compensation := sub (sub t sumx) y in
    (t, if is_nan compensation then zero else compensation).

(** The total of one group, its values in the order of the rows. *)
Definition group_sum (vals : list float) : float :=
  fst (fold_left group_sum_step vals (zero, zero)).

(** One row of [df[cols].sum(axis=1)] on float columns, in a table of
    [rows] rows.  The reduction runs over the rows first: the row sums
    start from [-0.0] and the columns are added to them one after the
    other, from left to right.  Only in a table of a single row numpy
    sums that row as it sums a column. *)
Definition sum_axis1 (rows : nat) (cells : list float) : float :=
  if (rows =? 1)%nat then Numpy.sum (fillna cells)
  else fold_left add (fillna cells) neg_zero.

End Pandas.

(** ** Calendar dates *)

Record Timestamp : Type := mkTimestamp { year : Z; month : Z; day : Z }.

Module Calendar.

Definition is_leap (y : Z) : bool :=
  ((y mod 4 =? 0) && negb (y mod 100 =? 0)) || (y mod 400 =? 0).

Definition days_in_month (y m : Z) : Z :=
  if m =? 2 then (if is_leap y then 29 else 28)
  else if (m =? 4) || (m =? 6) || (m =? 9) || (m =? 11) then 30
  else 31.

(** [ts - pd.DateOffset(months=n)] for [n >= 0].  The offset is a
    [relativedelta(months=n)]: whole years are split off first, the month
    is moved back with a borrow from the year, and the day is clipped to
    the length of the month reached. *)
Definition sub_months (ts : Timestamp) (n : Z) : Timestamp :=
  let years := n / 12 in
  let months := n mod 12 in
  let y := year ts - years in
  let m := month ts - months in
  let '(y, m) := if m <? 1 then (y - 1, m + 12) else (y, m) in
  mkTimestamp y m (Z.min (days_in_month y m) (day ts)).

(** Number of the calendar month on a linear scale. *)
Definition month_index (ts : Timestamp) : Z := 12 * year ts + (month ts - 1).

(** A date of the calendar. *)
Definition valid (ts : Timestamp) : Prop :=
  1 <= month ts <= 12 /\ 1 <= day ts <= days_in_month (year ts) (month ts).

End Calendar.

Import Calendar.

(** ** Tables *)

(** One day of a location's precipitation file: columns [time] and [tp]. *)
Record daily : Type := mkDaily { time : Timestamp; tp : float }.

(** One mortality record of an input table. *)
Record record : Type := mkRecord {
  DHSID : string;
  DHS_survey : string;
  death_date_lag_0 : Timestamp
}.

(** One row of a survey's location-mapping table; [city_id] is the cell
    as the integer that names the location's precipitation file. *)
Record city_row : Type := mkCity { city_DHSID : string; city_id : Z }.

(** A cell that the code reads with [float(...)]: its number, or
    nothing when the text of the cell is not a number. *)
Abbreviation cell := (option float).

(** One row of [all_points_dhs_prep.csv], with its columns [DHSID] and
    [p999], the latter a column of numbers.  [averages] holds the cells
    of those of the columns [1_average] ... [12_average] that the table
    has; [month_std] and [all_average] are the cells of these two
    columns, and nothing also when the table lacks the column. *)
Record stats_row : Type := mkStats {
  stats_DHSID : string;
  p999 : float;
  averages : gmap Z cell;
  month_std : cell;
  all_average : cell
}.

(** The files the pipelines read. *)
Record files : Type := mkFiles {
  INPUT_DIR : gmap string (list record);
  CITY_LIST_DIR : gmap string (list city_row);
  PRECIP_DIR : gmap (string * Z) (list daily);
  THRESHOLD_FILE : option (list stats_row)
}.

Definition MIN_YEAR : Z := 1981.
Definition N_MONTHS : Z := 12.

(** The rows of the month of [target_date]:
    [precip_data[(time.dt.year == year) & (time.dt.month == month)]]. *)
Definition in_month (target_date : Timestamp) (d : daily) : bool :=
  (year (time d) =? year target_date) && (month (time d) =? month target_date).

Definition monthly_rows (target_date : Timestamp) (precip_data : list daily) : list daily :=
  List.filter (in_month target_date) precip_data.

(** [df[df['death_date_lag_0'].dt.year >= MIN_YEAR].reset_index(drop=True)] *)
Definition filter_min_year (df : list record) : list record :=
  List.filter (fun r => MIN_YEAR <=? year (death_date_lag_0 r)) df.

(** [s.replace(old, new)]: occurrences are replaced from left to right and
    do not overlap.  [skip] counts the characters of a matched occurrence
    that are still to be dropped. *)
Fixpoint replace_from (skip : nat) (old new s : string) : string :=
  match s with
  | EmptyString => EmptyString
  | String c s' =>
      match skip with
      | S k => replace_from k old new s'
      | O =>
          if String.prefix old s
          then new +:+ replace_from (Nat.pred (String.length old)) old new s'
          else String c (replace_from O old new s')
      end
  end.

Definition str_replace (s old new : string) : string := replace_from O old new s.

(** The apostrophe, character 39. *)
Definition apostrophe : Ascii.ascii :=
  Ascii.Ascii true true true false false true false false.

Definition survey_clean (survey_id : string) : string :=
  str_replace survey_id "Cote_d'Ivoire" "Cote_dIvoire".

(** [city_map[city_map['DHSID'] == dhsid]] *)
Definition city_rows (dhsid : string) (city_map : list city_row) : list city_row :=
  List.filter (fun c => String.eqb (city_DHSID c) dhsid) city_map.

(** [stats_df[stats_df['DHSID'] == dhsid]] *)
Definition stats_rows (dhsid : string) (stats_df : list stats_row) : list stats_row :=
  List.filter (fun r => String.eqb (stats_DHSID r) dhsid) stats_df.

(** [load_precip_data] of the wet-days and rainfall-deviation pipelines,
    and the first half of the one of the extreme-precipitation pipeline:
    the mapping table is read under the survey's own name, the
    precipitation file under the cleaned one. *)
Definition load_precip_data (fs : files) (dhsid survey_id : string) : result (list daily) :=
  city_map ← read_csv (CITY_LIST_DIR fs) survey_id;
  row ← values0 (city_rows dhsid city_map);
  read_csv (PRECIP_DIR fs) (survey_clean survey_id, city_id row).

(** [pd.read_csv(THRESHOLD_FILE)] *)
Definition read_threshold_file (fs : files) : result (list stats_row) :=
  match THRESHOLD_FILE fs with
  | Some t => Ok t
  | None => Raise FileNotFoundError
  end.

(** ** The orchestration shared by the three [main] functions *)

(** [name.endswith(suffix)] *)
Definition ends_with (suffix name : string) : bool :=
  let n := String.length name in
  let k := String.length suffix in
  (k <=? n)%nat && String.eqb (String.substring (n - k) k name) suffix.

(** [INPUT_DIR.glob('*.csv')], as file names.  The order of the listing
    is the file system's. *)
Definition glob_csv (fs : files) : list string :=
  List.filter (ends_with ".csv") (map fst (map_to_list (INPUT_DIR fs))).

(** [pool.map(process_file, names)].  The workers share nothing but the
    output directory, into which each call writes at most the file of its
    own name; the calls are taken one after the other here, and the
    results come back in the order of the names. *)
Fixpoint pool_map {T} (process_file : gmap string T -> string -> gmap string T * option string)
    (OUTPUT_DIR : gmap string T) (names : list string)
    : gmap string T * list (option string) :=
  match names with
  | [] => (OUTPUT_DIR, [])
  | name :: rest =>
      let '(written, r) := process_file OUTPUT_DIR name in
      let '(final, rs) := pool_map process_file written rest in
      (final, r :: rs)
  end.

(** The truth value of a result in [sum(1 for r in results if r)]: [None]
    and the empty string count as false. *)
Definition truthy (r : option string) : bool :=
  match r with
  | Some name => negb (String.eqb name EmptyString)
  | None => false
  end.

(** What [main] leaves behind and prints last: the output directory, and
    the numbers in [Completed: {success}/{len(files)} files]. *)
Definition run_main {T} (process_file : gmap string T -> string -> gmap string T * option string)
    (fs : files) (OUTPUT_DIR : gmap string T) : gmap string T * (Z * Z) :=
  let files := glob_csv fs in
  let '(final, results) := pool_map process_file OUTPUT_DIR files in
  (final, (Z.of_nat (length (List.filter truthy results)), Z.of_nat (length files))).

(** ** Extreme precipitation ([calculate_extreme_precip.py]) *)

Module Extreme.

Definition calc_extreme_precip (target_date : Timestamp) (precip_data : list daily)
    (threshold avg_precip : float) : Z * float * float :=
  let monthly := monthly_rows target_date precip_data in
  let extreme := List.filter (fun d => gtb (tp d) threshold) monthly in
  if Z.of_nat (length extreme) =? 0 then (0, zero, zero)
  else
    let n_days := Z.of_nat (length extreme) in
    let excess := sub (Pandas.sum (map tp extreme)) (mul threshold (of_Z n_days)) in
    let intensity := if gtb avg_precip (of_Z 0) then div excess avg_precip else zero in
    (n_days, excess, intensity).

Definition load_precip_data (fs : files) (dhsid survey_id : string)
    (threshold_df : list stats_row) : result (list daily * float * float) :=
  precip ← load_precip_data fs dhsid survey_id;
  row ← values0 (stats_rows dhsid threshold_df);
  let threshold := p999 row in
  let avg_precip :=
    Pandas.mean (map tp (List.filter (fun d => gtb (tp d) (of_Z 0)) precip)) in
  mret (precip, threshold, avg_precip).

Record out_row : Type := mkOut {
  src : record;
  p999_days : list float;
  p999_excess : list float;
  p999_intensity : list float;
  p999_annual_days : float;
  p999_annual_excess : float
}.

(** The body of the row loop: the three columns of every lookback month. *)
Definition row_metrics (fs : files) (threshold_df : list stats_row) (r : record)
    : result (list (Z * float * float)) :=
  '(precip, threshold, avg) ← load_precip_data fs (DHSID r) (DHS_survey r) threshold_df;
  mret (map (fun m =>
               calc_extreme_precip (sub_months (death_date_lag_0 r) m) precip threshold avg)
            (range1 N_MONTHS)).

(** The annual columns: row sums over the monthly columns, in a table
    of [rows] rows. *)
Definition annualize (rows : nat) (r : record) (ms : list (Z * float * float)) : out_row :=
  let days := map (fun x => of_Z (fst (fst x))) ms in
  let excess := map (fun x => snd (fst x)) ms in
  mkOut r days excess (map snd ms)
        (Pandas.sum_axis1 rows days) (Pandas.sum_axis1 rows excess).

Definition process_file_try (fs : files) (filename : string) : result (list out_row) :=
  df ← read_csv (INPUT_DIR fs) filename;
  threshold_df ← read_threshold_file fs;
  let df := filter_min_year df in
  mapM (fun r => ms ← row_metrics fs threshold_df r; mret (annualize (length df) r ms)) df.

(** [process_file]: the table is written under the input's name and the
    name returned; any exception is caught and [None] returned. *)
Definition process_file (fs : files) (OUTPUT_DIR : gmap string (list out_row))
    (filename : string) : gmap string (list out_row) * option string :=
  match process_file_try fs filename with
  | Ok df => (<[filename := df]> OUTPUT_DIR, Some filename)
  | Raise _ => (OUTPUT_DIR, None)
  end.

Definition main (fs : files) (OUTPUT_DIR : gmap string (list out_row))
    : gmap string (list out_row) * (Z * Z) :=
  run_main (process_file fs) fs OUTPUT_DIR.

End Extreme.

(** ** Wet days ([calculate_wet_days.py]) *)

Module WetDays.

Definition WET_DAY_THRESHOLD : float := of_Z 1.

Definition calc_wet_days (target_date : Timestamp) (precip_data : list daily)
    (threshold : float) : Z :=
  let monthly := monthly_rows target_date precip_data in
  Pandas.sum_bool (map (fun d => gtb (tp d) threshold) monthly).

Record out_row : Type := mkOut {
  src : record;
  wet_days : list Z;
  wet_days_annual : Z
}.

Definition row_metrics (fs : files) (r : record) : result (list Z) :=
  precip ← load_precip_data fs (DHSID r) (DHS_survey r);
  mret (map (fun m =>
               calc_wet_days (sub_months (death_date_lag_0 r) m) precip WET_DAY_THRESHOLD)
            (range1 N_MONTHS)).

(** [df[[wet_days_1 ... wet_days_12]].sum(axis=1)] on integer columns. *)
Definition annualize (r : record) (ws : list Z) : out_row :=
  mkOut r ws (fold_left Z.add ws 0).

Definition process_file_try (fs : files) (filename : string) : result (list out_row) :=
  df ← read_csv (INPUT_DIR fs) filename;
  let df := filter_min_year df in
  mapM (fun r => ws ← row_metrics fs r; mret (annualize r ws)) df.

Definition process_file (fs : files) (OUTPUT_DIR : gmap string (list out_row))
    (filename : string) : gmap string (list out_row) * option string :=
  match process_file_try fs filename with
  | Ok df => (<[filename := df]> OUTPUT_DIR, Some filename)
  | Raise _ => (OUTPUT_DIR, None)
  end.

Definition main (fs : files) (OUTPUT_DIR : gmap string (list out_row))
    : gmap string (list out_row) * (Z * Z) :=
  run_main (process_file fs) fs OUTPUT_DIR.

End WetDays.

(** ** Standardised rainfall deviation ([calculate_rainfall_deviation.py]) *)

Module Rsd.

Definition HISTORICAL_PERIOD : Z * Z := (1980, 2020).

(** The table of precomputed statistics is the table of thresholds,
    [all_points_dhs_prep.csv]. *)
Definition HISTORICAL_STATS_FILE (fs : files) : option (list stats_row) := THRESHOLD_FILE fs.

(** The dict that carries the historical statistics. *)
Record hist_stats : Type := mkHist {
  monthly_mean : gmap Z float;
  monthly_std : float;
  annual_mean : float
}.

(** *** [groupby(key)['tp'].sum()]: one total per key, keys ascending *)

Section GroupBy.
Context {K : Type} (key_eqb key_ltb : K -> K -> bool) (key : daily -> K).

Fixpoint insert_key (k : K) (ks : list K) : list K :=
  match ks with
  | [] => [k]
  | k' :: rest =>
      if key_eqb k k' then ks
      else if key_ltb k k' then k :: ks
      else k' :: insert_key k rest
  end.

Definition group_keys (rows : list daily) : list K :=
  fold_left (fun ks d => insert_key (key d) ks) rows [].

Definition groupby_sum (rows : list daily) : list (K * float) :=
  map (fun k =>
         (k, Pandas.group_sum (map tp (List.filter (fun d => key_eqb (key d) k) rows))))
      (group_keys rows).
End GroupBy.

Definition ym_eqb (a b : Z * Z) : bool := (fst a =? fst b) && (snd a =? snd b).
Definition ym_ltb (a b : Z * Z) : bool :=
  (fst a <? fst b) || ((fst a =? fst b) && (snd a <? snd b)).

(** The [year] and [month] columns the function adds to its argument are
    read through [time] here; no other code looks at them. *)
Definition calculate_historical_stats (precip_data : list daily) : hist_stats :=
  let hist_data :=
    List.filter (fun d => (fst HISTORICAL_PERIOD <=? year (time d)) &&
                          (year (time d) <=? snd HISTORICAL_PERIOD)) precip_data in
  let monthly_totals :=
    groupby_sum ym_eqb ym_ltb (fun d => (year (time d), month (time d))) hist_data in
  let monthly_mean :=
    fold_left (fun (acc : gmap Z float) m =>
                 let month_data :=
                   map snd (List.filter (fun t => snd (fst t) =? m) monthly_totals) in
                 <[m := Pandas.mean month_data]> acc)
              (range1 12) ∅ in
  let monthly_std := Pandas.std (map snd monthly_totals) in
  let annual_totals := groupby_sum Z.eqb Z.ltb (fun d => year (time d)) hist_data in
  let annual_mean := Pandas.mean (map snd annual_totals) in
  mkHist monthly_mean monthly_std annual_mean.

Definition calc_monthly_rsd (target_date : Timestamp) (precip_data : list daily)
    (stats : hist_stats) : result float :=
  let monthly_data := monthly_rows target_date precip_data in
  let actual_total := Pandas.sum (map tp monthly_data) in
  hist_mean ← dict_get (monthly_mean stats) (month target_date);
  let hist_std := monthly_std stats in
  let annual_mean := annual_mean stats in
  if eqb hist_std (of_Z 0) || eqb annual_mean (of_Z 0) then mret zero
  else mret (mul (div (sub actual_total hist_mean) hist_std) (div hist_mean annual_mean)).

Definition calc_cumulative_rsd (target_date : Timestamp) (precip_data : list daily)
    (stats : hist_stats) (n_months : Z) : result float :=
  fold_left (fun (acc : result float) i =>
               cumulative_rsd ← acc;
               monthly_rsd ← calc_monthly_rsd (sub_months target_date i) precip_data stats;
               mret (add cumulative_rsd monthly_rsd))
            (range1 n_months) (Ok zero).

(** The loop [for month in range(1, 13)] of [load_precomputed_stats]:
    the month's average enters the dict when the table has its column;
    [float(...)] raises on a cell that is not a number, which is
    [None] here. *)
Definition precomputed_monthly_mean (row : stats_row) : option (gmap Z float) :=
  fold_left (fun (acc : option (gmap Z float)) m =>
               monthly_mean ← acc;
               match averages row !! m with
               | Some c => v ← c; Some (<[m := v]> monthly_mean)
               | None => Some monthly_mean
               end)
            (range1 12) (Some ∅).

(** [load_precomputed_stats]: the whole body is under
    [except Exception: return None], so the result is [None] when the
    table cannot be read, when the location has no row, and when a
    column that is read without a test ([month_std], [all_average]) is
    missing or a cell that is read is not a number. *)
Definition load_precomputed_stats (dhsid : string) (stats_file : option (list stats_row))
    : option hist_stats :=
  match stats_file with
  | None => None
  | Some stats_df =>
      match stats_rows dhsid stats_df with
      | [] => None
      | row :: _ =>
          monthly_mean ← precomputed_monthly_mean row;
          monthly_std ← month_std row;
          annual_mean ← all_average row;
          Some (mkHist monthly_mean monthly_std annual_mean)
      end
  end.

Record out_row : Type := mkOut {
  src : record;
  rsd_month : list float;
  rsd_cumulative : list float;
  rsd_annual : float;
  rsd_positive : float;
  rsd_negative : float
}.

(** The statistics a row is computed with: the precomputed ones, else
    the ones derived from the location's own series. *)
Definition row_stats (fs : files) (dhsid : string) (precip : list daily) : hist_stats :=
  match load_precomputed_stats dhsid (HISTORICAL_STATS_FILE fs) with
  | Some stats => stats
  | None => calculate_historical_stats precip
  end.

(** The monthly values of one row, in the order of the lookback months. *)
Definition monthly_rsds (base_date : Timestamp) (precip : list daily) (stats : hist_stats)
    : result (list float) :=
  mapM (fun m => calc_monthly_rsd (sub_months base_date m) precip stats) (range1 N_MONTHS).

(** [sum(monthly_rsds[:m])] for [m] in [1 .. 12]. *)
Definition cumulative_rsds (rsds : list float) : list float :=
  map (fun m => Pandas.py_sum (firstn (Z.to_nat m) rsds)) (range1 N_MONTHS).

(** The body of the row loop. *)
Definition row_metrics (fs : files) (r : record) : result (list float * list float) :=
  precip ← load_precip_data fs (DHSID r) (DHS_survey r);
  let stats := row_stats fs (DHSID r) precip in
  rsds ← monthly_rsds (death_date_lag_0 r) precip stats;
  mret (rsds, cumulative_rsds rsds).

Definition positive_part (x : float) : float := if gtb x (of_Z 0) then x else of_Z 0.
Definition negative_part (x : float) : float := if ltb x (of_Z 0) then x else of_Z 0.

(** The columns derived after the row loop; [rsd_cumulative_12] is the
    twelfth cumulative column, which starts out as [0.0]. *)
Definition annualize (r : record) (ms : list float * list float) : out_row :=
  let annual := nth 11 (snd ms) zero in
  mkOut r (fst ms) (snd ms) annual (positive_part annual) (negative_part annual).

Definition process_file_try (fs : files) (filename : string) : result (list out_row) :=
  df ← read_csv (INPUT_DIR fs) filename;
  let df := filter_min_year df in
  mapM (fun r => ms ← row_metrics fs r; mret (annualize r ms)) df.

Definition process_file (fs : files) (OUTPUT_DIR : gmap string (list out_row))
    (filename : string) : gmap string (list out_row) * option string :=
  match process_file_try fs filename with
  | Ok df => (<[filename := df]> OUTPUT_DIR, Some filename)
  | Raise _ => (OUTPUT_DIR, None)
  end.

Definition main (fs : files) (OUTPUT_DIR : gmap string (list out_row))
    : gmap string (list out_row) * (Z * Z) :=
  run_main (process_file fs) fs OUTPUT_DIR.

End Rsd.

(** ** The properties in the words of the specification *)

Module Spec.

(** The rows of the series that lie in the calendar month of the target
    date: same year and same month. *)
Definition month_days (target_date : Timestamp) (precip_data : list daily) : list daily :=
  List.filter (fun d => (year (time d) =? year target_date)
                        && (month (time d) =? month target_date)) precip_data.

(** The days of the target month whose precipitation is strictly greater
    than [t]. *)
Definition exceeding_days (target_date : Timestamp) (precip_data : list daily) (t : float)
    : list daily :=
  List.filter (fun d => (year (time d) =? year target_date)
                        && (month (time d) =? month target_date)
                        && SFltb t (tp d)) precip_data.

(** Values added one after the other, from the first on. *)
Definition sum_in_order (xs : list float) : float :=
  match xs with
  | [] => zero
  | x :: rest => fold_left (SFadd 53 1024) rest x
  end.

(** RSD = ((actual - mean of the calendar month) / pooled std)
          x (mean of the calendar month / annual mean). *)
Definition rsd_formula (actual_total hist_mean hist_std annual_mean : float) : float :=
  SFmul 53 1024 (SFdiv 53 1024 (SFsub 53 1024 actual_total hist_mean) hist_std)
                (SFdiv 53 1024 hist_mean annual_mean).

(** The dict of monthly means has an entry for each calendar month. *)
Definition has_all_months (stats : Rsd.hist_stats) : bool :=
  forallb (fun m => match Rsd.monthly_mean stats !! m with Some _ => true | None => false end)
          (range1 12).

(** What a run of [main] leaves behind, for a pipeline whose file driver
    is the body [try] under the per-file exception handler: the count of
    all files, the count of the files whose body did not raise, a written
    table for each of those, and every other entry of the output
    directory as it was. *)
Definition main_outcome {T} (try : string -> result T) (fs : files)
    (OUTPUT_DIR : gmap string T) (out : gmap string T * (Z * Z)) : Prop :=
  let names := glob_csv fs in
  snd (snd out) = Z.of_nat (length names) /\
  fst (snd out)
  = Z.of_nat (length (List.filter
                        (fun name => match try name with Ok _ => true | Raise _ => false end)
                        names)) /\
  (forall name df, In name names -> try name = Ok df -> fst out !! name = Some df) /\
  (forall name, ~ In name names \/ (exists e, try name = Raise e) ->
                fst out !! name = OUTPUT_DIR !! name).

End Spec.

(** ** Sample inputs *)

Module Sample.

Definition on (y m d : Z) (mm : Z) : daily := mkDaily (mkTimestamp y m d) (of_Z mm).

(** The wet-days scenario: 15mm and 2mm in January 2020. *)
Definition january_2020 : list daily := [on 2020 1 5 15; on 2020 1 20 2].

(** The extreme-precipitation scenario: one day at 80mm, one at 10mm. *)
Definition one_extreme_day : list daily := [on 2020 1 5 80; on 2020 1 20 10].

(** The wet-days scenario among rows of other months and years, a day at
    exactly 1.0 mm, a dry day and a missing reading. *)
Definition january_2020_among_others : list daily :=
  [on 1999 7 5 15; on 2019 1 5 15; on 2020 1 5 15; on 2020 1 10 1; on 2020 1 11 0;
   mkDaily (mkTimestamp 2020 1 12) nan; on 2020 1 20 2; on 2020 2 5 15; on 2021 1 5 15].

(** The extreme-precipitation scenario among rows of other months and
    years, a day at exactly 50mm and a missing reading. *)
Definition one_extreme_day_among_others : list daily :=
  [on 1999 7 5 80; on 2019 1 5 80; on 2020 1 5 80; on 2020 1 7 50;
   mkDaily (mkTimestamp 2020 1 12) nan; on 2020 1 20 10; on 2020 2 5 80; on 2021 1 5 80].

(** A month with two days above 50mm. *)
Definition two_extreme_days : list daily := [on 2020 1 5 80; on 2020 1 20 10; on 2020 1 25 70].

(** The first ten days of January 2020 with [0.1 * d] mm on day [d],
    between a day of January 2019 and a day of February 2020. *)
Definition tenths : list daily :=
  on 2019 1 5 80 ::
  map (fun d => mkDaily (mkTimestamp 2020 1 d) (mul (div (of_Z 1) (of_Z 10)) (of_Z d)))
      (range1 10)
  ++ [on 2020 2 5 80].

(** A series with two years of history. *)
Definition two_years : list daily :=
  flat_map (fun y => map (fun m => on y m 10 (10 * m + (y - 2018))) (range1 12)) [2018; 2019].

(** A series that starts after the historical period. *)
Definition only_2021 : list daily := [on 2021 1 5 15; on 2021 1 20 2; on 2021 2 11 30].

Definition survey : string := "Cote_d'Ivoire_2012".

Definition child_2020 : record := mkRecord "CI201200000001" survey (mkTimestamp 2020 3 15).
Definition child_1979 : record := mkRecord "CI201200000001" survey (mkTimestamp 1979 6 1).
Definition child_2022 : record := mkRecord "CI201200000002" survey (mkTimestamp 2022 1 31).
Definition child_unmapped : record := mkRecord "CI201200000009" survey (mkTimestamp 2020 3 15).

Definition stats_1 : stats_row :=
  mkStats "CI201200000001" (of_Z 50)
          (list_to_map (map (fun m => (m, Some (of_Z (10 * m)))) (range1 12)))
          (Some (of_Z 5)) (Some (of_Z 780)).

Definition stats_2 : stats_row :=
  mkStats "CI201200000002" (of_Z 50)
          (list_to_map (map (fun m => (m, Some (of_Z (10 * m)))) (range1 12)))
          (Some (of_Z 5)) (Some (of_Z 780)).

(** Both locations are mapped; only the first has precomputed statistics. *)
Definition disk : files :=
  mkFiles
    {[ "survey.csv" := [child_1979; child_2020; child_2022] ]}
    {[ survey := [mkCity "CI201200000001" 7; mkCity "CI201200000002" 8] ]}
    {[ ("Cote_dIvoire_2012", 7) := two_years; ("Cote_dIvoire_2012", 8) := only_2021 ]}
    (Some [stats_1]).

(** As [disk], with statistics for both locations. *)
Definition disk_full : files :=
  mkFiles (INPUT_DIR disk) (CITY_LIST_DIR disk) (PRECIP_DIR disk) (Some [stats_1; stats_2]).

(** As [disk_full], with a record whose location is in no mapping table. *)
Definition disk_unmapped : files :=
  mkFiles {[ "survey.csv" := [child_2020; child_unmapped] ]}
          (CITY_LIST_DIR disk) (PRECIP_DIR disk) (Some [stats_1; stats_2]).

(** A series with a missing reading and a dry month. *)
Definition with_gap : list daily :=
  [on 2020 1 5 15; mkDaily (mkTimestamp 2020 1 6) nan; on 2020 1 20 2; on 2020 2 3 0].

(** A row of precomputed statistics from a table without the column
    [7_average]. *)
Definition stats_without_july : stats_row :=
  mkStats "CI201200000001" (of_Z 50)
          (list_to_map (map (fun m => (m, Some (of_Z (10 * m))))
                            [1; 2; 3; 4; 5; 6; 8; 9; 10; 11; 12]))
          (Some (of_Z 5)) (Some (of_Z 780)).

(** As [disk_full], with that table. *)
Definition disk_without_july : files :=
  mkFiles {[ "survey.csv" := [child_2020] ]}
          {[ survey := [mkCity "CI201200000001" 7; mkCity "CI201200000002" 8] ]}
          {[ ("Cote_dIvoire_2012", 7) := two_years; ("Cote_dIvoire_2012", 8) := only_2021 ]}
          (Some [stats_without_july]).

(** A row of a table that has the thresholds only: no column of
    averages, no [month_std], no [all_average]. *)
Definition thresholds_only : stats_row := mkStats "CI201200000001" (of_Z 50) ∅ None None.

(** As [disk_without_july], with that table. *)
Definition disk_thresholds_only : files :=
  mkFiles (INPUT_DIR disk_without_july) (CITY_LIST_DIR disk_without_july)
          (PRECIP_DIR disk_without_july) (Some [thresholds_only]).

(** Two input files, the second with a record of an unmapped location,
    and a file that is not a table. *)
Definition disk_two_files : files :=
  mkFiles {[ "a.csv" := [child_2020]; "b.csv" := [child_unmapped]; "notes.txt" := [] ]}
          {[ survey := [mkCity "CI201200000001" 7; mkCity "CI201200000002" 8] ]}
          {[ ("Cote_dIvoire_2012", 7) := two_years; ("Cote_dIvoire_2012", 8) := only_2021 ]}
          (Some [stats_1; stats_2]).

(** One record whose location is mapped and has a series with history,
    but no row in the table of precomputed statistics. *)
Definition disk_partial : files :=
  mkFiles {[ "survey.csv" := [child_2020] ]}
          (CITY_LIST_DIR disk) (PRECIP_DIR disk) (Some [stats_2]).

End Sample.

(** * Properties *)

(** ** The result monad and the row loop *)

Lemma bind_Ok {A C} (m : result A) (g : A -> result C) (c : C) :
  m ≫= g = Ok c -> exists a, m = Ok a /\ g a = Ok c.
Proof. destruct m as [a|e]; [eauto | discriminate]. Qed.

Section ResultMonad.
Context {A B : Type}.
Implicit Types (f : A -> result B) (l : list A) (k : list B).

Lemma mapM_Ok f l k :
  mapM f l = Ok k -> Forall2 (fun x y => f x = Ok y) l k.
Proof.
  revert k; induction l as [|x l IH]; intros k Hk; simpl in Hk.
  - inversion Hk; constructor.
  - apply bind_Ok in Hk as (y & Hy & Hk).
    apply bind_Ok in Hk as (k' & Hk' & Hk).
    inversion Hk; subst. constructor; auto.
Qed.

Lemma mapM_total f l :
  (forall x, In x l -> exists y, f x = Ok y) -> exists k, mapM f l = Ok k.
Proof.
  induction l as [|x l IH]; intros Hf; simpl.
  - eexists; reflexivity.
  - destruct (Hf x) as [y Hy]; [now left|].
    destruct IH as [k Hk]; [intros; apply Hf; now right|].
    exists (y :: k). now rewrite Hy, Hk.
Qed.

(** One failing row fails the whole loop. *)
Lemma mapM_Raise f l x e :
  In x l -> f x = Raise e -> exists e', mapM f l = Raise e'.
Proof.
  induction l as [|a l IH]; intros Hin Hx; [destruct Hin|]. simpl.
  destruct (f a) as [y|e0] eqn:Ha; [|eauto].
  destruct Hin as [->|Hin]; [congruence|].
  destruct (IH Hin Hx) as [e' ->]. simpl. eauto.
Qed.

End ResultMonad.

Lemma Forall2_map_l {A B C} (P : A -> B -> Prop) (g : B -> C) (h : A -> C) l k :
  Forall2 P l k -> (forall x y, P x y -> g y = h x) -> map g k = map h l.
Proof. induction 1; intros Hg; simpl; [reflexivity | f_equal; auto]. Qed.

(** ** Lists, masks and ranges *)

Lemma filter_mask_and {A} (p q : A -> bool) (l : list A) :
  List.filter q (List.filter p l) = List.filter (fun x => p x && q x) l.
Proof.
  induction l as [|x l IH]; simpl; [reflexivity|].
  destruct (p x); simpl; [destruct (q x)|]; now rewrite ?IH.
Qed.

Lemma sum_bool_from (p : daily -> bool) (l : list daily) (acc : Z) :
  fold_left (fun a (b : bool) => a + (if b then 1 else 0)) (map p l) acc
  = acc + Z.of_nat (length (List.filter p l)).
Proof.
  revert acc; induction l as [|x l IH]; intros acc; simpl; [lia|].
  rewrite IH. destruct (p x); simpl length; lia.
Qed.

Lemma range1_nth (n m : Z) : 1 <= m <= n -> nth_error (range1 n) (Z.to_nat (m - 1)) = Some m.
Proof.
  intros Hm. unfold range1. rewrite nth_error_map, nth_error_seq.
  destruct (Nat.ltb_spec (Z.to_nat (m - 1)) (Z.to_nat n)); [|lia].
  simpl. f_equal. lia.
Qed.

Lemma range1_firstn (k n : Z) : 0 <= k <= n -> firstn (Z.to_nat k) (range1 n) = range1 k.
Proof.
  intros Hk. unfold range1. rewrite firstn_map, take_seq. do 2 f_equal. lia.
Qed.

Lemma range1_In (n m : Z) : In m (range1 n) <-> 1 <= m <= n.
Proof.
  unfold range1. rewrite in_map_iff. split.
  - intros (i & <- & Hi%in_seq). lia.
  - intros Hm. exists (Z.to_nat m). rewrite in_seq. split; lia.
Qed.

Lemma nth_map_range1 {A} (g : Z -> A) (n m : Z) (d : A) :
  1 <= m <= n -> nth (Z.to_nat (m - 1)) (map g (range1 n)) d = g m.
Proof.
  intros Hm. apply nth_error_nth. rewrite nth_error_map, (range1_nth n m Hm). reflexivity.
Qed.

(** ** Floating-point facts used below *)

(** [0.0 - t * 0] is [0.0] for every finite [t]. *)
Lemma excess_of_no_days (t : float) : is_finite t = true -> sub zero (mul t (of_Z 0)) = zero.
Proof. destruct t as [[]|[]| |[] m e]; intros H; try discriminate H; reflexivity. Qed.

(** [0.0 / a] is [0.0] for every positive [a]. *)
Lemma div_zero_positive (a : float) : gtb a zero = true -> div zero a = zero.
Proof. destruct a as [[]|[]| |[] m e]; intros H; try discriminate H; reflexivity. Qed.

Lemma eqb_refl (x : float) : is_nan x = false -> eqb x x = true.
Proof.
  destruct x as [[]|[]| |[] m e]; intros H; try discriminate H; try reflexivity;
    unfold eqb, SFeqb, SFcompare;
    now rewrite Z.compare_refl, Pos.compare_cont_refl.
Qed.

(** ** Summation *)

(** [-0.0] is the identity of the addition. *)
Lemma add_neg_zero_l (x : float) : add neg_zero x = x.
Proof. destruct x as [[]|[]| |[] m e]; reflexivity. Qed.

(** A comparison with NaN is false. *)
Lemma SFltb_not_nan (t x : float) : SFltb t x = true -> is_nan x = false.
Proof. destruct x; [reflexivity | reflexivity | | reflexivity]. now destruct t. Qed.

Lemma fillna_without_nan (xs : list float) :
  Forall (fun x => is_nan x = false) xs -> Pandas.fillna xs = xs.
Proof.
  induction 1 as [|x xs Hx _ IH]; [reflexivity|].
  unfold Pandas.fillna in *. cbn [map]. now rewrite Hx, IH.
Qed.

(** The nesting of the splits never exceeds the bound: with a bound of at
    least the length of the array the result does not depend on it. *)
Lemma pairwise_sum_depth (d1 d2 : nat) (a : list float) :
  (length a <= d1)%nat -> (length a <= d2)%nat ->
  Numpy.pairwise_sum d1 a = Numpy.pairwise_sum d2 a.
Proof.
  revert d2 a. induction d1 as [|d1 IH]; intros d2 a H1 H2.
  - destruct a; [|simpl in H1; lia]. now destruct d2.
  - cbn [Numpy.pairwise_sum]. unfold Numpy.PW_BLOCKSIZE.
    destruct (Nat.ltb_spec 128 (length a)) as [Hlong|Hshort].
    + destruct d2 as [|d2]; [lia|]. cbn [Numpy.pairwise_sum]. unfold Numpy.PW_BLOCKSIZE.
      destruct (Nat.ltb_spec 128 (length a)) as [_|]; [|lia].
      set (n2 := (length a / 2 - (length a / 2) mod 8)%nat).
      assert (Hhalf : (64 <= length a / 2)%nat)
        by (apply (Nat.div_le_lower_bound (length a) 2 64); lia).
      assert (Hmod : ((length a / 2) mod 8 < 8)%nat) by (apply Nat.mod_upper_bound; lia).
      assert (Hlt : (length a / 2 < length a)%nat) by (apply Nat.div_lt; lia).
      assert (Hn2 : (0 < n2 < length a)%nat) by (unfold n2; lia).
      f_equal; apply IH; rewrite ?length_firstn, ?length_skipn; lia.
    + destruct d2 as [|d2]; cbn [Numpy.pairwise_sum]; [reflexivity|].
      unfold Numpy.PW_BLOCKSIZE.
      destruct (Nat.ltb_spec 128 (length a)) as [|_]; [lia | reflexivity].
Qed.

(** Fewer than eight values are added one after the other. *)
Lemma numpy_sum_short (x : float) (xs : list float) :
  (length (x :: xs) < 8)%nat -> Numpy.sum (x :: xs) = fold_left add xs x.
Proof.
  intros Hlen. unfold Numpy.sum. rewrite add_neg_zero_l.
  cbn [Numpy.pairwise_sum length]. unfold Numpy.PW_BLOCKSIZE.
  destruct (Nat.ltb_spec 128 (S (length xs))) as [Hlong|_];
    [simpl in Hlen; lia|].
  assert (Hblock : Numpy.block_sum (x :: xs) = fold_left add (x :: xs) neg_zero).
  { do 7 (destruct xs as [|? xs]; [reflexivity|]). simpl in Hlen. lia. }
  rewrite Hblock. cbn [fold_left]. now rewrite add_neg_zero_l.
Qed.

(** The sum of a column of fewer than eight numbers is the sum of its
    values from the first to the last. *)
Lemma pandas_sum_short (xs : list float) :
  Forall (fun x => is_nan x = false) xs -> (length xs < 8)%nat ->
  Pandas.sum xs = Spec.sum_in_order xs.
Proof.
  intros Hnan Hlen. unfold Pandas.sum. rewrite (fillna_without_nan xs Hnan).
  destruct xs as [|x xs]; [reflexivity|]. now apply numpy_sum_short.
Qed.

(** ** Extreme precipitation *)

Lemma extreme_rows target_date precip_data t :
  List.filter (fun d => gtb (tp d) t) (monthly_rows target_date precip_data)
  = Spec.exceeding_days target_date precip_data t.
Proof. unfold monthly_rows, Spec.exceeding_days. apply filter_mask_and. Qed.

Lemma calc_wet_days_length target_date precip_data t :
  WetDays.calc_wet_days target_date precip_data t
  = Z.of_nat (length (Spec.exceeding_days target_date precip_data t)).
Proof.
  unfold WetDays.calc_wet_days, Pandas.sum_bool.
  rewrite sum_bool_from, extreme_rows. lia.
Qed.

Lemma calc_extreme_precip_days target_date precip_data t a :
  fst (fst (Extreme.calc_extreme_precip target_date precip_data t a))
  = Z.of_nat (length (Spec.exceeding_days target_date precip_data t)).
Proof.
  unfold Extreme.calc_extreme_precip. rewrite extreme_rows.
  destruct (Z.eqb_spec (Z.of_nat (length (Spec.exceeding_days target_date precip_data t))) 0)
    as [H0|Hn]; simpl; [now rewrite H0 | reflexivity].
Qed.

Lemma exceeding_days_In target_date precip_data t (d : daily) :
  In d (Spec.exceeding_days target_date precip_data t) <->
  In d precip_data /\ year (time d) = year target_date /\
  month (time d) = month target_date /\ SFltb t (tp d) = true.
Proof.
  unfold Spec.exceeding_days. rewrite filter_In, !andb_true_iff, !Z.eqb_eq. tauto.
Qed.

Lemma exceeding_days_numbers target_date precip_data t :
  Forall (fun x => is_nan x = false) (map tp (Spec.exceeding_days target_date precip_data t)).
Proof.
  apply List.Forall_forall. intros x (d & <- & Hd)%in_map_iff.
  apply exceeding_days_In in Hd as (_ & _ & _ & Hd). exact (SFltb_not_nan _ _ Hd).
Qed.

(** C1.  The extreme-precipitation aggregator returns (n, e, i): n is the
    number of rows of the series whose date has the year and the month of
    the target and whose precipitation is strictly greater than the
    threshold t.  When there is such a day, or t is a finite number, e is
    the sum of those days' precipitation minus t times n, and i is e / a
    when a > 0 and 0.0 otherwise; the sum is the one of the days' values
    from the first to the last when there are fewer than eight of them.
    When no day of the month exceeds t the result is exactly
    (0, 0.0, 0.0), whatever t is.  One day at 80mm and one at 10mm with
    t = 50 and a = 20 give (1, 30.0, 1.5), also among days of other months
    and years, a day at exactly 50mm and a missing reading; two days at
    80mm and 70mm give (2, 50.0, 2.5); ten days at 0.1mm, 0.2mm, ... 1.0mm
    with t = 0 give (10, 5.5, 5.5 / 20). *)
Theorem calc_extreme_precip_triple (target_date : Timestamp) (precip_data : list daily)
    (t a : float) :
  let days := Spec.exceeding_days target_date precip_data t in
  let n := Z.of_nat (length days) in
  let e := SFsub 53 1024 (Pandas.sum (map tp days)) (SFmul 53 1024 t (of_Z n)) in
  let r := Extreme.calc_extreme_precip target_date precip_data t a in
  (forall d, In d days <->
             In d precip_data /\ year (time d) = year target_date /\
             month (time d) = month target_date /\ SFltb t (tp d) = true) /\
  fst (fst r) = n /\
  (n <> 0 \/ is_finite t = true ->
   r = (n, e, if SFltb zero a then SFdiv 53 1024 e a else zero)) /\
  (n = 0 -> r = (0, zero, zero)) /\
  ((length days < 8)%nat -> Pandas.sum (map tp days) = Spec.sum_in_order (map tp days)) /\
  (forall d, Extreme.calc_extreme_precip (mkTimestamp 2020 1 d) Sample.one_extreme_day
               (of_Z 50) (of_Z 20)
             = (1, of_Z 30, of_dyadic 3 (-1))) /\
  (forall d, Extreme.calc_extreme_precip (mkTimestamp 2020 1 d)
               Sample.one_extreme_day_among_others (of_Z 50) (of_Z 20)
             = (1, of_Z 30, of_dyadic 3 (-1))) /\
  (forall d, Extreme.calc_extreme_precip (mkTimestamp 2020 1 d) Sample.two_extreme_days
               (of_Z 50) (of_Z 20)
             = (2, of_Z 50, of_dyadic 5 (-1))) /\
  (forall d, Extreme.calc_extreme_precip (mkTimestamp 2020 1 d) Sample.tenths
               (of_Z 0) (of_Z 20)
             = (10, of_dyadic 11 (-1), SFdiv 53 1024 (of_dyadic 11 (-1)) (of_Z 20))).
Proof.
  intros days n e r.
  split; [intros d; apply exceeding_days_In|].
  assert (Hr : r = if n =? 0 then (0, zero, zero)
                   else (n, e, if SFltb zero a then SFdiv 53 1024 e a else zero)).
  { subst r. unfold Extreme.calc_extreme_precip. rewrite extreme_rows. reflexivity. }
  assert (Hscen : forall P : Prop, P -> P /\
            (forall d, Extreme.calc_extreme_precip (mkTimestamp 2020 1 d) Sample.one_extreme_day
                         (of_Z 50) (of_Z 20)
                       = (1, of_Z 30, of_dyadic 3 (-1))) /\
            (forall d, Extreme.calc_extreme_precip (mkTimestamp 2020 1 d)
                         Sample.one_extreme_day_among_others (of_Z 50) (of_Z 20)
                       = (1, of_Z 30, of_dyadic 3 (-1))) /\
            (forall d, Extreme.calc_extreme_precip (mkTimestamp 2020 1 d) Sample.two_extreme_days
                         (of_Z 50) (of_Z 20)
                       = (2, of_Z 50, of_dyadic 5 (-1))) /\
            (forall d, Extreme.calc_extreme_precip (mkTimestamp 2020 1 d) Sample.tenths
                         (of_Z 0) (of_Z 20)
                       = (10, of_dyadic 11 (-1), SFdiv 53 1024 (of_dyadic 11 (-1)) (of_Z 20))))
    by (intros P HP; repeat split; try exact HP; intros d; vm_compute; reflexivity).
  rewrite Hr. clear Hr.
  assert (Hshort : (length days < 8)%nat ->
                   Pandas.sum (map tp days) = Spec.sum_in_order (map tp days)).
  { intros Hlen. apply pandas_sum_short; [apply exceeding_days_numbers|].
    now rewrite length_map. }
  destruct (Z.eqb_spec n 0) as [H0|Hn]; cbn [fst].
  - split; [congruence|]. split; [|split; [reflexivity | now apply Hscen]].
    intros [Hn|Hfin]; [contradiction|].
    assert (Hnil : days = []) by (apply length_zero_iff_nil; lia).
    subst e. rewrite H0, Hnil. change (Pandas.sum (map tp [])) with zero.
    change (SFsub 53 1024 zero (SFmul 53 1024 t (of_Z 0)))
      with (sub zero (mul t (of_Z 0))).
    rewrite (excess_of_no_days t Hfin).
    destruct (SFltb zero a) eqn:Ha; [|reflexivity].
    change (SFdiv 53 1024 zero a) with (div zero a).
    now rewrite (div_zero_positive a Ha).
  - split; [reflexivity|]. split; [reflexivity|]. split; [congruence | now apply Hscen].
Qed.

Lemma calc_extreme_precip_triple_witness :
  Extreme.calc_extreme_precip (mkTimestamp 2020 1 15) Sample.one_extreme_day_among_others
    (of_Z 50) (of_Z 20)
  = (1, of_Z 30, of_dyadic 3 (-1)) /\
  Extreme.calc_extreme_precip (mkTimestamp 2020 2 15) Sample.one_extreme_day (of_Z 50) (of_Z 20)
  = (0, zero, zero) /\
  Pandas.sum (map tp (Spec.exceeding_days (mkTimestamp 2020 1 15) Sample.two_extreme_days
                        (of_Z 50)))
  = of_Z 150.
Proof.
  split; [|split].
  - pose proof (calc_extreme_precip_triple (mkTimestamp 2020 1 15)
                  Sample.one_extreme_day_among_others (of_Z 50) (of_Z 20)) as H.
    cbv zeta in H. destruct H as (_ & _ & Hn & _).
    rewrite Hn; [vm_compute; reflexivity | left; vm_compute; discriminate].
  - pose proof (calc_extreme_precip_triple (mkTimestamp 2020 2 15) Sample.one_extreme_day
                  (of_Z 50) (of_Z 20)) as H.
    cbv zeta in H. destruct H as (_ & _ & _ & H0 & _).
    apply H0. reflexivity.
  - pose proof (calc_extreme_precip_triple (mkTimestamp 2020 1 15) Sample.two_extreme_days
                  (of_Z 50) (of_Z 20)) as H.
    cbv zeta in H. destruct H as (_ & _ & _ & _ & Hshort & _).
    rewrite Hshort; [vm_compute; reflexivity | vm_compute; lia].
Defined.

(** C1, counterexample.  With a threshold that is not a finite number
    (NaN, as read from an empty cell, or +inf) no day exceeds the
    threshold and the aggregator returns (0, 0.0, 0.0); the sum of no
    day's precipitation minus t times 0 is NaN, and so is that value
    divided by a = 20. *)
Lemma extreme_formula_fails_without_finite_threshold :
  let target_date := mkTimestamp 2020 1 15 in
  let days := Spec.exceeding_days target_date Sample.one_extreme_day nan in
  let n := Z.of_nat (length days) in
  let e := SFsub 53 1024 (Pandas.sum (map tp days)) (SFmul 53 1024 nan (of_Z n)) in
  let r := Extreme.calc_extreme_precip target_date Sample.one_extreme_day nan (of_Z 20) in
  r = (0, zero, zero) /\
  n = 0 /\ e = nan /\ snd (fst r) <> e /\
  SFltb zero (of_Z 20) = true /\ SFdiv 53 1024 e (of_Z 20) = nan /\
  snd r <> SFdiv 53 1024 e (of_Z 20) /\
  Extreme.calc_extreme_precip target_date Sample.one_extreme_day (S754_infinity false) (of_Z 20)
  = (0, zero, zero) /\
  Spec.exceeding_days target_date Sample.one_extreme_day (S754_infinity false) = [] /\
  SFsub 53 1024 (Pandas.sum []) (SFmul 53 1024 (S754_infinity false) (of_Z 0)) = nan.
Proof.
  cbv zeta. repeat split; try (vm_compute; reflexivity); vm_compute; discriminate.
Qed.

(** ** Wet days *)

(** C7.  The wet-days aggregator returns the number of rows of the series
    whose date has the year and the month of the target and whose
    precipitation is strictly greater than the wet-day threshold (1.0 mm
    by default).  For the series (2020-01-05, 15mm), (2020-01-20, 2mm) and
    the default threshold the count for January 2020 is 2; it is still 2
    among days of other months and years, a day at exactly 1.0 mm, a dry
    day and a missing reading. *)
Theorem calc_wet_days_count (target_date : Timestamp) (precip_data : list daily) (t : float) :
  let wet := List.filter (fun d => (year (time d) =? year target_date)
                                   && (month (time d) =? month target_date)
                                   && SFltb t (tp d)) precip_data in
  (forall d, In d wet <->
             In d precip_data /\ year (time d) = year target_date /\
             month (time d) = month target_date /\ SFltb t (tp d) = true) /\
  WetDays.calc_wet_days target_date precip_data t = Z.of_nat (length wet) /\
  WetDays.WET_DAY_THRESHOLD = of_Z 1 /\
  (forall d, WetDays.calc_wet_days (mkTimestamp 2020 1 d) Sample.january_2020
               WetDays.WET_DAY_THRESHOLD = 2) /\
  (forall d, WetDays.calc_wet_days (mkTimestamp 2020 1 d) Sample.january_2020_among_others
               WetDays.WET_DAY_THRESHOLD = 2) /\
  WetDays.calc_wet_days (mkTimestamp 1999 7 1) Sample.january_2020_among_others
    WetDays.WET_DAY_THRESHOLD = 1.
Proof.
  intros wet.
  split; [intros d; apply exceeding_days_In|].
  split; [|split; [reflexivity | split; [|split]]; try intros d; reflexivity].
  unfold WetDays.calc_wet_days, Pandas.sum_bool.
  rewrite sum_bool_from, extreme_rows. reflexivity.
Qed.

(** ** The file drivers *)

Lemma read_csv_Ok {K} `{Countable K} {A} (dir : gmap K A) (name : K) (t : A) :
  read_csv dir name = Ok t -> dir !! name = Some t.
Proof. unfold read_csv. destruct (dir !! name); congruence. Qed.

(** What the row loop leaves in the table when no row raises. *)
Lemma row_loop_Ok {M R} (rm : record -> result M) (ann : record -> M -> R)
    (df : list record) (out : list R) :
  mapM (fun r => ms ← rm r; mret (ann r ms)) df = Ok out ->
  Forall2 (fun r row => exists ms, rm r = Ok ms /\ row = ann r ms) df out.
Proof.
  intros Hloop. apply mapM_Ok in Hloop.
  induction Hloop as [|r row df out Hrow _ IH]; constructor; auto.
  apply bind_Ok in Hrow as (ms & Hms & Hrow). inversion Hrow; eauto.
Qed.

Lemma row_loop_Raise {M R} (rm : record -> result M) (ann : record -> M -> R)
    (df : list record) (r : record) (e : exn) :
  In r df -> rm r = Raise e -> exists e', mapM (fun r => ms ← rm r; mret (ann r ms)) df = Raise e'.
Proof. intros Hin Hr. apply (mapM_Raise _ df r e Hin). now rewrite Hr. Qed.

Lemma extreme_process_file_Some fs O filename O' name :
  Extreme.process_file fs O filename = (O', Some name) ->
  exists df, Extreme.process_file_try fs filename = Ok df /\ O' !! filename = Some df.
Proof.
  unfold Extreme.process_file. destruct (Extreme.process_file_try fs filename) as [df|e];
    intros Hp; inversion Hp; subst. exists df. split; [reflexivity | apply lookup_insert_eq].
Qed.

Lemma wet_days_process_file_Some fs O filename O' name :
  WetDays.process_file fs O filename = (O', Some name) ->
  exists df, WetDays.process_file_try fs filename = Ok df /\ O' !! filename = Some df.
Proof.
  unfold WetDays.process_file. destruct (WetDays.process_file_try fs filename) as [df|e];
    intros Hp; inversion Hp; subst. exists df. split; [reflexivity | apply lookup_insert_eq].
Qed.

Lemma rsd_process_file_Some fs O filename O' name :
  Rsd.process_file fs O filename = (O', Some name) ->
  exists df, Rsd.process_file_try fs filename = Ok df /\ O' !! filename = Some df.
Proof.
  unfold Rsd.process_file. destruct (Rsd.process_file_try fs filename) as [df|e];
    intros Hp; inversion Hp; subst. exists df. split; [reflexivity | apply lookup_insert_eq].
Qed.

(** The rows of a table that was written, pipeline by pipeline. *)
Lemma extreme_rows_written fs filename df :
  Extreme.process_file_try fs filename = Ok df ->
  exists input threshold_df,
    INPUT_DIR fs !! filename = Some input /\ THRESHOLD_FILE fs = Some threshold_df /\
    Forall2 (fun r row => exists ms, Extreme.row_metrics fs threshold_df r = Ok ms /\
                                     row = Extreme.annualize (length (filter_min_year input))
                                             r ms)
            (filter_min_year input) df.
Proof.
  unfold Extreme.process_file_try. intros Hp.
  apply bind_Ok in Hp as (input & Hin%read_csv_Ok & Hp).
  apply bind_Ok in Hp as (th & Hth & Hp).
  exists input, th. split; [exact Hin|]. split.
  - unfold read_threshold_file in Hth. destruct (THRESHOLD_FILE fs); congruence.
  - now apply row_loop_Ok.
Qed.

Lemma wet_days_rows_written fs filename df :
  WetDays.process_file_try fs filename = Ok df ->
  exists input,
    INPUT_DIR fs !! filename = Some input /\
    Forall2 (fun r row => exists ws, WetDays.row_metrics fs r = Ok ws /\
                                     row = WetDays.annualize r ws)
            (filter_min_year input) df.
Proof.
  unfold WetDays.process_file_try. intros Hp.
  apply bind_Ok in Hp as (input & Hin%read_csv_Ok & Hp).
  exists input. split; [exact Hin | now apply row_loop_Ok].
Qed.

Lemma rsd_rows_written fs filename df :
  Rsd.process_file_try fs filename = Ok df ->
  exists input,
    INPUT_DIR fs !! filename = Some input /\
    Forall2 (fun r row => exists ms, Rsd.row_metrics fs r = Ok ms /\
                                     row = Rsd.annualize r ms)
            (filter_min_year input) df.
Proof.
  unfold Rsd.process_file_try. intros Hp.
  apply bind_Ok in Hp as (input & Hin%read_csv_Ok & Hp).
  exists input. split; [exact Hin | now apply row_loop_Ok].
Qed.

Lemma Forall2_src {R} (P : record -> R -> Prop) (src : R -> record) (l : list record)
    (k : list R) :
  Forall2 P l k -> (forall r row, P r row -> src row = r) -> map src k = l.
Proof.
  intros HF Hsrc. rewrite <- (map_id l). apply (Forall2_map_l P src id l k HF). exact Hsrc.
Qed.

Lemma filter_min_year_In (input : list record) (r : record) :
  In r (filter_min_year input) <-> In r input /\ MIN_YEAR <= year (death_date_lag_0 r).
Proof. unfold filter_min_year. rewrite filter_In, Z.leb_le. reflexivity. Qed.

Lemma filter_min_year_sublist (input : list record) : sublist (filter_min_year input) input.
Proof.
  unfold filter_min_year. induction input as [|r input IH]; simpl; [constructor|].
  destruct (MIN_YEAR <=? year (death_date_lag_0 r)); now constructor.
Qed.

(** C6.  In each of the three pipelines, the records of a written table
    are the input records whose reference date has year >= 1981, in the
    input's order: no record of an earlier year is in the output and every
    record of year >= 1981 is. *)
Theorem min_year_filter (fs : files) (filename : string) :
  (forall O O' name, Extreme.process_file fs O filename = (O', Some name) ->
     exists input df, INPUT_DIR fs !! filename = Some input /\ O' !! filename = Some df /\
                      map Extreme.src df = filter_min_year input) /\
  (forall O O' name, Rsd.process_file fs O filename = (O', Some name) ->
     exists input df, INPUT_DIR fs !! filename = Some input /\ O' !! filename = Some df /\
                      map Rsd.src df = filter_min_year input) /\
  (forall O O' name, WetDays.process_file fs O filename = (O', Some name) ->
     exists input df, INPUT_DIR fs !! filename = Some input /\ O' !! filename = Some df /\
                      map WetDays.src df = filter_min_year input) /\
  (forall input r, In r (filter_min_year input) <->
                   In r input /\ 1981 <= year (death_date_lag_0 r)) /\
  (forall input, sublist (filter_min_year input) input).
Proof.
  split; [|split; [|split; [|split]]].
  - intros O O' name (df & Htry & Hout)%extreme_process_file_Some.
    destruct (extreme_rows_written _ _ _ Htry) as (input & th & Hin & _ & Hrows).
    exists input, df. repeat (split; [assumption|]).
    apply (Forall2_src _ _ _ _ Hrows). now intros r row (ms & _ & ->).
  - intros O O' name (df & Htry & Hout)%rsd_process_file_Some.
    destruct (rsd_rows_written _ _ _ Htry) as (input & Hin & Hrows).
    exists input, df. repeat (split; [assumption|]).
    apply (Forall2_src _ _ _ _ Hrows). now intros r row (ms & _ & ->).
  - intros O O' name (df & Htry & Hout)%wet_days_process_file_Some.
    destruct (wet_days_rows_written _ _ _ Htry) as (input & Hin & Hrows).
    exists input, df. repeat (split; [assumption|]).
    apply (Forall2_src _ _ _ _ Hrows). now intros r row (ms & _ & ->).
  - exact filter_min_year_In.
  - exact filter_min_year_sublist.
Qed.

Lemma min_year_filter_witness :
  (exists input df,
     INPUT_DIR Sample.disk_full !! "survey.csv" = Some input /\
     fst (Extreme.process_file Sample.disk_full ∅ "survey.csv") !! "survey.csv" = Some df /\
     map Extreme.src df = filter_min_year input) /\
  (exists input df,
     INPUT_DIR Sample.disk !! "survey.csv" = Some input /\
     fst (Rsd.process_file Sample.disk ∅ "survey.csv") !! "survey.csv" = Some df /\
     map Rsd.src df = filter_min_year input) /\
  (exists input df,
     INPUT_DIR Sample.disk !! "survey.csv" = Some input /\
     fst (WetDays.process_file Sample.disk ∅ "survey.csv") !! "survey.csv" = Some df /\
     map WetDays.src df = filter_min_year input).
Proof.
  split; [|split].
  - destruct (min_year_filter Sample.disk_full "survey.csv") as (H & _).
    apply (H ∅ _ "survey.csv"). vm_compute. reflexivity.
  - destruct (min_year_filter Sample.disk "survey.csv") as (_ & H & _).
    apply (H ∅ _ "survey.csv"). vm_compute. reflexivity.
  - destruct (min_year_filter Sample.disk "survey.csv") as (_ & _ & H & _).
    apply (H ∅ _ "survey.csv"). vm_compute. reflexivity.
Defined.

(** ** Wet days: the annual column *)

Lemma wet_days_row fs r ws :
  WetDays.row_metrics fs r = Ok ws ->
  exists precip,
    load_precip_data fs (DHSID r) (DHS_survey r) = Ok precip /\
    ws = map (fun m => WetDays.calc_wet_days (sub_months (death_date_lag_0 r) m) precip
                         WetDays.WET_DAY_THRESHOLD)
             (range1 N_MONTHS).
Proof.
  unfold WetDays.row_metrics. intros (precip & Hp & Hws)%bind_Ok.
  exists precip. split; [exact Hp | now inversion Hws].
Qed.

Lemma sum_of_twelve (ws : list Z) :
  length ws = 12%nat ->
  fold_left Z.add ws 0
  = nth 0 ws 0 + nth 1 ws 0 + nth 2 ws 0 + nth 3 ws 0 + nth 4 ws 0 + nth 5 ws 0
    + nth 6 ws 0 + nth 7 ws 0 + nth 8 ws 0 + nth 9 ws 0 + nth 10 ws 0 + nth 11 ws 0.
Proof.
  intros Hlen. do 13 (destruct ws as [|? ws]; try discriminate Hlen). simpl. lia.
Qed.

(** C8.  In every row of a table written by the wet-days pipeline, the
    annual wet-days value is the sum of the row's twelve monthly wet-days
    counts. *)
Theorem wet_days_annual_is_sum (fs : files) (O O' : gmap string (list WetDays.out_row))
    (filename name : string) :
  WetDays.process_file fs O filename = (O', Some name) ->
  exists df,
    O' !! filename = Some df /\
    Forall (fun row =>
              let w (m : nat) := nth m (WetDays.wet_days row) 0 in
              length (WetDays.wet_days row) = 12%nat /\
              WetDays.wet_days_annual row
              = w 0%nat + w 1%nat + w 2%nat + w 3%nat + w 4%nat + w 5%nat
                + w 6%nat + w 7%nat + w 8%nat + w 9%nat + w 10%nat + w 11%nat) df.
Proof.
  intros (df & Htry & Hout)%wet_days_process_file_Some.
  exists df. split; [exact Hout|].
  destruct (wet_days_rows_written _ _ _ Htry) as (input & _ & Hrows).
  clear Htry Hout.
  induction Hrows as [|r row l k (ws & Hws & ->) _ IH]; [constructor|].
  constructor; [|exact IH].
  destruct (wet_days_row _ _ _ Hws) as (precip & _ & Hmap).
  assert (Hlen : length ws = 12%nat) by (rewrite Hmap, length_map; reflexivity).
  simpl. split; [exact Hlen | now apply sum_of_twelve].
Qed.

Lemma wet_days_annual_is_sum_witness :
  exists df,
    fst (WetDays.process_file Sample.disk ∅ "survey.csv") !! "survey.csv" = Some df /\
    Forall (fun row =>
              let w (m : nat) := nth m (WetDays.wet_days row) 0 in
              length (WetDays.wet_days row) = 12%nat /\
              WetDays.wet_days_annual row
              = w 0%nat + w 1%nat + w 2%nat + w 3%nat + w 4%nat + w 5%nat
                + w 6%nat + w 7%nat + w 8%nat + w 9%nat + w 10%nat + w 11%nat) df.
Proof.
  apply (wet_days_annual_is_sum Sample.disk ∅ _ "survey.csv" "survey.csv").
  vm_compute. reflexivity.
Defined.

(** ** Lookback months *)

Lemma sub_months_index (ts : Timestamp) (n : Z) :
  1 <= month ts <= 12 -> 0 <= n ->
  month_index (sub_months ts n) = month_index ts - n /\ 1 <= month (sub_months ts n) <= 12.
Proof.
  intros Hm Hn. unfold sub_months, month_index.
  destruct (Z.ltb_spec (month ts - n mod 12) 1); simpl;
    Z.div_mod_to_equations; lia.
Qed.

Lemma Forall2_nth_error {A B} (P : A -> B -> Prop) (l : list A) (k : list B) (i : nat) (x : A) :
  Forall2 P l k -> nth_error l i = Some x -> exists y, nth_error k i = Some y /\ P x y.
Proof.
  intros HF. revert i. induction HF as [|a b l k Hab _ IH]; intros [|i] Hi;
    simpl in *; try discriminate; [inversion Hi; subst; eauto | eauto].
Qed.

Lemma extreme_row fs threshold_df r ms :
  Extreme.row_metrics fs threshold_df r = Ok ms ->
  exists precip threshold avg,
    Extreme.load_precip_data fs (DHSID r) (DHS_survey r) threshold_df
      = Ok (precip, threshold, avg) /\
    ms = map (fun m => Extreme.calc_extreme_precip (sub_months (death_date_lag_0 r) m)
                         precip threshold avg)
             (range1 N_MONTHS).
Proof.
  unfold Extreme.row_metrics. intros ([[precip threshold] avg] & Hp & Hms)%bind_Ok.
  exists precip, threshold, avg. split; [exact Hp | now inversion Hms].
Qed.

Lemma rsd_row fs r rsds cums :
  Rsd.row_metrics fs r = Ok (rsds, cums) ->
  exists precip,
    load_precip_data fs (DHSID r) (DHS_survey r) = Ok precip /\
    Rsd.monthly_rsds (death_date_lag_0 r) precip (Rsd.row_stats fs (DHSID r) precip) = Ok rsds /\
    cums = Rsd.cumulative_rsds rsds.
Proof.
  unfold Rsd.row_metrics. intros (precip & Hp & Hr)%bind_Ok.
  apply bind_Ok in Hr as (rsds' & Hrsds & Hr). inversion Hr; subst. eauto.
Qed.

Lemma monthly_rsds_nth base_date precip stats rsds m :
  Rsd.monthly_rsds base_date precip stats = Ok rsds -> 1 <= m <= 12 ->
  Rsd.calc_monthly_rsd (sub_months base_date m) precip stats
  = Ok (nth (Z.to_nat (m - 1)) rsds zero).
Proof.
  unfold Rsd.monthly_rsds. intros HF%mapM_Ok Hm.
  destruct (Forall2_nth_error _ _ _ _ _ HF (range1_nth N_MONTHS m Hm)) as (y & Hy & ->).
  now rewrite (nth_error_nth _ _ _ Hy).
Qed.

(** The value of the monthly RSD when it has one. *)
Lemma calc_monthly_rsd_value target_date precip_data stats x :
  Rsd.calc_monthly_rsd target_date precip_data stats = Ok x ->
  exists hist_mean,
    Rsd.monthly_mean stats !! month target_date = Some hist_mean /\
    x = if SFeqb (Rsd.monthly_std stats) zero || SFeqb (Rsd.annual_mean stats) zero
        then zero
        else Spec.rsd_formula (Pandas.sum (map tp (Spec.month_days target_date precip_data)))
               hist_mean (Rsd.monthly_std stats) (Rsd.annual_mean stats).
Proof.
  unfold Rsd.calc_monthly_rsd, dict_get.
  destruct (Rsd.monthly_mean stats !! month target_date) as [hist_mean|]; [|discriminate].
  intros Hx. exists hist_mean. split; [reflexivity|].
  change (of_Z 0) with zero in Hx. cbn [mbind result_bind] in Hx.
  change eqb with SFeqb in Hx.
  destruct (SFeqb (Rsd.monthly_std stats) zero || SFeqb (Rsd.annual_mean stats) zero);
    now inversion Hx.
Qed.

(** C5.  For every reference date and every lookback offset m in 1..12 the
    target month is the calendar month exactly m calendar months before
    the reference date: from 2020-03-15, m = 1 gives February 2020 and
    m = 12 gives March 2019 (and from 2020-03-31, m = 1 gives February
    2020, which a shift by 30 days would miss).  In each pipeline the
    column of lookback month m of a record is the aggregator applied to
    that target month and to the series loaded for the record's location:
    the day counts are the numbers of rows of that series with the year
    and the month of the target and a value above the threshold, and the
    monthly RSD is the one of the total of the rows with that year and
    month. *)
Theorem lookback_month_is_calendar_month :
  (forall ts m, 1 <= month ts <= 12 -> 1 <= m <= 12 ->
     month_index (sub_months ts m) = month_index ts - m /\
     1 <= month (sub_months ts m) <= 12) /\
  sub_months (mkTimestamp 2020 3 15) 1 = mkTimestamp 2020 2 15 /\
  sub_months (mkTimestamp 2020 3 15) 12 = mkTimestamp 2019 3 15 /\
  sub_months (mkTimestamp 2020 3 31) 1 = mkTimestamp 2020 2 29 /\
  (forall fs threshold_df r ms m,
     1 <= m <= 12 -> Extreme.row_metrics fs threshold_df r = Ok ms ->
     exists precip threshold avg,
       Extreme.load_precip_data fs (DHSID r) (DHS_survey r) threshold_df
       = Ok (precip, threshold, avg) /\
       nth (Z.to_nat (m - 1)) ms (0, zero, zero)
       = Extreme.calc_extreme_precip (sub_months (death_date_lag_0 r) m) precip threshold avg /\
       fst (fst (nth (Z.to_nat (m - 1)) ms (0, zero, zero)))
       = Z.of_nat (length (List.filter
                             (fun d => (year (time d) =? year (sub_months (death_date_lag_0 r) m))
                                       && (month (time d)
                                           =? month (sub_months (death_date_lag_0 r) m))
                                       && SFltb threshold (tp d))
                             precip))) /\
  (forall fs r ws m,
     1 <= m <= 12 -> WetDays.row_metrics fs r = Ok ws ->
     exists precip,
       load_precip_data fs (DHSID r) (DHS_survey r) = Ok precip /\
       nth (Z.to_nat (m - 1)) ws 0
       = WetDays.calc_wet_days (sub_months (death_date_lag_0 r) m) precip
           WetDays.WET_DAY_THRESHOLD /\
       nth (Z.to_nat (m - 1)) ws 0
       = Z.of_nat (length (List.filter
                             (fun d => (year (time d) =? year (sub_months (death_date_lag_0 r) m))
                                       && (month (time d)
                                           =? month (sub_months (death_date_lag_0 r) m))
                                       && SFltb (of_Z 1) (tp d))
                             precip))) /\
  (forall fs r rsds cums m,
     1 <= m <= 12 -> Rsd.row_metrics fs r = Ok (rsds, cums) ->
     exists precip hist_mean,
       let target_date := sub_months (death_date_lag_0 r) m in
       let stats := Rsd.row_stats fs (DHSID r) precip in
       let actual_total :=
         Pandas.sum (map tp (List.filter
                               (fun d => (year (time d) =? year target_date)
                                         && (month (time d) =? month target_date))
                               precip)) in
       load_precip_data fs (DHSID r) (DHS_survey r) = Ok precip /\
       Rsd.calc_monthly_rsd target_date precip stats = Ok (nth (Z.to_nat (m - 1)) rsds zero) /\
       Rsd.monthly_mean stats !! month target_date = Some hist_mean /\
       nth (Z.to_nat (m - 1)) rsds zero
       = if SFeqb (Rsd.monthly_std stats) zero || SFeqb (Rsd.annual_mean stats) zero
         then zero
         else Spec.rsd_formula actual_total hist_mean
                (Rsd.monthly_std stats) (Rsd.annual_mean stats)).
Proof.
  split; [|split; [|split; [|split; [|split; [|split]]]]]; try reflexivity.
  - intros ts m Hts Hm. apply sub_months_index; lia.
  - intros fs th r ms m Hm (precip & t & a & Hload & ->)%extreme_row.
    exists precip, t, a. rewrite (nth_map_range1 _ N_MONTHS m) by exact Hm.
    split; [exact Hload|]. split; [reflexivity|]. apply calc_extreme_precip_days.
  - intros fs r ws m Hm (precip & Hload & ->)%wet_days_row.
    exists precip. rewrite (nth_map_range1 _ N_MONTHS m) by exact Hm.
    split; [exact Hload|]. split; [reflexivity|]. apply calc_wet_days_length.
  - intros fs r rsds cums m Hm (precip & Hload & Hrsds & _)%rsd_row.
    pose proof (monthly_rsds_nth _ _ _ _ m Hrsds Hm) as Hcalc.
    destruct (calc_monthly_rsd_value _ _ _ _ Hcalc) as (hist_mean & Hkey & Hvalue).
    exists precip, hist_mean. cbv zeta. auto.
Qed.

Lemma lookback_month_is_calendar_month_witness :
  (month_index (sub_months (mkTimestamp 2020 3 15) 5) = month_index (mkTimestamp 2020 3 15) - 5 /\
   1 <= month (sub_months (mkTimestamp 2020 3 15) 5) <= 12) /\
  match WetDays.row_metrics Sample.disk Sample.child_2020 with
  | Ok ws =>
      ws = [0; 0; 1; 1; 1; 1; 1; 1; 1; 1; 1; 1] /\
      exists precip,
        load_precip_data Sample.disk "CI201200000001" Sample.survey = Ok precip /\
        nth 2 ws 0
        = Z.of_nat (length (List.filter (fun d => (year (time d) =? 2019)
                                                  && (month (time d) =? 12)
                                                  && SFltb (of_Z 1) (tp d)) precip))
  | Raise _ => False
  end /\
  match Extreme.row_metrics Sample.disk_full [Sample.stats_1; Sample.stats_2]
          Sample.child_2020 with
  | Ok ms =>
      map (fun x => fst (fst x)) ms = [0; 0; 1; 1; 1; 1; 1; 1; 1; 1; 0; 0] /\
      exists precip threshold avg,
        Extreme.load_precip_data Sample.disk_full "CI201200000001" Sample.survey
          [Sample.stats_1; Sample.stats_2] = Ok (precip, threshold, avg) /\
        nth 9 ms (0, zero, zero)
        = Extreme.calc_extreme_precip (mkTimestamp 2019 5 15) precip threshold avg
  | Raise _ => False
  end /\
  match Rsd.row_metrics Sample.disk Sample.child_2020 with
  | Ok (rsds, cums) =>
      exists precip hist_mean,
        load_precip_data Sample.disk "CI201200000001" Sample.survey = Ok precip /\
        Rsd.monthly_mean (Rsd.row_stats Sample.disk "CI201200000001" precip) !! 12
        = Some hist_mean /\
        Rsd.calc_monthly_rsd (mkTimestamp 2019 12 15) precip
          (Rsd.row_stats Sample.disk "CI201200000001" precip)
        = Ok (nth 2 rsds zero)
  | Raise _ => False
  end.
Proof.
  destruct lookback_month_is_calendar_month as (Hidx & _ & _ & _ & Hextreme & Hwet & Hrsd).
  split; [apply (Hidx (mkTimestamp 2020 3 15) 5); simpl; lia|]. split; [|split].
  - destruct (WetDays.row_metrics Sample.disk Sample.child_2020) as [ws|e] eqn:Hrow;
      [|vm_compute in Hrow; discriminate Hrow].
    destruct (Hwet Sample.disk Sample.child_2020 ws 3) as (precip & Hload & _ & Hcount);
      [lia | exact Hrow |].
    split; [vm_compute in Hrow; now injection Hrow as <-|].
    exists precip. split; [exact Hload | exact Hcount].
  - destruct (Extreme.row_metrics Sample.disk_full [Sample.stats_1; Sample.stats_2]
                Sample.child_2020) as [ms|e] eqn:Hrow;
      [|vm_compute in Hrow; discriminate Hrow].
    destruct (Hextreme Sample.disk_full [Sample.stats_1; Sample.stats_2] Sample.child_2020 ms 10)
      as (precip & threshold & avg & Hload & Hcalc & _); [lia | exact Hrow |].
    split; [vm_compute in Hrow; now injection Hrow as <-|].
    exists precip, threshold, avg. split; [exact Hload | exact Hcalc].
  - destruct (Rsd.row_metrics Sample.disk Sample.child_2020) as [[rsds cums]|e] eqn:Hrow;
      [|vm_compute in Hrow; discriminate Hrow].
    pose proof (Hrsd Sample.disk Sample.child_2020 rsds cums 3) as H. cbv zeta in H.
    destruct H as (precip & hist_mean & Hload & Hcalc & Hkey & _); [lia | exact Hrow |].
    exists precip, hist_mean. split; [exact Hload|]. split; [exact Hkey | exact Hcalc].
Defined.

(** ** Rainfall deviation: the monthly value *)

Lemma month_days_In target_date precip_data (d : daily) :
  In d (Spec.month_days target_date precip_data) <->
  In d precip_data /\ year (time d) = year target_date /\ month (time d) = month target_date.
Proof.
  unfold Spec.month_days. rewrite filter_In, !andb_true_iff, !Z.eqb_eq. tauto.
Qed.

(** C2.  With historical statistics that have a mean for the calendar
    month of the target, the monthly RSD is
    ((actual month total - that mean) / pooled monthly std)
    x (that mean / historical annual mean), and it is 0.0 whenever the
    pooled std is zero or the annual mean is zero.  The actual month total
    is the sum of the precipitation of the rows of the series whose date
    has the year and the month of the target, missing readings skipped:
    with ten days at 0.1mm, 0.2mm, ... 1.0mm in January 2020 (and other
    days in January 2019 and February 2020) it is 5.5, so that a mean of
    3.5, a std of 1 and an annual mean of 3.5 give an RSD of 2.0. *)
Theorem calc_monthly_rsd_formula (target_date : Timestamp) (precip_data : list daily)
    (stats : Rsd.hist_stats) (hist_mean : float) :
  Rsd.monthly_mean stats !! month target_date = Some hist_mean ->
  let hist_std := Rsd.monthly_std stats in
  let annual_mean := Rsd.annual_mean stats in
  let month_days :=
    List.filter (fun d => (year (time d) =? year target_date)
                          && (month (time d) =? month target_date)) precip_data in
  let actual_total := Pandas.sum (map tp month_days) in
  (forall d, In d month_days <->
             In d precip_data /\ year (time d) = year target_date /\
             month (time d) = month target_date) /\
  (SFeqb hist_std zero = true \/ SFeqb annual_mean zero = true ->
   Rsd.calc_monthly_rsd target_date precip_data stats = Ok zero) /\
  (SFeqb hist_std zero = false -> SFeqb annual_mean zero = false ->
   Rsd.calc_monthly_rsd target_date precip_data stats
   = Ok (SFmul 53 1024 (SFdiv 53 1024 (SFsub 53 1024 actual_total hist_mean) hist_std)
                       (SFdiv 53 1024 hist_mean annual_mean))) /\
  (Forall (fun x => is_nan x = false) (map tp month_days) -> (length month_days < 8)%nat ->
   actual_total = Spec.sum_in_order (map tp month_days)) /\
  Pandas.sum (map tp (Spec.month_days (mkTimestamp 2020 1 15) Sample.tenths))
  = of_dyadic 11 (-1) /\
  Rsd.calc_monthly_rsd (mkTimestamp 2020 1 15) Sample.tenths
    (Rsd.mkHist {[ 1 := of_dyadic 7 (-1) ]} (of_Z 1) (of_dyadic 7 (-1)))
  = Ok (of_Z 2) /\
  Rsd.calc_monthly_rsd (mkTimestamp 2020 1 15) Sample.with_gap
    (Rsd.mkHist {[ 1 := of_Z 7 ]} (of_Z 2) (of_Z 7))
  = Ok (of_Z 5).
Proof.
  intros Hkey hist_std annual_mean month_days actual_total.
  split; [intros d; apply month_days_In|].
  assert (Hcalc : Rsd.calc_monthly_rsd target_date precip_data stats
                  = Ok (if SFeqb hist_std zero || SFeqb annual_mean zero then zero
                        else Spec.rsd_formula actual_total hist_mean hist_std annual_mean)).
  { unfold Rsd.calc_monthly_rsd, dict_get. rewrite Hkey. cbn [mbind result_bind].
    change (of_Z 0) with zero. change eqb with SFeqb. fold hist_std annual_mean.
    now destruct (SFeqb hist_std zero || SFeqb annual_mean zero). }
  rewrite Hcalc. split; [|split; [|split; [|repeat split; vm_compute; reflexivity]]].
  - intros [-> | ->]; [reflexivity | now rewrite orb_true_r].
  - intros -> ->. reflexivity.
  - intros Hnan Hlen. apply pandas_sum_short; [exact Hnan | now rewrite length_map].
Qed.

Lemma calc_monthly_rsd_formula_witness :
  let stats := Rsd.calculate_historical_stats Sample.two_years in
  let target_date := mkTimestamp 2019 5 15 in
  Rsd.calc_monthly_rsd target_date Sample.two_years stats
  = Ok (Spec.rsd_formula (of_Z 51) (of_dyadic 101 (-1))
          (Rsd.monthly_std stats) (Rsd.annual_mean stats))
  /\ Rsd.calc_monthly_rsd target_date Sample.two_years
       (Rsd.mkHist (Rsd.monthly_mean stats) zero (Rsd.annual_mean stats)) = Ok zero.
Proof.
  intros stats target_date. split.
  - pose proof (calc_monthly_rsd_formula target_date Sample.two_years stats
                  (of_dyadic 101 (-1))) as H.
    cbv zeta in H. destruct H as (_ & _ & H & _); [vm_compute; reflexivity|].
    rewrite H; [vm_compute; reflexivity | vm_compute; reflexivity | vm_compute; reflexivity].
  - pose proof (calc_monthly_rsd_formula target_date Sample.two_years
                  (Rsd.mkHist (Rsd.monthly_mean stats) zero (Rsd.annual_mean stats))
                  (of_dyadic 101 (-1))) as H.
    cbv zeta in H. destruct H as (_ & H & _); [vm_compute; reflexivity|].
    apply H. left. reflexivity.
Defined.

(** ** Rainfall deviation: cumulative values *)

Lemma has_all_months_lookup (stats : Rsd.hist_stats) (m : Z) :
  Spec.has_all_months stats = true -> 1 <= m <= 12 ->
  exists v, Rsd.monthly_mean stats !! m = Some v.
Proof.
  unfold Spec.has_all_months. rewrite forallb_forall. intros Hall Hm.
  specialize (Hall m (proj2 (range1_In 12 m) Hm)).
  destruct (Rsd.monthly_mean stats !! m); [eauto | discriminate].
Qed.

Lemma calc_monthly_rsd_total target_date precip_data stats :
  Spec.has_all_months stats = true -> 1 <= month target_date <= 12 ->
  exists x, Rsd.calc_monthly_rsd target_date precip_data stats = Ok x.
Proof.
  intros Hall Hm. destruct (has_all_months_lookup stats _ Hall Hm) as [v Hv].
  unfold Rsd.calc_monthly_rsd, dict_get. rewrite Hv. simpl.
  destruct (_ || _); eauto.
Qed.

(** The twelve monthly values exist when the statistics are complete. *)
Lemma monthly_rsds_total base_date precip stats :
  Spec.has_all_months stats = true -> 1 <= month base_date <= 12 ->
  exists rsds, Rsd.monthly_rsds base_date precip stats = Ok rsds.
Proof.
  intros Hall Hm. apply mapM_total. intros m Hin%range1_In.
  apply calc_monthly_rsd_total; [exact Hall|].
  apply sub_months_index; [exact Hm | lia].
Qed.

Lemma monthly_rsds_length base_date precip stats rsds :
  Rsd.monthly_rsds base_date precip stats = Ok rsds -> length rsds = 12%nat.
Proof.
  unfold Rsd.monthly_rsds. intros HF%mapM_Ok.
  apply Forall2_length in HF. rewrite <- HF. reflexivity.
Qed.

(** The accumulation loop over a prefix of the months adds up the prefix
    of the values the row loop collected. *)
Lemma cumulative_loop (f : Z -> result float) (ms : list Z) (rs : list float) :
  mapM f ms = Ok rs ->
  forall (n : nat) (acc : float),
    fold_left (fun (a : result float) i => c ← a; x ← f i; mret (add c x))
              (firstn n ms) (Ok acc)
    = Ok (fold_left add (firstn n rs) acc).
Proof.
  revert rs. induction ms as [|m ms IH]; intros rs Hrs n acc.
  - inversion Hrs. now destruct n.
  - simpl in Hrs. apply bind_Ok in Hrs as (y & Hy & Hrs).
    apply bind_Ok in Hrs as (rs' & Hrs' & Hrs). inversion Hrs; subst.
    destruct n as [|n]; [reflexivity|]. simpl. rewrite Hy. simpl. now apply IH.
Qed.

Lemma calc_cumulative_rsd_prefix base_date precip stats rsds k :
  Rsd.monthly_rsds base_date precip stats = Ok rsds -> 1 <= k <= 12 ->
  Rsd.calc_cumulative_rsd base_date precip stats k
  = Ok (fold_left add (firstn (Z.to_nat k) rsds) zero).
Proof.
  intros Hrsds Hk. unfold Rsd.calc_cumulative_rsd.
  rewrite <- (range1_firstn k N_MONTHS) by (unfold N_MONTHS; lia).
  exact (cumulative_loop _ _ _ Hrsds (Z.to_nat k) zero).
Qed.

Lemma cumulative_rsds_nth rsds k :
  1 <= k <= 12 ->
  nth (Z.to_nat (k - 1)) (Rsd.cumulative_rsds rsds) zero
  = fold_left add (firstn (Z.to_nat k) rsds) zero.
Proof.
  intros Hk. unfold Rsd.cumulative_rsds. now rewrite (nth_map_range1 _ N_MONTHS k).
Qed.

(** C4.  For every record, daily series, statistics and k in 1..12, the
    cumulative RSD at offset k is the sum of the k monthly RSD values of
    the offsets 1..k before the record's reference date, and the
    standalone cumulative function and the prefix sums of the file driver
    agree on it.  With a mean for every calendar month the values exist. *)
Theorem cumulative_rsd_is_sum_of_monthly (k : Z) :
  1 <= k <= 12 ->
  (forall base_date precip stats rsds,
     Rsd.monthly_rsds base_date precip stats = Ok rsds ->
     let total := fold_left add (firstn (Z.to_nat k) rsds) zero in
     (forall i, 1 <= i <= k ->
        Rsd.calc_monthly_rsd (sub_months base_date i) precip stats
        = Ok (nth (Z.to_nat (i - 1)) rsds zero)) /\
     Rsd.calc_cumulative_rsd base_date precip stats k = Ok total /\
     nth (Z.to_nat (k - 1)) (Rsd.cumulative_rsds rsds) zero = total) /\
  (forall fs r rsds cums,
     Rsd.row_metrics fs r = Ok (rsds, cums) ->
     exists precip,
       load_precip_data fs (DHSID r) (DHS_survey r) = Ok precip /\
       Rsd.calc_cumulative_rsd (death_date_lag_0 r) precip
         (Rsd.row_stats fs (DHSID r) precip) k
       = Ok (nth (Z.to_nat (k - 1)) cums zero)) /\
  (forall base_date precip stats,
     Spec.has_all_months stats = true -> 1 <= month base_date <= 12 ->
     exists rsds, Rsd.monthly_rsds base_date precip stats = Ok rsds /\ length rsds = 12%nat).
Proof.
  intros Hk. split; [|split].
  - intros base_date precip stats rsds Hrsds total. split; [|split].
    + intros i Hi. apply monthly_rsds_nth; [exact Hrsds | lia].
    + now apply calc_cumulative_rsd_prefix.
    + now apply cumulative_rsds_nth.
  - intros fs r rsds cums (precip & Hp & Hrsds & ->)%rsd_row.
    exists precip. split; [exact Hp|].
    rewrite (cumulative_rsds_nth rsds k Hk). now apply calc_cumulative_rsd_prefix.
  - intros base_date precip stats Hall Hm.
    destruct (monthly_rsds_total base_date precip stats Hall Hm) as [rsds Hrsds].
    exists rsds. split; [exact Hrsds | exact (monthly_rsds_length _ _ _ _ Hrsds)].
Qed.

Lemma cumulative_rsd_is_sum_of_monthly_witness :
  let base_date := mkTimestamp 2019 12 20 in
  let stats := Rsd.calculate_historical_stats Sample.two_years in
  (exists rsds,
     Rsd.monthly_rsds base_date Sample.two_years stats = Ok rsds /\
     Rsd.calc_cumulative_rsd base_date Sample.two_years stats 3
     = Ok (fold_left add (firstn 3 rsds) zero) /\
     nth 2 (Rsd.cumulative_rsds rsds) zero = fold_left add (firstn 3 rsds) zero) /\
  match Rsd.row_metrics Sample.disk Sample.child_2020 with
  | Ok (rsds, cums) =>
      exists precip,
        load_precip_data Sample.disk (DHSID Sample.child_2020) (DHS_survey Sample.child_2020)
        = Ok precip /\
        Rsd.calc_cumulative_rsd (mkTimestamp 2020 3 15) precip
          (Rsd.row_stats Sample.disk (DHSID Sample.child_2020) precip) 3
        = Ok (nth 2 cums zero)
  | Raise _ => False
  end.
Proof.
  intros base_date stats.
  destruct (cumulative_rsd_is_sum_of_monthly 3) as (Hsum & Hrow & Htotal); [lia|].
  split.
  - destruct (Htotal base_date Sample.two_years stats) as (rsds & Hrsds & _);
      [vm_compute; reflexivity | simpl; lia |].
    exists rsds. split; [exact Hrsds|].
    destruct (Hsum base_date Sample.two_years stats rsds Hrsds) as (_ & Hc & Hn).
    split; [exact Hc | exact Hn].
  - destruct (Rsd.row_metrics Sample.disk Sample.child_2020) as [[rsds cums]|e] eqn:Hm;
      [|vm_compute in Hm; discriminate Hm].
    exact (Hrow Sample.disk Sample.child_2020 rsds cums Hm).
Defined.

(** ** Rainfall deviation: the sign columns *)

Lemma positive_part_nonneg (x : float) : leb zero (Rsd.positive_part x) = true.
Proof. destruct x as [[]|[]| |[] m e]; reflexivity. Qed.

Lemma negative_part_nonpos (x : float) : leb (Rsd.negative_part x) zero = true.
Proof. destruct x as [[]|[]| |[] m e]; reflexivity. Qed.

Lemma sign_parts_add (x : float) :
  is_nan x = false -> eqb (add (Rsd.positive_part x) (Rsd.negative_part x)) x = true.
Proof.
  destruct x as [[]|[]| |[] m e]; intros Hx; try discriminate Hx; try reflexivity.
  - exact (eqb_refl (S754_finite true m e) eq_refl).
  - exact (eqb_refl (S754_finite false m e) eq_refl).
Qed.

(** Of a NaN both parts are 0, and their sum is not the NaN. *)
Lemma sign_parts_of_nan :
  Rsd.positive_part nan = zero /\ Rsd.negative_part nan = zero /\
  eqb (add (Rsd.positive_part nan) (Rsd.negative_part nan)) nan = false.
Proof. repeat split. Qed.

(** C10 (amended).  In every row of a table written by the
    rainfall-deviation pipeline, the annual RSD is the twelfth cumulative
    value, rsd_positive is the annual RSD when that is strictly positive
    and 0 otherwise, rsd_negative is the annual RSD when that is strictly
    negative and 0 otherwise, rsd_positive >= 0 and rsd_negative <= 0; and
    when the annual RSD is a number (not NaN), rsd_positive + rsd_negative
    equals it. *)
Theorem rsd_sign_columns (fs : files) (O O' : gmap string (list Rsd.out_row))
    (filename name : string) :
  Rsd.process_file fs O filename = (O', Some name) ->
  exists df,
    O' !! filename = Some df /\
    Forall (fun row =>
              let x := Rsd.rsd_annual row in
              x = nth 11 (Rsd.rsd_cumulative row) zero /\
              Rsd.rsd_positive row = (if gtb x zero then x else zero) /\
              Rsd.rsd_negative row = (if ltb x zero then x else zero) /\
              leb zero (Rsd.rsd_positive row) = true /\
              leb (Rsd.rsd_negative row) zero = true /\
              (is_nan x = false ->
               eqb (add (Rsd.rsd_positive row) (Rsd.rsd_negative row)) x = true)) df.
Proof.
  intros (df & Htry & Hout)%rsd_process_file_Some.
  exists df. split; [exact Hout|].
  destruct (rsd_rows_written _ _ _ Htry) as (input & _ & Hrows). clear Htry Hout.
  induction Hrows as [|r row l k (ms & _ & ->) _ IH]; [constructor|].
  constructor; [|exact IH]. simpl.
  split; [reflexivity|]. split; [reflexivity|]. split; [reflexivity|].
  split; [apply positive_part_nonneg|]. split; [apply negative_part_nonpos|].
  apply sign_parts_add.
Qed.

Lemma rsd_sign_columns_witness :
  exists df,
    fst (Rsd.process_file Sample.disk_full ∅ "survey.csv") !! "survey.csv" = Some df /\
    Forall (fun row =>
              let x := Rsd.rsd_annual row in
              x = nth 11 (Rsd.rsd_cumulative row) zero /\
              Rsd.rsd_positive row = (if gtb x zero then x else zero) /\
              Rsd.rsd_negative row = (if ltb x zero then x else zero) /\
              leb zero (Rsd.rsd_positive row) = true /\
              leb (Rsd.rsd_negative row) zero = true /\
              (is_nan x = false ->
               eqb (add (Rsd.rsd_positive row) (Rsd.rsd_negative row)) x = true)) df.
Proof.
  apply (rsd_sign_columns Sample.disk_full ∅ _ "survey.csv" "survey.csv").
  vm_compute. reflexivity.
Defined.

(** C10 as stated fails on a row whose annual RSD is NaN: the location of
    the third record of [Sample.disk] has no precomputed statistics and a
    series that starts after the historical period. *)
Lemma rsd_sign_columns_nan_row :
  exists df row,
    fst (Rsd.process_file Sample.disk ∅ "survey.csv") !! "survey.csv" = Some df /\
    In row df /\
    Rsd.src row = Sample.child_2022 /\
    is_nan (Rsd.rsd_annual row) = true /\
    Rsd.rsd_positive row = zero /\
    Rsd.rsd_negative row = zero /\
    eqb (add (Rsd.rsd_positive row) (Rsd.rsd_negative row)) (Rsd.rsd_annual row) = false.
Proof.
  eexists. eexists. split; [vm_compute; reflexivity|].
  split; [right; left; reflexivity|]. repeat split.
Qed.

(** ** Degenerate statistics *)

(** The guard of the monthly RSD tests for zeros only: a NaN standard
    deviation goes through the formula. *)
Lemma calc_monthly_rsd_nan_std target_date precip_data stats hist_mean :
  Rsd.monthly_mean stats !! month target_date = Some hist_mean ->
  is_nan (Rsd.monthly_std stats) = true -> eqb (Rsd.annual_mean stats) zero = false ->
  Rsd.calc_monthly_rsd target_date precip_data stats = Ok nan.
Proof.
  intros Hkey Hstd Hannual. unfold Rsd.calc_monthly_rsd, dict_get.
  rewrite Hkey. change (of_Z 0) with zero. rewrite Hannual. simpl.
  destruct (Rsd.monthly_std stats); try discriminate Hstd. simpl.
  now destruct (sub _ _) as [[]|[]| |[] m e].
Qed.

(** The intensity of the extreme-precipitation aggregator is 0.0 when the
    wet-day mean is NaN or not positive. *)
Lemma intensity_zero_without_mean target_date precip_data t a :
  gtb a zero = false ->
  snd (Extreme.calc_extreme_precip target_date precip_data t a) = zero.
Proof.
  intros Ha. unfold Extreme.calc_extreme_precip.
  destruct (_ =? 0); [reflexivity|]. cbv zeta. change (of_Z 0) with zero. now rewrite Ha.
Qed.

(** C3 (the code departs from the claim).  A location whose series starts
    after the historical period has NaN statistics, and its monthly RSD is
    NaN, not 0.0: the guard of [calc_monthly_rsd] compares with zero only.
    The extreme-precipitation intensity is 0.0 for a NaN wet-day mean. *)
Theorem monthly_rsd_nan_without_history :
  let stats := Rsd.calculate_historical_stats Sample.only_2021 in
  is_nan (Rsd.monthly_std stats) = true /\
  is_nan (Rsd.annual_mean stats) = true /\
  Rsd.monthly_mean stats !! 1 = Some nan /\
  Rsd.calc_monthly_rsd (mkTimestamp 2021 1 15) Sample.only_2021 stats = Ok nan /\
  (exists df row,
     fst (Rsd.process_file Sample.disk ∅ "survey.csv") !! "survey.csv" = Some df /\
     In row df /\ Rsd.src row = Sample.child_2022 /\
     Rsd.rsd_month row = repeat nan 12 /\ Rsd.rsd_annual row = nan) /\
  (forall target_date precip_data t,
     snd (Extreme.calc_extreme_precip target_date precip_data t nan) = zero).
Proof.
  intros stats. do 4 (split; [vm_compute; reflexivity|]). split.
  - eexists. eexists. split; [vm_compute; reflexivity|].
    split; [right; left; reflexivity|]. repeat split.
  - intros. now apply intensity_zero_without_mean.
Qed.

(** ** Lookup failures *)

Lemma load_precip_data_unmapped fs dhsid survey_id city_map :
  CITY_LIST_DIR fs !! survey_id = Some city_map -> city_rows dhsid city_map = [] ->
  load_precip_data fs dhsid survey_id = Raise IndexError.
Proof.
  intros Hmap Hrows. unfold load_precip_data, read_csv. rewrite Hmap. simpl.
  now rewrite Hrows.
Qed.

Lemma extreme_load_unmapped fs dhsid survey_id threshold_df city_map :
  CITY_LIST_DIR fs !! survey_id = Some city_map -> city_rows dhsid city_map = [] ->
  Extreme.load_precip_data fs dhsid survey_id threshold_df = Raise IndexError.
Proof.
  intros Hmap Hrows. unfold Extreme.load_precip_data.
  now rewrite (load_precip_data_unmapped _ _ _ _ Hmap Hrows).
Qed.

Lemma extreme_load_no_threshold fs dhsid survey_id threshold_df :
  stats_rows dhsid threshold_df = [] ->
  exists e, Extreme.load_precip_data fs dhsid survey_id threshold_df = Raise e.
Proof.
  intros Hrows. unfold Extreme.load_precip_data.
  destruct (load_precip_data fs dhsid survey_id) as [precip|e]; simpl; [|eauto].
  rewrite Hrows. simpl. eauto.
Qed.

Lemma extreme_row_Raise fs threshold_df r e :
  Extreme.load_precip_data fs (DHSID r) (DHS_survey r) threshold_df = Raise e ->
  Extreme.row_metrics fs threshold_df r = Raise e.
Proof. intros H. unfold Extreme.row_metrics. now rewrite H. Qed.

Lemma extreme_file_fails fs filename input r :
  INPUT_DIR fs !! filename = Some input -> In r (filter_min_year input) ->
  (forall threshold_df, THRESHOLD_FILE fs = Some threshold_df ->
     exists e, Extreme.load_precip_data fs (DHSID r) (DHS_survey r) threshold_df = Raise e) ->
  forall O, Extreme.process_file fs O filename = (O, None).
Proof.
  intros Hin Hr Hload O. unfold Extreme.process_file, Extreme.process_file_try, read_csv,
    read_threshold_file.
  rewrite Hin. simpl. destruct (THRESHOLD_FILE fs) as [th|]; simpl; [|reflexivity].
  destruct (Hload th eq_refl) as [e He%extreme_row_Raise].
  destruct (row_loop_Raise _ (Extreme.annualize (length (filter_min_year input))) _ r e Hr He)
    as [e' ->]. reflexivity.
Qed.

Lemma wet_days_file_fails fs filename input r e :
  INPUT_DIR fs !! filename = Some input -> In r (filter_min_year input) ->
  load_precip_data fs (DHSID r) (DHS_survey r) = Raise e ->
  forall O, WetDays.process_file fs O filename = (O, None).
Proof.
  intros Hin Hr Hload O. unfold WetDays.process_file, WetDays.process_file_try, read_csv.
  rewrite Hin. simpl.
  assert (He : WetDays.row_metrics fs r = Raise e)
    by (unfold WetDays.row_metrics; now rewrite Hload).
  destruct (row_loop_Raise _ WetDays.annualize _ r e Hr He) as [e' ->]. reflexivity.
Qed.

Lemma rsd_file_fails fs filename input r e :
  INPUT_DIR fs !! filename = Some input -> In r (filter_min_year input) ->
  load_precip_data fs (DHSID r) (DHS_survey r) = Raise e ->
  forall O, Rsd.process_file fs O filename = (O, None).
Proof.
  intros Hin Hr Hload O. unfold Rsd.process_file, Rsd.process_file_try, read_csv.
  rewrite Hin. simpl.
  assert (He : Rsd.row_metrics fs r = Raise e)
    by (unfold Rsd.row_metrics; now rewrite Hload).
  destruct (row_loop_Raise _ Rsd.annualize _ r e Hr He) as [e' ->]. reflexivity.
Qed.

Lemma missing_input_fails fs filename :
  INPUT_DIR fs !! filename = None ->
  (forall O, Extreme.process_file fs O filename = (O, None)) /\
  (forall O, Rsd.process_file fs O filename = (O, None)) /\
  (forall O, WetDays.process_file fs O filename = (O, None)).
Proof.
  intros Hin. repeat split; intros O;
    unfold Extreme.process_file, Extreme.process_file_try,
           Rsd.process_file, Rsd.process_file_try,
           WetDays.process_file, WetDays.process_file_try, read_csv;
    now rewrite Hin.
Qed.

Lemma row_stats_fallback fs dhsid precip threshold_df :
  THRESHOLD_FILE fs = Some threshold_df -> stats_rows dhsid threshold_df = [] ->
  Rsd.row_stats fs dhsid precip = Rsd.calculate_historical_stats precip.
Proof.
  intros Hth Hrows.
  unfold Rsd.row_stats, Rsd.load_precomputed_stats, Rsd.HISTORICAL_STATS_FILE.
  now rewrite Hth, Hrows.
Qed.

(** C9 (amended).  For a record that passes the year filter: when its
    identifier has no row in its survey's mapping table, the file is
    marked failed in all three pipelines; when it has no row in the
    threshold table, the file is marked failed in the extreme-precipitation
    pipeline; in both cases exactly as for a missing input file (nothing is
    written, [None] is returned).  In the rainfall-deviation pipeline an
    identifier without a row in the table of precomputed statistics is not
    a failure: the statistics are computed from the location's series. *)
Theorem lookup_miss_fails_file (fs : files) (filename : string) :
  (forall input r city_map,
     INPUT_DIR fs !! filename = Some input -> In r (filter_min_year input) ->
     CITY_LIST_DIR fs !! DHS_survey r = Some city_map ->
     city_rows (DHSID r) city_map = [] ->
     (forall O, Extreme.process_file fs O filename = (O, None)) /\
     (forall O, Rsd.process_file fs O filename = (O, None)) /\
     (forall O, WetDays.process_file fs O filename = (O, None))) /\
  (forall input r threshold_df,
     INPUT_DIR fs !! filename = Some input -> In r (filter_min_year input) ->
     THRESHOLD_FILE fs = Some threshold_df ->
     stats_rows (DHSID r) threshold_df = [] ->
     forall O, Extreme.process_file fs O filename = (O, None)) /\
  (INPUT_DIR fs !! filename = None ->
     (forall O, Extreme.process_file fs O filename = (O, None)) /\
     (forall O, Rsd.process_file fs O filename = (O, None)) /\
     (forall O, WetDays.process_file fs O filename = (O, None))) /\
  (forall dhsid precip threshold_df,
     THRESHOLD_FILE fs = Some threshold_df -> stats_rows dhsid threshold_df = [] ->
     Rsd.row_stats fs dhsid precip = Rsd.calculate_historical_stats precip).
Proof.
  split; [|split; [|split]].
  - intros input r city_map Hin Hr Hmap Hrows. split; [|split].
    + apply (extreme_file_fails fs filename input r Hin Hr). intros th _.
      exists IndexError. now apply (extreme_load_unmapped _ _ _ _ city_map).
    + apply (rsd_file_fails fs filename input r IndexError Hin Hr).
      now apply (load_precip_data_unmapped _ _ _ city_map).
    + apply (wet_days_file_fails fs filename input r IndexError Hin Hr).
      now apply (load_precip_data_unmapped _ _ _ city_map).
  - intros input r th Hin Hr Hth Hrows.
    apply (extreme_file_fails fs filename input r Hin Hr). intros th' Hth'.
    assert (th' = th) as -> by congruence.
    now apply extreme_load_no_threshold.
  - apply missing_input_fails.
  - intros dhsid precip th. apply row_stats_fallback.
Qed.

Lemma lookup_miss_fails_file_witness :
  snd (Extreme.process_file Sample.disk_unmapped ∅ "survey.csv") = None /\
  snd (Rsd.process_file Sample.disk_unmapped ∅ "survey.csv") = None /\
  snd (WetDays.process_file Sample.disk_unmapped ∅ "survey.csv") = None /\
  snd (Extreme.process_file Sample.disk ∅ "survey.csv") = None /\
  snd (Rsd.process_file Sample.disk ∅ "absent.csv") = None /\
  Rsd.row_stats Sample.disk_partial "CI201200000001" Sample.two_years
  = Rsd.calculate_historical_stats Sample.two_years.
Proof.
  destruct (lookup_miss_fails_file Sample.disk_unmapped "survey.csv") as (Hmap & _).
  destruct (Hmap [Sample.child_2020; Sample.child_unmapped] Sample.child_unmapped
              [mkCity "CI201200000001" 7; mkCity "CI201200000002" 8])
    as (He & Hr & Hw);
    [vm_compute; reflexivity | right; left; reflexivity | vm_compute; reflexivity
    | reflexivity |].
  destruct (lookup_miss_fails_file Sample.disk "survey.csv") as (_ & Hth & _).
  destruct (lookup_miss_fails_file Sample.disk "absent.csv") as (_ & _ & Hfile & _).
  destruct (lookup_miss_fails_file Sample.disk_partial "survey.csv") as (_ & _ & _ & Hstats).
  split; [now rewrite He|]. split; [now rewrite Hr|]. split; [now rewrite Hw|].
  split; [|split].
  - rewrite (Hth [Sample.child_1979; Sample.child_2020; Sample.child_2022] Sample.child_2022
               [Sample.stats_1]); [reflexivity | vm_compute; reflexivity
               | right; left; reflexivity | reflexivity | reflexivity].
  - destruct Hfile as (_ & Hr' & _); [vm_compute; reflexivity|]. now rewrite Hr'.
  - apply (Hstats _ _ [Sample.stats_2]); reflexivity.
Defined.

(** C9 as stated fails for the table of precomputed statistics of the
    rainfall-deviation pipeline: the record's identifier has no row in it,
    and the file is processed and written. *)
Lemma stats_miss_does_not_fail_rsd_file :
  INPUT_DIR Sample.disk_partial !! "survey.csv" = Some [Sample.child_2020] /\
  In Sample.child_2020 (filter_min_year [Sample.child_2020]) /\
  THRESHOLD_FILE Sample.disk_partial = Some [Sample.stats_2] /\
  stats_rows (DHSID Sample.child_2020) [Sample.stats_2] = [] /\
  snd (Rsd.process_file Sample.disk_partial ∅ "survey.csv") = Some "survey.csv" /\
  exists df, fst (Rsd.process_file Sample.disk_partial ∅ "survey.csv") !! "survey.csv" = Some df
             /\ map Rsd.src df = [Sample.child_2020].
Proof.
  split; [vm_compute; reflexivity|]. split; [left; reflexivity|].
  split; [reflexivity|]. split; [reflexivity|]. split; [vm_compute; reflexivity|].
  eexists. split; vm_compute; reflexivity.
Qed.

(** * Further properties of the code *)

(** ** The order of floats *)

Lemma leb_ltb_trans (a b c : float) : leb a b = true -> ltb b c = true -> ltb a c = true.
Proof.
  unfold leb, ltb, SFleb, SFltb, SFcompare.
  destruct a as [sa|sa| |sa ma ea], b as [sb|sb| |sb mb eb], c as [sc|sc| |sc mc ec];
    try destruct sa; try destruct sb; try destruct sc; simpl;
    try discriminate; try reflexivity; try (intros _ H; exact H); try (intros H _; exact H);
    change (Pos.compare_cont Eq ?x ?y) with (Pos.compare x y) in *;
    destruct (Z.compare_spec ea eb), (Z.compare_spec eb ec), (Z.compare_spec ea ec);
    simpl; try discriminate; try reflexivity; try lia; subst;
    destruct (Pos.compare_spec ma mb), (Pos.compare_spec mb mc), (Pos.compare_spec ma mc);
    simpl; try discriminate; try reflexivity; try lia.
Qed.

Lemma gtb_nan_l (t : float) : gtb nan t = false.
Proof. now destruct t as [[]|[]| |[] m e]. Qed.

Lemma gtb_nan_r (x : float) : gtb x nan = false.
Proof. reflexivity. Qed.

(** ** Counting days *)

Lemma filter_length_le {A} (p : A -> bool) (l : list A) :
  (length (List.filter p l) <= length l)%nat.
Proof. induction l as [|x l IH]; simpl; [lia|]. destruct (p x); simpl; lia. Qed.

Lemma filter_length_mono {A} (p q : A -> bool) (l : list A) :
  (forall x, p x = true -> q x = true) ->
  (length (List.filter p l) <= length (List.filter q l))%nat.
Proof.
  intros Hpq. induction l as [|x l IH]; simpl; [lia|].
  destruct (p x) eqn:Hp.
  - rewrite (Hpq x Hp). simpl. lia.
  - destruct (q x); simpl; lia.
Qed.

Lemma filter_Permutation_list {A} (p : A -> bool) (l l' : list A) :
  Permutation l l' -> Permutation (List.filter p l) (List.filter p l').
Proof.
  induction 1 as [|x l l' _ IH|x y l|l l' l'' _ IH1 _ IH2]; simpl.
  - constructor.
  - destruct (p x); [now constructor | exact IH].
  - destruct (p x), (p y); try reflexivity. apply perm_swap.
  - now transitivity (List.filter p l').
Qed.

Lemma filter_none {A} (p : A -> bool) (l : list A) :
  (forall x, In x l -> p x = false) -> List.filter p l = [].
Proof.
  induction l as [|x l IH]; intros Hp; simpl; [reflexivity|].
  rewrite (Hp x (or_introl eq_refl)). apply IH. intros y Hy. apply Hp. now right.
Qed.

Lemma filter_all {A} (p : A -> bool) (l : list A) :
  (forall x, In x l -> p x = true) -> List.filter p l = l.
Proof.
  induction l as [|x l IH]; intros Hp; simpl; [reflexivity|].
  rewrite (Hp x (or_introl eq_refl)). f_equal. apply IH. intros y Hy. apply Hp. now right.
Qed.

Lemma exceeding_days_of_month target_date precip_data t :
  Spec.exceeding_days target_date precip_data t
  = List.filter (fun d => gtb (tp d) t) (monthly_rows target_date precip_data).
Proof. symmetry. apply extreme_rows. Qed.

Lemma NoDup_map_filter {A B} (f : A -> B) (p : A -> bool) (l : list A) :
  NoDup (map f l) -> NoDup (map f (List.filter p l)).
Proof.
  induction l as [|x l IH]; simpl; intros Hnd; [constructor|].
  apply NoDup_cons in Hnd as [Hx Hnd]. destruct (p x); simpl; [|auto].
  constructor; [|auto]. intros Hin%list_elem_of_In.
  apply in_map_iff in Hin as (y & Hy & Hin).
  apply Hx, list_elem_of_In, in_map_iff. exists y. split; [exact Hy|].
  now apply filter_In in Hin.
Qed.

(** A series with one row per date has at most as many rows in a month as
    the month has days. *)
Lemma monthly_rows_bound target_date precip_data :
  NoDup (map time precip_data) ->
  Forall (fun d => valid (time d)) precip_data ->
  Z.of_nat (length (monthly_rows target_date precip_data))
  <= days_in_month (year target_date) (month target_date).
Proof.
  intros Hnd Hvalid.
  set (rows := monthly_rows target_date precip_data).
  set (dim := days_in_month (year target_date) (month target_date)).
  assert (Hrows : forall d, In d rows ->
            year (time d) = year target_date /\ month (time d) = month target_date /\
            1 <= day (time d) <= dim).
  { intros d [Hd Hm]%filter_In. unfold in_month in Hm.
    apply andb_true_iff in Hm as [Hy%Z.eqb_eq Hmo%Z.eqb_eq].
    rewrite Forall_forall in Hvalid. destruct (Hvalid d (proj2 (list_elem_of_In _ _) Hd)) as [_ Hday].
    unfold dim. rewrite <- Hy, <- Hmo. auto. }
  assert (Hdays : NoDup (map (fun d => Z.to_nat (day (time d))) rows)).
  { assert (Htimes : NoDup (map time rows)) by now apply NoDup_map_filter.
    clear Hnd Hvalid. induction rows as [|d rows IH]; simpl; [constructor|].
    simpl in Htimes. apply NoDup_cons in Htimes as [Hd Htimes].
    constructor; [|apply IH; [intros; apply Hrows; now right | exact Htimes]].
    intros Hin%list_elem_of_In. apply in_map_iff in Hin as (d' & Heq & Hin).
    apply Hd, list_elem_of_In, in_map_iff. exists d'. split; [|exact Hin].
    destruct (Hrows d (or_introl eq_refl)) as (Hy & Hm & Hday).
    destruct (Hrows d' (or_intror Hin)) as (Hy' & Hm' & Hday').
    destruct (time d) as [y m dd], (time d') as [y' m' dd']; simpl in *.
    f_equal; lia. }
  apply NoDup_ListNoDup in Hdays.
  assert (Hincl : incl (map (fun d => Z.to_nat (day (time d))) rows) (seq 1 (Z.to_nat dim))).
  { intros n (d & <- & Hin)%in_map_iff. apply in_seq.
    destruct (Hrows d Hin) as (_ & _ & Hday). lia. }
  pose proof (NoDup_incl_length Hdays Hincl) as Hlen.
  rewrite length_map, length_seq in Hlen.
  assert (Hdim : 28 <= dim)
    by (unfold dim, days_in_month;
        repeat match goal with |- context [if ?b then _ else _] => destruct b end; lia).
  fold rows dim. lia.
Qed.

(** X1.  On a series with one row per calendar date, the wet-days count
    and the extreme-days count of a month lie between 0 and the number of
    days of that month. *)
Theorem day_counts_bounded (target_date : Timestamp) (precip_data : list daily)
    (t a : float) :
  NoDup (map time precip_data) ->
  Forall (fun d => valid (time d)) precip_data ->
  0 <= WetDays.calc_wet_days target_date precip_data t
    <= days_in_month (year target_date) (month target_date) /\
  0 <= fst (fst (Extreme.calc_extreme_precip target_date precip_data t a))
    <= days_in_month (year target_date) (month target_date).
Proof.
  intros Hnd Hvalid.
  pose proof (monthly_rows_bound target_date precip_data Hnd Hvalid) as Hrows.
  rewrite calc_wet_days_length, calc_extreme_precip_days, exceeding_days_of_month.
  pose proof (filter_length_le (fun d => gtb (tp d) t)
                (monthly_rows target_date precip_data)).
  lia.
Qed.

Lemma day_counts_bounded_witness :
  0 <= WetDays.calc_wet_days (mkTimestamp 2020 1 15) Sample.january_2020 (of_Z 1) <= 31 /\
  0 <= fst (fst (Extreme.calc_extreme_precip (mkTimestamp 2020 1 15) Sample.january_2020
                   (of_Z 1) (of_Z 8))) <= 31.
Proof.
  apply (day_counts_bounded (mkTimestamp 2020 1 15) Sample.january_2020 (of_Z 1) (of_Z 8)).
  - apply NoDup_ListNoDup. constructor; [|constructor; [intros []|constructor]].
    intros [H|[]]. discriminate H.
  - unfold Sample.january_2020, Sample.on.
    do 2 (constructor; [unfold valid; cbn; lia|]). constructor.
Defined.

(** X2.  Raising the threshold never raises a count: for t1 <= t2 the wet
    days at t2 are at most the wet days at t1, and the extreme days at t2
    are at most the wet days at t1. *)
Theorem day_counts_antitone (target_date : Timestamp) (precip_data : list daily)
    (t1 t2 a : float) :
  leb t1 t2 = true ->
  WetDays.calc_wet_days target_date precip_data t2
    <= WetDays.calc_wet_days target_date precip_data t1 /\
  fst (fst (Extreme.calc_extreme_precip target_date precip_data t2 a))
    <= WetDays.calc_wet_days target_date precip_data t1.
Proof.
  intros Hle. rewrite !calc_wet_days_length, calc_extreme_precip_days.
  assert (Hmono : (length (Spec.exceeding_days target_date precip_data t2)
                   <= length (Spec.exceeding_days target_date precip_data t1))%nat).
  { apply filter_length_mono. intros d [Hm Hgt]%andb_true_iff.
    rewrite Hm. simpl. exact (leb_ltb_trans t1 t2 (tp d) Hle Hgt). }
  lia.
Qed.

Lemma day_counts_antitone_witness :
  WetDays.calc_wet_days (mkTimestamp 2020 1 15) Sample.january_2020 (of_Z 2)
    <= WetDays.calc_wet_days (mkTimestamp 2020 1 15) Sample.january_2020 (of_Z 1) /\
  fst (fst (Extreme.calc_extreme_precip (mkTimestamp 2020 1 15) Sample.january_2020
              (of_Z 2) (of_Z 8)))
    <= WetDays.calc_wet_days (mkTimestamp 2020 1 15) Sample.january_2020 (of_Z 1).
Proof.
  apply (day_counts_antitone (mkTimestamp 2020 1 15) Sample.january_2020
           (of_Z 1) (of_Z 2) (of_Z 8)).
  reflexivity.
Defined.

(** X3.  The counts do not depend on the order of the rows of the daily
    series. *)
Theorem day_counts_permutation (target_date : Timestamp) (precip_data precip_data' : list daily)
    (t a : float) :
  Permutation precip_data precip_data' ->
  WetDays.calc_wet_days target_date precip_data t
    = WetDays.calc_wet_days target_date precip_data' t /\
  fst (fst (Extreme.calc_extreme_precip target_date precip_data t a))
    = fst (fst (Extreme.calc_extreme_precip target_date precip_data' t a)).
Proof.
  intros Hperm. rewrite !calc_wet_days_length, !calc_extreme_precip_days.
  unfold Spec.exceeding_days.
  now rewrite (Permutation_length (filter_Permutation_list _ _ _ Hperm)).
Qed.

Lemma day_counts_permutation_witness :
  WetDays.calc_wet_days (mkTimestamp 2020 1 15) Sample.january_2020 (of_Z 1)
    = WetDays.calc_wet_days (mkTimestamp 2020 1 15) (rev Sample.january_2020) (of_Z 1) /\
  fst (fst (Extreme.calc_extreme_precip (mkTimestamp 2020 1 15) Sample.january_2020
              (of_Z 1) (of_Z 8)))
    = fst (fst (Extreme.calc_extreme_precip (mkTimestamp 2020 1 15)
                  (rev Sample.january_2020) (of_Z 1) (of_Z 8))).
Proof.
  apply (day_counts_permutation (mkTimestamp 2020 1 15) Sample.january_2020
           (rev Sample.january_2020) (of_Z 1) (of_Z 8)).
  apply Permutation_rev.
Defined.

Lemma exceeding_days_dropna target_date precip_data t :
  Spec.exceeding_days target_date
    (List.filter (fun d => negb (is_nan (tp d))) precip_data) t
  = Spec.exceeding_days target_date precip_data t.
Proof.
  unfold Spec.exceeding_days. rewrite filter_mask_and. apply List.filter_ext.
  intros d. destruct (tp d) as [[]|[]| |[] m e] eqn:Htp; cbn [is_nan negb andb];
    try reflexivity.
  change (SFltb t S754_nan) with (gtb nan t). now rewrite gtb_nan_l, andb_false_r.
Qed.

Lemma calc_extreme_precip_of_days target_date precip_data precip_data' t a :
  Spec.exceeding_days target_date precip_data t
  = Spec.exceeding_days target_date precip_data' t ->
  Extreme.calc_extreme_precip target_date precip_data t a
  = Extreme.calc_extreme_precip target_date precip_data' t a.
Proof. intros Heq. unfold Extreme.calc_extreme_precip. now rewrite !extreme_rows, Heq. Qed.

(** X4.  A missing reading (NaN precipitation) is never a wet or an
    extreme day: dropping the rows with a NaN amount changes neither the
    wet-days count nor the extreme-precipitation triple.  Against a NaN
    threshold no day counts: the wet days are 0 and the triple is
    (0, 0.0, 0.0). *)
Theorem nan_is_never_counted (target_date : Timestamp) (precip_data : list daily)
    (t a : float) :
  let known := List.filter (fun d => negb (is_nan (tp d))) precip_data in
  WetDays.calc_wet_days target_date known t = WetDays.calc_wet_days target_date precip_data t /\
  Extreme.calc_extreme_precip target_date known t a
    = Extreme.calc_extreme_precip target_date precip_data t a /\
  WetDays.calc_wet_days target_date precip_data nan = 0 /\
  Extreme.calc_extreme_precip target_date precip_data nan a = (0, zero, zero).
Proof.
  intros known. subst known.
  assert (Hnone : Spec.exceeding_days target_date precip_data nan = []).
  { apply filter_none. intros d _. change (SFltb nan (tp d)) with (gtb (tp d) nan).
    rewrite gtb_nan_r. apply andb_false_r. }
  split; [|split; [|split]].
  - now rewrite !calc_wet_days_length, exceeding_days_dropna.
  - apply calc_extreme_precip_of_days, exceeding_days_dropna.
  - now rewrite calc_wet_days_length, Hnone.
  - unfold Extreme.calc_extreme_precip. now rewrite extreme_rows, Hnone.
Qed.

(** ** The lookback window *)

Lemma lookback_hits_month (base_date : Timestamp) (c : Z) :
  1 <= month base_date <= 12 -> 1 <= c <= 12 ->
  exists m, 1 <= m <= 12 /\ month (sub_months base_date m) = c.
Proof.
  intros Hb Hc. exists ((month base_date - c - 1) mod 12 + 1).
  assert (Hm : 1 <= (month base_date - c - 1) mod 12 + 1 <= 12)
    by (pose proof (Z.mod_pos_bound (month base_date - c - 1) 12); lia).
  split; [exact Hm|].
  assert (H0 : 0 <= (month base_date - c - 1) mod 12 + 1) by lia.
  destruct (sub_months_index base_date _ Hb H0) as [Hidx Hrange]. clear H0.
  unfold month_index in Hidx.
  revert Hidx Hrange Hm.
  generalize (month (sub_months base_date ((month base_date - c - 1) mod 12 + 1))).
  generalize (year (sub_months base_date ((month base_date - c - 1) mod 12 + 1))).
  intros y' mo'. Z.div_mod_to_equations. lia.
Qed.

Lemma lookback_month_injective (base_date : Timestamp) (m m' : Z) :
  1 <= month base_date <= 12 -> 1 <= m <= 12 -> 1 <= m' <= 12 ->
  month (sub_months base_date m) = month (sub_months base_date m') -> m = m'.
Proof.
  intros Hb Hm Hm' Heq.
  destruct (sub_months_index base_date m Hb) as [Hidx Hrange]; [lia|].
  destruct (sub_months_index base_date m' Hb) as [Hidx' Hrange']; [lia|].
  unfold month_index in *. lia.
Qed.

(** X5.  The twelve target months of a record are the twelve calendar
    months that end just before the month of its reference date: each
    month of the year is aggregated exactly once, the month of the
    reference date itself only as the one of the year before, and every
    target is a date of the calendar when the reference date is. *)
Theorem lookback_covers_one_year (base_date : Timestamp) :
  valid base_date ->
  (forall m, 1 <= m <= 12 ->
     valid (sub_months base_date m) /\
     month_index base_date - 12 <= month_index (sub_months base_date m)
       < month_index base_date) /\
  (forall c, 1 <= c <= 12 ->
     exists m, 1 <= m <= 12 /\ month (sub_months base_date m) = c /\
               forall m', 1 <= m' <= 12 -> month (sub_months base_date m') = c -> m' = m) /\
  (year (sub_months base_date 12), month (sub_months base_date 12))
  = (year base_date - 1, month base_date).
Proof.
  intros [Hb Hday]. split; [|split].
  - intros m Hm. destruct (sub_months_index base_date m Hb) as [Hidx Hrange]; [lia|].
    split; [|lia]. split; [exact Hrange|].
    unfold sub_months.
    destruct (month base_date - m mod 12 <? 1); simpl;
      match goal with |- context [days_in_month ?y ?mo] =>
        assert (28 <= days_in_month y mo)
          by (unfold days_in_month;
              repeat match goal with |- context [if ?b then _ else _] => destruct b end; lia)
      end; lia.
  - intros c Hc. destruct (lookback_hits_month base_date c Hb Hc) as (m & Hm & Hmc).
    exists m. split; [exact Hm|]. split; [exact Hmc|].
    intros m' Hm' Hmc'. apply (lookback_month_injective base_date m' m Hb Hm' Hm). congruence.
  - unfold sub_months. change (12 / 12) with 1. change (12 mod 12) with 0.
    rewrite Z.sub_0_r. destruct (Z.ltb_spec (month base_date) 1); [lia | reflexivity].
Qed.

Lemma lookback_covers_one_year_witness :
  (valid (sub_months (mkTimestamp 2020 3 31) 1) /\
   month_index (mkTimestamp 2020 3 31) - 12 <= month_index (sub_months (mkTimestamp 2020 3 31) 1)
     < month_index (mkTimestamp 2020 3 31)) /\
  exists m, 1 <= m <= 12 /\ month (sub_months (mkTimestamp 2020 3 31) m) = 7 /\
            forall m', 1 <= m' <= 12 ->
                       month (sub_months (mkTimestamp 2020 3 31) m') = 7 -> m' = m.
Proof.
  destruct (lookback_covers_one_year (mkTimestamp 2020 3 31)) as (Hvalid & Hcover & _);
    [unfold valid; cbn; lia|].
  split; [apply Hvalid; lia | apply Hcover; lia].
Defined.

(** ** Cumulative deviation as a running sum *)

Lemma range1_snoc (k : Z) : 0 <= k -> range1 (k + 1) = range1 k ++ [k + 1].
Proof.
  intros Hk. unfold range1.
  replace (Z.to_nat (k + 1)) with (S (Z.to_nat k)) by lia.
  rewrite seq_S, map_app. simpl. do 3 f_equal. lia.
Qed.

Lemma range1_nonpos (k : Z) : k <= 0 -> range1 k = [].
Proof. intros Hk. unfold range1. now replace (Z.to_nat k) with O by lia. Qed.

(** X6.  [calc_cumulative_rsd] is a running sum: over no months (n <= 0)
    it is 0.0, and over n + 1 months it is the value over n months plus
    the monthly RSD of the month n + 1 months back; an exception of either
    is the exception of the whole. *)
Theorem calc_cumulative_rsd_step (target_date : Timestamp) (precip_data : list daily)
    (stats : Rsd.hist_stats) (n : Z) :
  (n <= 0 -> Rsd.calc_cumulative_rsd target_date precip_data stats n = Ok zero) /\
  (0 <= n ->
   Rsd.calc_cumulative_rsd target_date precip_data stats (n + 1)
   = match Rsd.calc_cumulative_rsd target_date precip_data stats n with
     | Ok cumulative =>
         match Rsd.calc_monthly_rsd (sub_months target_date (n + 1)) precip_data stats with
         | Ok monthly => Ok (add cumulative monthly)
         | Raise e => Raise e
         end
     | Raise e => Raise e
     end).
Proof.
  unfold Rsd.calc_cumulative_rsd. split.
  - intros Hn. now rewrite range1_nonpos.
  - intros Hn. rewrite (range1_snoc n Hn), fold_left_app. simpl.
    destruct (fold_left _ (range1 n) (Ok zero)) as [c|e]; reflexivity.
Qed.

Lemma calc_cumulative_rsd_step_witness :
  let stats := Rsd.calculate_historical_stats Sample.two_years in
  let target_date := mkTimestamp 2019 12 20 in
  Rsd.calc_cumulative_rsd target_date Sample.two_years stats 0 = Ok zero /\
  Rsd.calc_cumulative_rsd target_date Sample.two_years stats (2 + 1)
  = match Rsd.calc_cumulative_rsd target_date Sample.two_years stats 2 with
    | Ok cumulative =>
        match Rsd.calc_monthly_rsd (sub_months target_date (2 + 1)) Sample.two_years stats with
        | Ok monthly => Ok (add cumulative monthly)
        | Raise e => Raise e
        end
    | Raise e => Raise e
    end.
Proof.
  intros stats target_date. split.
  - apply (calc_cumulative_rsd_step target_date Sample.two_years stats 0). lia.
  - apply (calc_cumulative_rsd_step target_date Sample.two_years stats 2). lia.
Defined.

Lemma py_sum_snoc (xs : list float) (x : float) :
  Pandas.py_sum (xs ++ [x]) = add (Pandas.py_sum xs) x.
Proof. unfold Pandas.py_sum. now rewrite fold_left_app. Qed.

Lemma firstn_S_nth {A} (l : list A) (n : nat) (d : A) :
  (n < length l)%nat -> firstn (S n) l = firstn n l ++ [nth n l d].
Proof.
  revert n. induction l as [|x l IH]; intros n Hn; simpl in Hn; [lia|].
  destruct n as [|n]; [reflexivity|]. simpl. f_equal. apply IH. lia.
Qed.

Lemma cumulative_rsds_length (rsds : list float) : length (Rsd.cumulative_rsds rsds) = 12%nat.
Proof. unfold Rsd.cumulative_rsds. now rewrite length_map. Qed.

(** X7.  In the rainfall-deviation driver every row gets twelve monthly
    and twelve cumulative values; the first cumulative value is
    0 + the first monthly value, and each later one is the one before plus
    the monthly value of its own lookback month. *)
Theorem cumulative_columns_running_sum (fs : files) (r : record) (rsds cums : list float) :
  Rsd.row_metrics fs r = Ok (rsds, cums) ->
  length rsds = 12%nat /\ length cums = 12%nat /\
  nth 0 cums zero = add zero (nth 0 rsds zero) /\
  (forall k, (1 <= k <= 11)%nat ->
     nth k cums zero = add (nth (k - 1) cums zero) (nth k rsds zero)).
Proof.
  intros (precip & _ & Hrsds & ->)%rsd_row.
  pose proof (monthly_rsds_length _ _ _ _ Hrsds) as Hlen.
  split; [exact Hlen|]. split; [apply cumulative_rsds_length|].
  assert (Hnth : forall k, (k <= 11)%nat ->
            nth k (Rsd.cumulative_rsds rsds) zero = Pandas.py_sum (firstn (S k) rsds)).
  { intros k Hk. unfold Rsd.cumulative_rsds.
    replace k with (Z.to_nat (Z.of_nat (S k) - 1)) at 1 by lia.
    rewrite (nth_map_range1 _ N_MONTHS (Z.of_nat (S k))) by (unfold N_MONTHS; lia).
    now rewrite Nat2Z.id. }
  split.
  - rewrite (Hnth O) by lia. rewrite (firstn_S_nth rsds 0 zero) by lia. reflexivity.
  - intros k Hk. rewrite (Hnth k), (Hnth (k - 1)%nat) by lia.
    replace (S (k - 1)) with k by lia.
    rewrite (firstn_S_nth rsds k zero) by lia. apply py_sum_snoc.
Qed.

Lemma cumulative_columns_running_sum_witness :
  match Rsd.row_metrics Sample.disk Sample.child_2020 with
  | Ok (rsds, cums) =>
      length rsds = 12%nat /\ length cums = 12%nat /\
      nth 0 cums zero = add zero (nth 0 rsds zero) /\
      (forall k, (1 <= k <= 11)%nat ->
         nth k cums zero = add (nth (k - 1) cums zero) (nth k rsds zero))
  | Raise _ => False
  end.
Proof.
  destruct (Rsd.row_metrics Sample.disk Sample.child_2020) as [[rsds cums]|e] eqn:Hrow;
    [|vm_compute in Hrow; discriminate Hrow].
  exact (cumulative_columns_running_sum Sample.disk Sample.child_2020 rsds cums Hrow).
Defined.

(** ** The dict of monthly means *)

Lemma fold_insert_lookup_out (g : Z -> float) (l : list Z) (acc : gmap Z float) (k : Z) :
  ~ In k l ->
  fold_left (fun (a : gmap Z float) m => <[m := g m]> a) l acc !! k = acc !! k.
Proof.
  revert acc. induction l as [|m l IH]; intros acc Hout; simpl; [reflexivity|].
  rewrite IH by (intros H; apply Hout; now right).
  apply lookup_insert_ne. intros ->. apply Hout. now left.
Qed.

Lemma fold_insert_lookup_in (g : Z -> float) (l : list Z) (acc : gmap Z float) (k : Z) :
  In k l ->
  fold_left (fun (a : gmap Z float) m => <[m := g m]> a) l acc !! k = Some (g k).
Proof.
  revert acc. induction l as [|m l IH]; intros acc Hin; simpl; [destruct Hin|].
  destruct (in_dec Z.eq_dec k l) as [Hl|Hl]; [now apply IH|].
  destruct Hin as [->|Hin]; [|contradiction].
  rewrite fold_insert_lookup_out by exact Hl. apply lookup_insert_eq.
Qed.

Lemma fold_insert_some_lookup_out (h : Z -> option float) (l : list Z) (acc : gmap Z float)
    (k : Z) :
  ~ In k l ->
  fold_left (fun (a : gmap Z float) m =>
               match h m with Some v => <[m := v]> a | None => a end) l acc !! k
  = acc !! k.
Proof.
  revert acc. induction l as [|m l IH]; intros acc Hout; simpl; [reflexivity|].
  rewrite IH by (intros H; apply Hout; now right).
  destruct (h m); [|reflexivity].
  apply lookup_insert_ne. intros ->. apply Hout. now left.
Qed.

Lemma fold_insert_some_lookup_in (h : Z -> option float) (l : list Z) (k : Z) :
  In k l ->
  fold_left (fun (a : gmap Z float) m =>
               match h m with Some v => <[m := v]> a | None => a end) l ∅ !! k
  = h k.
Proof.
  assert (Hgen : forall acc : gmap Z float, In k l ->
            fold_left (fun (a : gmap Z float) m =>
                         match h m with Some v => <[m := v]> a | None => a end) l acc !! k
            = match h k with Some v => Some v | None => acc !! k end).
  { induction l as [|m l IH]; intros acc Hin; simpl; [destruct Hin|].
    destruct (in_dec Z.eq_dec k l) as [Hl|Hl].
    - rewrite IH by exact Hl. destruct (h k) as [v|] eqn:Hk; [reflexivity|].
      destruct (h m) as [w|] eqn:Hm; [|reflexivity].
      apply lookup_insert_ne. intros Heq. subst m. congruence.
    - destruct Hin as [->|Hin]; [|contradiction].
      rewrite fold_insert_some_lookup_out by exact Hl.
      destruct (h k); [apply lookup_insert_eq | reflexivity]. }
  intros Hin. rewrite (Hgen ∅ Hin). destruct (h k); [reflexivity | apply lookup_empty].
Qed.

Lemma has_all_months_iff (stats : Rsd.hist_stats) :
  Spec.has_all_months stats = true <->
  forall m, 1 <= m <= 12 -> exists v, Rsd.monthly_mean stats !! m = Some v.
Proof.
  split; [intros H m Hm; now apply has_all_months_lookup|].
  intros H. unfold Spec.has_all_months. apply forallb_forall. intros m Hm%range1_In.
  now destruct (H m Hm) as [v ->].
Qed.

Lemma calculate_historical_stats_lookup (precip_data : list daily) (m : Z) :
  (1 <= m <= 12 ->
   exists v, Rsd.monthly_mean (Rsd.calculate_historical_stats precip_data) !! m = Some v) /\
  (~ 1 <= m <= 12 ->
   Rsd.monthly_mean (Rsd.calculate_historical_stats precip_data) !! m = None).
Proof.
  cbv beta zeta iota delta [Rsd.calculate_historical_stats Rsd.monthly_mean].
  split.
  - intros Hm%range1_In.
    match goal with |- context [fold_left (fun acc m0 => <[m0 := @?g m0]> acc) _ _] =>
      rewrite (fold_insert_lookup_in g _ _ _ Hm)
    end. eauto.
  - intros Hm. rewrite <- range1_In in Hm.
    match goal with |- context [fold_left (fun acc m0 => <[m0 := @?g m0]> acc) _ _] =>
      rewrite (fold_insert_lookup_out g _ _ _ Hm)
    end. apply lookup_empty.
Qed.

Lemma calc_monthly_rsd_KeyError target_date precip_data stats :
  Rsd.monthly_mean stats !! month target_date = None ->
  Rsd.calc_monthly_rsd target_date precip_data stats = Raise KeyError.
Proof. intros H. unfold Rsd.calc_monthly_rsd, dict_get. now rewrite H. Qed.

Lemma calc_monthly_rsd_Ok_key target_date precip_data stats x :
  Rsd.calc_monthly_rsd target_date precip_data stats = Ok x ->
  exists v, Rsd.monthly_mean stats !! month target_date = Some v.
Proof.
  intros H. destruct (Rsd.monthly_mean stats !! month target_date) as [v|] eqn:Hk; [eauto|].
  now rewrite (calc_monthly_rsd_KeyError _ _ _ Hk) in H.
Qed.

(** The twelve monthly values of a row exist exactly when the statistics
    have a mean for each calendar month. *)
Lemma monthly_rsds_Ok_iff base_date precip stats :
  1 <= month base_date <= 12 ->
  (exists rsds, Rsd.monthly_rsds base_date precip stats = Ok rsds) <->
  Spec.has_all_months stats = true.
Proof.
  intros Hb. split; [|intros Hall; now apply monthly_rsds_total].
  intros [rsds Hrsds]. apply has_all_months_iff. intros c Hc.
  destruct (lookback_hits_month base_date c Hb Hc) as (m & Hm & <-).
  apply (calc_monthly_rsd_Ok_key _ precip stats (nth (Z.to_nat (m - 1)) rsds zero)).
  now apply monthly_rsds_nth.
Qed.

Lemma monthly_rsds_KeyError base_date precip stats :
  1 <= month base_date <= 12 -> Spec.has_all_months stats = false ->
  exists e, Rsd.monthly_rsds base_date precip stats = Raise e.
Proof.
  intros Hb Hall. destruct (Rsd.monthly_rsds base_date precip stats) as [rsds|e] eqn:Hr; [|eauto].
  assert (Spec.has_all_months stats = true)
    by (apply (monthly_rsds_Ok_iff base_date precip stats Hb); eauto).
  congruence.
Qed.

(** X8.  Statistics computed by [calculate_historical_stats] have a mean
    (possibly NaN) for each calendar month 1..12 and for no other key, so
    with them the monthly RSD of a calendar date never raises and the
    twelve monthly values of a row exist. *)
Theorem computed_stats_are_complete (precip_data : list daily) :
  let stats := Rsd.calculate_historical_stats precip_data in
  (forall m, (exists v, Rsd.monthly_mean stats !! m = Some v) <-> 1 <= m <= 12) /\
  (forall target_date series,
     1 <= month target_date <= 12 ->
     exists x, Rsd.calc_monthly_rsd target_date series stats = Ok x) /\
  (forall base_date series,
     1 <= month base_date <= 12 ->
     exists rsds, Rsd.monthly_rsds base_date series stats = Ok rsds /\ length rsds = 12%nat).
Proof.
  intros stats.
  assert (Hall : Spec.has_all_months stats = true).
  { apply has_all_months_iff. intros m Hm.
    now apply (calculate_historical_stats_lookup precip_data m). }
  split; [|split].
  - intros m. destruct (calculate_historical_stats_lookup precip_data m) as [Hin Hout].
    split; [|exact Hin]. intros [v Hv].
    destruct (decide (1 <= m <= 12)) as [Hm|Hm]; [exact Hm|].
    fold stats in Hout. rewrite (Hout Hm) in Hv. discriminate Hv.
  - intros target_date series Hm. now apply calc_monthly_rsd_total.
  - intros base_date series Hm.
    destruct (monthly_rsds_total base_date series stats Hall Hm) as [rsds Hrsds].
    exists rsds. split; [exact Hrsds | exact (monthly_rsds_length _ _ _ _ Hrsds)].
Qed.

Lemma computed_stats_are_complete_witness :
  exists rsds,
    Rsd.monthly_rsds (mkTimestamp 2020 3 15) Sample.two_years
      (Rsd.calculate_historical_stats Sample.only_2021) = Ok rsds /\ length rsds = 12%nat.
Proof.
  destruct (computed_stats_are_complete Sample.only_2021) as (_ & _ & H).
  apply (H (mkTimestamp 2020 3 15) Sample.two_years). simpl. lia.
Defined.

(** ** Degenerate and missing statistics *)

Lemma mapM_const {A B} (f : A -> result B) (c : B) (l : list A) :
  (forall x, In x l -> f x = Ok c) -> mapM f l = Ok (map (fun _ => c) l).
Proof.
  induction l as [|x l IH]; intros Hf; simpl; [reflexivity|].
  rewrite (Hf x (or_introl eq_refl)). simpl.
  rewrite IH by (intros y Hy; apply Hf; now right). reflexivity.
Qed.

Lemma calc_monthly_rsd_degenerate target_date precip_data stats :
  Spec.has_all_months stats = true -> 1 <= month target_date <= 12 ->
  eqb (Rsd.monthly_std stats) zero = true \/ eqb (Rsd.annual_mean stats) zero = true ->
  Rsd.calc_monthly_rsd target_date precip_data stats = Ok zero.
Proof.
  intros Hall Hm Hzero. destruct (has_all_months_lookup stats _ Hall Hm) as [v Hv].
  unfold Rsd.calc_monthly_rsd, dict_get. rewrite Hv. change (of_Z 0) with zero. simpl.
  destruct Hzero as [-> | ->]; [reflexivity | now rewrite orb_true_r].
Qed.

(** X9.  When the pooled standard deviation or the annual mean of complete
    statistics is zero, all twelve monthly values of a record are 0.0, and
    so are all twelve cumulative values, the annual RSD and its positive
    and negative parts; the standalone cumulative function returns 0.0 for
    every number of months up to twelve. *)
Theorem degenerate_stats_give_zero_row (base_date : Timestamp) (precip : list daily)
    (stats : Rsd.hist_stats) :
  1 <= month base_date <= 12 ->
  Spec.has_all_months stats = true ->
  eqb (Rsd.monthly_std stats) zero = true \/ eqb (Rsd.annual_mean stats) zero = true ->
  Rsd.monthly_rsds base_date precip stats = Ok (repeat zero 12) /\
  (forall r, Rsd.annualize r (repeat zero 12, Rsd.cumulative_rsds (repeat zero 12))
             = Rsd.mkOut r (repeat zero 12) (repeat zero 12) zero zero zero) /\
  (forall k, 0 <= k <= 12 -> Rsd.calc_cumulative_rsd base_date precip stats k = Ok zero).
Proof.
  intros Hb Hall Hzero.
  assert (Hrsds : Rsd.monthly_rsds base_date precip stats = Ok (repeat zero 12)).
  { unfold Rsd.monthly_rsds.
    rewrite (mapM_const _ zero); [reflexivity|].
    intros m Hm%range1_In. apply calc_monthly_rsd_degenerate; [exact Hall| |exact Hzero].
    apply sub_months_index; [exact Hb | lia]. }
  split; [exact Hrsds|]. split; [intros r; reflexivity|].
  intros k Hk. destruct (Z.eq_dec k 0) as [->|Hk0]; [reflexivity|].
  rewrite (calc_cumulative_rsd_prefix base_date precip stats _ k Hrsds) by lia.
  assert (Hcases : k = 1 \/ k = 2 \/ k = 3 \/ k = 4 \/ k = 5 \/ k = 6 \/ k = 7 \/ k = 8
                   \/ k = 9 \/ k = 10 \/ k = 11 \/ k = 12) by lia.
  repeat destruct Hcases as [->|Hcases]; try reflexivity. now subst k.
Qed.

Lemma degenerate_stats_give_zero_row_witness :
  let stats := Rsd.mkHist (Rsd.monthly_mean (Rsd.calculate_historical_stats Sample.two_years))
                 zero (of_Z 780) in
  Rsd.monthly_rsds (mkTimestamp 2020 3 15) Sample.two_years stats = Ok (repeat zero 12) /\
  Rsd.calc_cumulative_rsd (mkTimestamp 2020 3 15) Sample.two_years stats 7 = Ok zero.
Proof.
  intros stats.
  destruct (degenerate_stats_give_zero_row (mkTimestamp 2020 3 15) Sample.two_years stats)
    as (Hm & _ & Hc); [simpl; lia | vm_compute; reflexivity | left; reflexivity |].
  split; [exact Hm | apply Hc; lia].
Defined.

Lemma calculate_historical_stats_no_history (precip_data : list daily) :
  (forall d, In d precip_data -> year (time d) < 1980 \/ 2020 < year (time d)) ->
  Rsd.calculate_historical_stats precip_data = Rsd.calculate_historical_stats [].
Proof.
  intros Hout. unfold Rsd.calculate_historical_stats.
  rewrite (filter_none _ precip_data); [reflexivity|].
  intros d Hd. destruct (Hout d Hd) as [H|H]; simpl.
  - apply andb_false_iff. left. apply Z.leb_gt. exact H.
  - apply andb_false_iff. right. apply Z.leb_gt. exact H.
Qed.

(** X10.  For a series without a day inside the historical period
    1980-2020 (an empty one in particular), [calculate_historical_stats]
    returns NaN for the pooled standard deviation, for the annual mean and
    for the mean of every calendar month, and the monthly RSD computed with
    these statistics is NaN for every target month and every series. *)
Theorem no_history_gives_nan (precip_data : list daily) :
  (forall d, In d precip_data -> year (time d) < 1980 \/ 2020 < year (time d)) ->
  let stats := Rsd.calculate_historical_stats precip_data in
  Rsd.monthly_std stats = nan /\ Rsd.annual_mean stats = nan /\
  (forall m, 1 <= m <= 12 -> Rsd.monthly_mean stats !! m = Some nan) /\
  (forall target_date series,
     1 <= month target_date <= 12 ->
     Rsd.calc_monthly_rsd target_date series stats = Ok nan).
Proof.
  intros Hout stats. subst stats. rewrite (calculate_historical_stats_no_history _ Hout).
  assert (Hmeans : forall m, 1 <= m <= 12 ->
            Rsd.monthly_mean (Rsd.calculate_historical_stats []) !! m = Some nan).
  { intros m Hm.
    assert (Hcases : m = 1 \/ m = 2 \/ m = 3 \/ m = 4 \/ m = 5 \/ m = 6 \/ m = 7 \/ m = 8
                     \/ m = 9 \/ m = 10 \/ m = 11 \/ m = 12) by lia.
    repeat destruct Hcases as [->|Hcases]; try (vm_compute; reflexivity).
    subst m. vm_compute. reflexivity. }
  split; [reflexivity|]. split; [reflexivity|]. split; [exact Hmeans|].
  intros target_date series Hm.
  apply (calc_monthly_rsd_nan_std _ _ _ nan (Hmeans _ Hm)); reflexivity.
Qed.

Lemma no_history_gives_nan_witness :
  Rsd.monthly_std (Rsd.calculate_historical_stats Sample.only_2021) = nan /\
  Rsd.calc_monthly_rsd (mkTimestamp 2021 2 1) Sample.only_2021
    (Rsd.calculate_historical_stats Sample.only_2021) = Ok nan.
Proof.
  destruct (no_history_gives_nan Sample.only_2021) as (Hstd & _ & _ & Hrsd).
  - intros d Hd. right.
    repeat (destruct Hd as [<-|Hd]; [simpl; lia|]). destruct Hd.
  - split; [exact Hstd | apply Hrsd; simpl; lia].
Defined.

(** ** The table of precomputed statistics *)

Lemma filter_first {A} (p : A -> bool) (l : list A) (x : A) (rest : list A) :
  List.filter p l = x :: rest ->
  exists before after,
    l = before ++ x :: after /\ (forall y, In y before -> p y = false) /\ p x = true.
Proof.
  induction l as [|a l IH]; simpl; [discriminate|].
  destruct (p a) eqn:Ha; intros Hf.
  - inversion Hf; subst. exists [], l. split; [reflexivity|]. split; [intros y []|exact Ha].
  - destruct (IH Hf) as (before & after & -> & Hb & Hx).
    exists (a :: before), after. split; [reflexivity|]. split; [|exact Hx].
    intros y [<-|Hy]; [exact Ha | now apply Hb].
Qed.

Lemma filter_nil_all {A} (p : A -> bool) (l : list A) :
  List.filter p l = [] -> forall y, In y l -> p y = false.
Proof.
  induction l as [|a l IH]; simpl; intros Hf y Hy; [destruct Hy|].
  destruct (p a) eqn:Ha; [discriminate Hf|].
  destruct Hy as [<-|Hy]; [exact Ha | now apply IH].
Qed.

(** The cell of a month's column as the loop of
    [load_precomputed_stats] reads it. *)
Lemma precomputed_loop_None (h : Z -> option cell) (l : list Z) :
  fold_left (fun (acc : option (gmap Z float)) m =>
               monthly_mean ← acc;
               match h m with
               | Some c => v ← c; Some (<[m := v]> monthly_mean)
               | None => Some monthly_mean
               end) l None = None.
Proof. induction l as [|m l IH]; simpl; [reflexivity | exact IH]. Qed.

Lemma precomputed_loop_raises (h : Z -> option cell) (l : list Z) (acc : option (gmap Z float))
    (k : Z) :
  In k l -> h k = Some None ->
  fold_left (fun (acc : option (gmap Z float)) m =>
               monthly_mean ← acc;
               match h m with
               | Some c => v ← c; Some (<[m := v]> monthly_mean)
               | None => Some monthly_mean
               end) l acc = None.
Proof.
  revert acc. induction l as [|m l IH]; intros acc Hin Hk; simpl; [destruct Hin|].
  destruct Hin as [->|Hin]; [|now apply IH].
  rewrite Hk. destruct acc; simpl; apply precomputed_loop_None.
Qed.

Lemma precomputed_loop_runs (h : Z -> option cell) (l : list Z) (acc : gmap Z float) :
  (forall m, In m l -> h m <> Some None) ->
  fold_left (fun (acc : option (gmap Z float)) m =>
               monthly_mean ← acc;
               match h m with
               | Some c => v ← c; Some (<[m := v]> monthly_mean)
               | None => Some monthly_mean
               end) l (Some acc)
  = Some (fold_left (fun (a : gmap Z float) m =>
                       match match h m with Some (Some v) => Some v | _ => None end with
                       | Some v => <[m := v]> a
                       | None => a
                       end) l acc).
Proof.
  revert acc. induction l as [|m l IH]; intros acc Hgood; simpl; [reflexivity|].
  assert (Hm : h m <> Some None) by (apply Hgood; now left).
  assert (Hl : forall k, In k l -> h k <> Some None) by (intros k Hk; apply Hgood; now right).
  destruct (h m) as [[v|]|]; simpl; [now apply IH | now destruct Hm | now apply IH].
Qed.

Lemma cells_readable_dec (h : Z -> option cell) (l : list Z) :
  (forall m, In m l -> h m <> Some None) \/ (exists m, In m l /\ h m = Some None).
Proof.
  induction l as [|k l [IH|(m & Hm & Hbad)]].
  - left. intros m [].
  - destruct (h k) as [[v|]|] eqn:Hk.
    + left. intros m [<-|Hm]; [congruence | now apply IH].
    + right. exists k. split; [now left | exact Hk].
    + left. intros m [<-|Hm]; [congruence | now apply IH].
  - right. exists m. split; [now right | exact Hbad].
Qed.

(** The dict of monthly means of a row: nothing when a cell of a month's
    column is not a number; otherwise an entry for each month whose column
    the table has. *)
Lemma precomputed_monthly_mean_spec (row : stats_row) :
  match Rsd.precomputed_monthly_mean row with
  | None => exists m, 1 <= m <= 12 /\ averages row !! m = Some None
  | Some monthly_mean =>
      (forall m, 1 <= m <= 12 -> averages row !! m <> Some None) /\
      forall m, monthly_mean !! m
                = if (1 <=? m) && (m <=? 12)
                  then match averages row !! m with Some (Some v) => Some v | _ => None end
                  else None
  end.
Proof.
  unfold Rsd.precomputed_monthly_mean.
  destruct (cells_readable_dec (fun m => averages row !! m) (range1 12))
    as [Hgood|(k & Hk & Hbad)].
  - rewrite (precomputed_loop_runs (fun m => averages row !! m) _ _ Hgood).
    split; [intros m Hm; apply Hgood, range1_In; exact Hm|].
    intros m. destruct (Z.leb_spec 1 m), (Z.leb_spec m 12); cbn [andb];
      try (apply (fold_insert_some_lookup_in
                    (fun k => match averages row !! k with
                              | Some (Some v) => Some v
                              | _ => None
                              end)), range1_In; lia);
      (rewrite (fold_insert_some_lookup_out
                  (fun k => match averages row !! k with
                            | Some (Some v) => Some v
                            | _ => None
                            end));
         [apply lookup_empty | rewrite range1_In; lia]).
  - rewrite (precomputed_loop_raises (fun m => averages row !! m) _ _ k Hk Hbad).
    exists k. split; [now apply range1_In | exact Hbad].
Qed.

Lemma load_precomputed_stats_row dhsid stats_df row rest :
  stats_rows dhsid stats_df = row :: rest ->
  Rsd.load_precomputed_stats dhsid (Some stats_df)
  = (monthly_mean ← Rsd.precomputed_monthly_mean row;
     monthly_std ← month_std row;
     annual_mean ← all_average row;
     Some (Rsd.mkHist monthly_mean monthly_std annual_mean)).
Proof. intros Hrows. unfold Rsd.load_precomputed_stats. now rewrite Hrows. Qed.

(** What the first row of a location gives. *)
Lemma load_precomputed_stats_of_row dhsid stats_df row rest :
  stats_rows dhsid stats_df = row :: rest ->
  match Rsd.load_precomputed_stats dhsid (Some stats_df) with
  | None =>
      month_std row = None \/ all_average row = None \/
      exists m, 1 <= m <= 12 /\ averages row !! m = Some None
  | Some stats =>
      month_std row = Some (Rsd.monthly_std stats) /\
      all_average row = Some (Rsd.annual_mean stats) /\
      (forall m, 1 <= m <= 12 -> averages row !! m <> Some None) /\
      forall m, Rsd.monthly_mean stats !! m
                = if (1 <=? m) && (m <=? 12) then match averages row !! m with Some (Some v) => Some v | _ => None end
                  else None
  end.
Proof.
  intros Hrows. rewrite (load_precomputed_stats_row _ _ _ _ Hrows).
  pose proof (precomputed_monthly_mean_spec row) as Hmeans.
  destruct (Rsd.precomputed_monthly_mean row) as [monthly_mean|]; cbn [mbind option_bind].
  - destruct (month_std row) as [sd|]; cbn [mbind option_bind]; [|now left].
    destruct (all_average row) as [am|]; cbn [mbind option_bind]; [|right; now left].
    destruct Hmeans as [Hgood Hlookup]. repeat split; assumption.
  - right. right. exact Hmeans.
Qed.

(** X11.  [load_precomputed_stats] returns [None] exactly when the table
    cannot be read, when it has no row for the location, and when the
    first row of the location cannot be read in full: the table has no
    column [month_std] or [all_average], or the cell of one of them or of
    a month's average is not a number (the exception is caught).
    Otherwise that first row decides: the pooled standard deviation and
    the annual mean are its cells, and the dict of monthly means has, for
    each month 1..12, the row's cell of the month's column when the table
    has the column, and no entry otherwise. *)
Theorem load_precomputed_stats_first_row (dhsid : string)
    (stats_file : option (list stats_row)) :
  match Rsd.load_precomputed_stats dhsid stats_file with
  | None =>
      stats_file = None \/
      exists stats_df,
        stats_file = Some stats_df /\
        ((forall row, In row stats_df -> stats_DHSID row <> dhsid) \/
         exists before row after,
           stats_df = before ++ row :: after /\
           (forall other, In other before -> stats_DHSID other <> dhsid) /\
           stats_DHSID row = dhsid /\
           (month_std row = None \/ all_average row = None \/
            exists m, 1 <= m <= 12 /\ averages row !! m = Some None))
  | Some stats =>
      exists before row after,
        stats_file = Some (before ++ row :: after) /\
        (forall other, In other before -> stats_DHSID other <> dhsid) /\
        stats_DHSID row = dhsid /\
        month_std row = Some (Rsd.monthly_std stats) /\
        all_average row = Some (Rsd.annual_mean stats) /\
        (forall m, 1 <= m <= 12 -> averages row !! m <> Some None) /\
        forall m, Rsd.monthly_mean stats !! m
                  = if (1 <=? m) && (m <=? 12)
                    then match averages row !! m with
                         | Some (Some v) => Some v
                         | _ => None
                         end
                    else None
  end.
Proof.
  destruct stats_file as [stats_df|]; [|now left].
  destruct (stats_rows dhsid stats_df) as [|row rest] eqn:Hrows.
  - assert (Hnone : Rsd.load_precomputed_stats dhsid (Some stats_df) = None)
      by (unfold Rsd.load_precomputed_stats; now rewrite Hrows).
    rewrite Hnone. right. exists stats_df. split; [reflexivity|]. left.
    intros row Hrow. apply String.eqb_neq. exact (filter_nil_all _ _ Hrows row Hrow).
  - pose proof (load_precomputed_stats_of_row _ _ _ _ Hrows) as Hrow.
    destruct (filter_first _ _ _ _ Hrows) as (before & after & Hdf & Hbefore & Hid).
    assert (Hothers : forall other, In other before -> stats_DHSID other <> dhsid)
      by (intros other Hother; apply String.eqb_neq; now apply Hbefore).
    apply String.eqb_eq in Hid.
    destruct (Rsd.load_precomputed_stats dhsid (Some stats_df)) as [stats|].
    + destruct Hrow as (Hstd & Hmean & Hgood & Hlookup).
      exists before, row, after. rewrite Hdf. repeat (split; [assumption || reflexivity|]).
      exact Hlookup.
    + right. exists stats_df. split; [reflexivity|]. right.
      exists before, row, after. auto.
Qed.

Lemma load_precomputed_stats_first_row_witness :
  (exists before row after,
     Some [Sample.stats_1; Sample.stats_2] = Some (before ++ row :: after) /\
     stats_DHSID row = "CI201200000002" /\
     month_std row = Some (of_Z 5) /\
     forall other, In other before -> stats_DHSID other <> "CI201200000002") /\
  (exists row, In row [Sample.thresholds_only] /\ stats_DHSID row = "CI201200000001" /\
               (month_std row = None \/ all_average row = None \/
                exists m, 1 <= m <= 12 /\ averages row !! m = Some None)).
Proof.
  split.
  - pose proof (load_precomputed_stats_first_row "CI201200000002"
                  (Some [Sample.stats_1; Sample.stats_2])) as H.
    destruct (Rsd.load_precomputed_stats "CI201200000002"
                (Some [Sample.stats_1; Sample.stats_2])) as [stats|] eqn:Hload;
      [|vm_compute in Hload; discriminate Hload].
    assert (Hstd : Rsd.monthly_std stats = of_Z 5)
      by (vm_compute in Hload; injection Hload as <-; reflexivity).
    destruct H as (before & row & after & Hfile & Hbefore & Hrow & Hsd & _).
    exists before, row, after. rewrite Hsd, Hstd. auto.
  - pose proof (load_precomputed_stats_first_row "CI201200000001"
                  (Some [Sample.thresholds_only])) as H.
    destruct (Rsd.load_precomputed_stats "CI201200000001"
                (Some [Sample.thresholds_only])) as [stats|] eqn:Hload;
      [vm_compute in Hload; discriminate Hload|].
    destruct H as [H|(stats_df & Hfile & [Hnone|(before & row & after & Hdf & _ & Hid & Hwhy)])];
      [discriminate H| |].
    + injection Hfile as <-. exfalso. apply (Hnone Sample.thresholds_only); [now left | reflexivity].
    + injection Hfile as <-. exists row. split; [|split; assumption].
      rewrite Hdf. apply in_or_app. right. now left.
Defined.

Lemma rsd_row_Raise_stats fs r precip e :
  load_precip_data fs (DHSID r) (DHS_survey r) = Ok precip ->
  Rsd.monthly_rsds (death_date_lag_0 r) precip (Rsd.row_stats fs (DHSID r) precip) = Raise e ->
  Rsd.row_metrics fs r = Raise e.
Proof. intros Hp Hr. unfold Rsd.row_metrics. rewrite Hp. simpl. now rewrite Hr. Qed.

Lemma rsd_file_fails_row fs filename input r e :
  INPUT_DIR fs !! filename = Some input -> In r (filter_min_year input) ->
  Rsd.row_metrics fs r = Raise e ->
  forall O, Rsd.process_file fs O filename = (O, None).
Proof.
  intros Hin Hr He O. unfold Rsd.process_file, Rsd.process_file_try, read_csv.
  rewrite Hin. simpl.
  destruct (row_loop_Raise _ Rsd.annualize _ r e Hr He) as [e' ->]. reflexivity.
Qed.

(** X12.  When the first row of a location in the table of precomputed
    statistics can be read in full (a number in [month_std], in
    [all_average] and in every month's column the table has) but the
    table lacks the column of some calendar month, every input file with
    a record of that location dated 1981 or later is marked failed by the
    rainfall-deviation pipeline and nothing is written: the statistics
    are not recomputed from the series.  When the row cannot be read in
    full (as in a table that has the thresholds only), the statistics of
    the location are the ones computed from its series. *)
Theorem incomplete_precomputed_stats_fail_file (fs : files) (filename : string)
    (input : list record) (r : record) (stats_df : list stats_row)
    (row : stats_row) (rest : list stats_row) :
  INPUT_DIR fs !! filename = Some input ->
  In r input -> MIN_YEAR <= year (death_date_lag_0 r) ->
  1 <= month (death_date_lag_0 r) <= 12 ->
  THRESHOLD_FILE fs = Some stats_df ->
  stats_rows (DHSID r) stats_df = row :: rest ->
  (month_std row <> None -> all_average row <> None ->
   (forall m, 1 <= m <= 12 -> averages row !! m <> Some None) ->
   (exists c, 1 <= c <= 12 /\ averages row !! c = None) ->
   forall O, Rsd.process_file fs O filename = (O, None)) /\
  (month_std row = None \/ all_average row = None \/
   (exists m, 1 <= m <= 12 /\ averages row !! m = Some None) ->
   forall precip,
     Rsd.row_stats fs (DHSID r) precip = Rsd.calculate_historical_stats precip).
Proof.
  intros Hin Hr Hyear Hmonth Hfile Hrows.
  pose proof (load_precomputed_stats_of_row _ _ _ _ Hrows) as Hrow.
  split.
  - intros Hstd Hmean Hgood (c & Hc & Hmissing).
    assert (Hkept : In r (filter_min_year input)) by (apply filter_min_year_In; auto).
    destruct (load_precip_data fs (DHSID r) (DHS_survey r)) as [precip|e] eqn:Hp;
      [|now apply (rsd_file_fails fs filename input r e)].
    assert (Hstats : Spec.has_all_months (Rsd.row_stats fs (DHSID r) precip) = false).
    { unfold Rsd.row_stats, Rsd.HISTORICAL_STATS_FILE. rewrite Hfile.
      destruct (Rsd.load_precomputed_stats (DHSID r) (Some stats_df)) as [stats|].
      - destruct Hrow as (_ & _ & _ & Hlookup).
        destruct (Spec.has_all_months stats) eqn:Hall; [|reflexivity].
        destruct (has_all_months_lookup _ c Hall Hc) as [v Hv].
        rewrite Hlookup, Hmissing in Hv.
        destruct ((1 <=? c) && (c <=? 12)); discriminate Hv.
      - destruct Hrow as [Hbad|[Hbad|(m & Hm & Hbad)]];
          [contradiction | contradiction | now destruct (Hgood m Hm)]. }
    destruct (monthly_rsds_KeyError (death_date_lag_0 r) precip _ Hmonth Hstats) as [e He].
    apply (rsd_file_fails_row fs filename input r e Hin Hkept).
    now apply (rsd_row_Raise_stats fs r precip).
  - intros Hbad precip. unfold Rsd.row_stats, Rsd.HISTORICAL_STATS_FILE. rewrite Hfile.
    destruct (Rsd.load_precomputed_stats (DHSID r) (Some stats_df)) as [stats|];
      [|reflexivity].
    destruct Hrow as (Hstd & Hmean & Hgood & _).
    destruct Hbad as [Hbad|[Hbad|(m & Hm & Hbad)]];
      [congruence | congruence | now destruct (Hgood m Hm)].
Qed.

Lemma incomplete_precomputed_stats_fail_file_witness :
  Rsd.process_file Sample.disk_without_july ∅ "survey.csv" = (∅, None) /\
  Rsd.row_stats Sample.disk_thresholds_only "CI201200000001" Sample.two_years
  = Rsd.calculate_historical_stats Sample.two_years.
Proof.
  split.
  - apply (incomplete_precomputed_stats_fail_file Sample.disk_without_july "survey.csv"
             [Sample.child_2020] Sample.child_2020 [Sample.stats_without_july]
             Sample.stats_without_july []);
      try reflexivity; try (simpl; lia); try (cbv; discriminate); try (left; reflexivity).
    + intros m Hm.
      assert (Hcases : m = 1 \/ m = 2 \/ m = 3 \/ m = 4 \/ m = 5 \/ m = 6 \/ m = 7 \/ m = 8 \/
                       m = 9 \/ m = 10 \/ m = 11 \/ m = 12) by lia.
      repeat (destruct Hcases as [->|Hcases]; [vm_compute; discriminate|]).
      subst m. vm_compute. discriminate.
    + exists 7. split; [lia | reflexivity].
  - apply (incomplete_precomputed_stats_fail_file Sample.disk_thresholds_only "survey.csv"
             [Sample.child_2020] Sample.child_2020 [Sample.thresholds_only]
             Sample.thresholds_only []);
      try reflexivity; try (simpl; lia); try (cbv; discriminate); try (left; reflexivity).
Defined.

(** ** When a file is written *)

Lemma row_loop_Ok_iff {M R} (rm : record -> result M) (ann : record -> M -> R)
    (df : list record) :
  (exists out, mapM (fun r => ms ← rm r; mret (ann r ms)) df = Ok out) <->
  (forall r, In r df -> exists ms, rm r = Ok ms).
Proof.
  split.
  - intros [out Hout] r Hr.
    destruct (rm r) as [ms|e] eqn:Hrm; [eauto|].
    destruct (row_loop_Raise rm ann df r e Hr Hrm) as [e' He']. congruence.
  - intros Hall. apply mapM_total. intros r Hr. destruct (Hall r Hr) as [ms ->].
    simpl. eauto.
Qed.

Lemma wet_days_row_Ok_iff fs r :
  (exists ws, WetDays.row_metrics fs r = Ok ws) <->
  (exists precip, load_precip_data fs (DHSID r) (DHS_survey r) = Ok precip).
Proof.
  unfold WetDays.row_metrics.
  destruct (load_precip_data fs (DHSID r) (DHS_survey r)) as [precip|e]; simpl.
  - split; eauto.
  - split; intros [x Hx]; discriminate Hx.
Qed.

Lemma extreme_row_Ok_iff fs threshold_df r :
  (exists ms, Extreme.row_metrics fs threshold_df r = Ok ms) <->
  (exists precip, load_precip_data fs (DHSID r) (DHS_survey r) = Ok precip) /\
  stats_rows (DHSID r) threshold_df <> [].
Proof.
  unfold Extreme.row_metrics, Extreme.load_precip_data.
  destruct (load_precip_data fs (DHSID r) (DHS_survey r)) as [precip|e]; simpl.
  - destruct (stats_rows (DHSID r) threshold_df) as [|row rest]; simpl.
    + split; [intros [x Hx]; discriminate Hx | intros [_ H]; now destruct H].
    + split; [intros _; split; [eauto | discriminate] | eauto].
  - split; [intros [x Hx]; discriminate Hx | intros [[x Hx] _]; discriminate Hx].
Qed.

Lemma rsd_row_Ok_iff fs r :
  (exists ms, Rsd.row_metrics fs r = Ok ms) <->
  (exists precip,
     load_precip_data fs (DHSID r) (DHS_survey r) = Ok precip /\
     exists rsds, Rsd.monthly_rsds (death_date_lag_0 r) precip
                    (Rsd.row_stats fs (DHSID r) precip) = Ok rsds).
Proof.
  unfold Rsd.row_metrics.
  destruct (load_precip_data fs (DHSID r) (DHS_survey r)) as [precip|e]; simpl.
  - destruct (Rsd.monthly_rsds _ precip _) as [rsds|e] eqn:Hr; simpl.
    + split; [intros _; exists precip; split; [reflexivity|]; rewrite Hr; eauto | eauto].
    + split; [intros [x Hx]; discriminate Hx|].
      intros (p & Hp & rsds & Hrsds). inversion Hp; subst. congruence.
  - split; [intros [x Hx]; discriminate Hx | intros (p & Hp & _); discriminate Hp].
Qed.

(** X13.  The wet-days pipeline writes a file exactly when the input table
    exists and the location of every record dated 1981 or later resolves to
    a daily series (mapping table, mapping row and series file all found);
    otherwise it returns [None] and leaves the output directory as it
    was. *)
Theorem wet_days_file_written_iff (fs : files) (O : gmap string (list WetDays.out_row))
    (filename : string) :
  (snd (WetDays.process_file fs O filename) = Some filename <->
   exists input,
     INPUT_DIR fs !! filename = Some input /\
     forall r, In r input -> MIN_YEAR <= year (death_date_lag_0 r) ->
               exists precip, load_precip_data fs (DHSID r) (DHS_survey r) = Ok precip) /\
  (snd (WetDays.process_file fs O filename) <> Some filename ->
   WetDays.process_file fs O filename = (O, None)).
Proof.
  unfold WetDays.process_file, WetDays.process_file_try, read_csv.
  destruct (INPUT_DIR fs !! filename) as [input|] eqn:Hin; simpl.
  - destruct (mapM _ (filter_min_year input)) as [df|e] eqn:Hloop; simpl.
    + split; [|intros H; now destruct H]. split; [intros _|reflexivity].
      exists input. split; [reflexivity|]. intros r Hr Hy.
      apply wet_days_row_Ok_iff.
      apply (proj1 (row_loop_Ok_iff (WetDays.row_metrics fs) WetDays.annualize
                    (filter_min_year input)));
        [eauto | apply filter_min_year_In; auto].
    + split; [|reflexivity]. split; [discriminate|].
      intros (input' & Heq & Hall). inversion Heq; subst input'.
      destruct (proj2 (row_loop_Ok_iff (WetDays.row_metrics fs) WetDays.annualize
                         (filter_min_year input))) as [out Hout]; [|congruence].
      intros r [Hr Hy]%filter_min_year_In. apply wet_days_row_Ok_iff. auto.
  - split; [|reflexivity]. split; [discriminate | intros (input & Heq & _); discriminate Heq].
Qed.

(** X14.  The extreme-precipitation pipeline writes a file exactly when the
    input table and the threshold table exist and every record dated 1981
    or later has a location that resolves to a daily series and a row in
    the threshold table; otherwise it returns [None] and leaves the output
    directory as it was. *)
Theorem extreme_file_written_iff (fs : files) (O : gmap string (list Extreme.out_row))
    (filename : string) :
  (snd (Extreme.process_file fs O filename) = Some filename <->
   exists input threshold_df,
     INPUT_DIR fs !! filename = Some input /\ THRESHOLD_FILE fs = Some threshold_df /\
     forall r, In r input -> MIN_YEAR <= year (death_date_lag_0 r) ->
               (exists precip, load_precip_data fs (DHSID r) (DHS_survey r) = Ok precip) /\
               stats_rows (DHSID r) threshold_df <> []) /\
  (snd (Extreme.process_file fs O filename) <> Some filename ->
   Extreme.process_file fs O filename = (O, None)).
Proof.
  unfold Extreme.process_file, Extreme.process_file_try, read_csv, read_threshold_file.
  destruct (INPUT_DIR fs !! filename) as [input|] eqn:Hin; simpl;
    [|split; [|reflexivity]; split;
      [discriminate | intros (input & th & Heq & _); discriminate Heq]].
  destruct (THRESHOLD_FILE fs) as [th|] eqn:Hth; simpl;
    [|split; [|reflexivity]; split;
      [discriminate | intros (input' & th & _ & Heq & _); discriminate Heq]].
  destruct (mapM _ (filter_min_year input)) as [df|e] eqn:Hloop; simpl.
  - split; [|intros H; now destruct H]. split; [intros _|reflexivity].
    exists input, th. split; [reflexivity|]. split; [reflexivity|]. intros r Hr Hy.
    apply extreme_row_Ok_iff.
    apply (proj1 (row_loop_Ok_iff (Extreme.row_metrics fs th)
                    (Extreme.annualize (length (filter_min_year input)))
                    (filter_min_year input)));
      [eauto | apply filter_min_year_In; auto].
  - split; [|reflexivity]. split; [discriminate|].
    intros (input' & th' & Heq & Heq' & Hall). inversion Heq; inversion Heq'; subst.
    destruct (proj2 (row_loop_Ok_iff (Extreme.row_metrics fs th')
                       (Extreme.annualize (length (filter_min_year input')))
                       (filter_min_year input'))) as [out Hout]; [|congruence].
    intros r [Hr Hy]%filter_min_year_In. apply extreme_row_Ok_iff. auto.
Qed.

(** X15.  For an input table whose dates have a month in 1..12, the
    rainfall-deviation pipeline writes a file exactly when the table exists
    and every record dated 1981 or later has a location that resolves to a
    daily series and statistics with a mean for each calendar month;
    otherwise it returns [None] and leaves the output directory as it
    was. *)
Theorem rsd_file_written_iff (fs : files) (O : gmap string (list Rsd.out_row))
    (filename : string) :
  (forall input r, INPUT_DIR fs !! filename = Some input -> In r input ->
                   1 <= month (death_date_lag_0 r) <= 12) ->
  (snd (Rsd.process_file fs O filename) = Some filename <->
   exists input,
     INPUT_DIR fs !! filename = Some input /\
     forall r, In r input -> MIN_YEAR <= year (death_date_lag_0 r) ->
               exists precip,
                 load_precip_data fs (DHSID r) (DHS_survey r) = Ok precip /\
                 Spec.has_all_months (Rsd.row_stats fs (DHSID r) precip) = true) /\
  (snd (Rsd.process_file fs O filename) <> Some filename ->
   Rsd.process_file fs O filename = (O, None)).
Proof.
  intros Hmonths. unfold Rsd.process_file, Rsd.process_file_try, read_csv.
  destruct (INPUT_DIR fs !! filename) as [input|] eqn:Hin; simpl;
    [|split; [|reflexivity]; split;
      [discriminate | intros (input & Heq & _); discriminate Heq]].
  specialize (Hmonths input).
  destruct (mapM _ (filter_min_year input)) as [df|e] eqn:Hloop; simpl.
  - split; [|intros H; now destruct H]. split; [intros _|reflexivity].
    exists input. split; [reflexivity|]. intros r Hr Hy.
    destruct (proj1 (rsd_row_Ok_iff fs r)) as (precip & Hp & Hrsds).
    { apply (proj1 (row_loop_Ok_iff (Rsd.row_metrics fs) Rsd.annualize
                    (filter_min_year input)));
        [eauto | apply filter_min_year_In; auto]. }
    exists precip. split; [exact Hp|].
    now apply (monthly_rsds_Ok_iff (death_date_lag_0 r) precip); [apply Hmonths|].
  - split; [|reflexivity]. split; [discriminate|].
    intros (input' & Heq & Hall). inversion Heq; subst input'.
    destruct (proj2 (row_loop_Ok_iff (Rsd.row_metrics fs) Rsd.annualize
                       (filter_min_year input))) as [out Hout]; [|congruence].
    intros r [Hr Hy]%filter_min_year_In. apply rsd_row_Ok_iff.
    destruct (Hall r Hr Hy) as (precip & Hp & Hstats).
    exists precip. split; [exact Hp|].
    now apply (monthly_rsds_Ok_iff (death_date_lag_0 r) precip); [apply Hmonths|].
Qed.

Lemma rsd_file_written_iff_witness :
  snd (Rsd.process_file Sample.disk ∅ "survey.csv") = Some "survey.csv" <->
  exists input,
    INPUT_DIR Sample.disk !! "survey.csv" = Some input /\
    forall r, In r input -> MIN_YEAR <= year (death_date_lag_0 r) ->
              exists precip,
                load_precip_data Sample.disk (DHSID r) (DHS_survey r) = Ok precip /\
                Spec.has_all_months (Rsd.row_stats Sample.disk (DHSID r) precip) = true.
Proof.
  apply (rsd_file_written_iff Sample.disk ∅ "survey.csv").
  intros input r Hin Hr. vm_compute in Hin. inversion Hin; subst input.
  repeat (destruct Hr as [<-|Hr]; [simpl; lia|]). destruct Hr.
Defined.

Lemma wet_days_file_written_iff_witness :
  WetDays.process_file Sample.disk_unmapped ∅ "survey.csv" = (∅, None) /\
  exists input,
    INPUT_DIR Sample.disk !! "survey.csv" = Some input /\
    forall r, In r input -> MIN_YEAR <= year (death_date_lag_0 r) ->
              exists precip, load_precip_data Sample.disk (DHSID r) (DHS_survey r) = Ok precip.
Proof.
  split.
  - apply (wet_days_file_written_iff Sample.disk_unmapped ∅ "survey.csv").
    vm_compute. discriminate.
  - apply (wet_days_file_written_iff Sample.disk ∅ "survey.csv").
    vm_compute. reflexivity.
Defined.

Lemma extreme_file_written_iff_witness :
  Extreme.process_file Sample.disk ∅ "survey.csv" = (∅, None) /\
  exists input threshold_df,
    INPUT_DIR Sample.disk_full !! "survey.csv" = Some input /\
    THRESHOLD_FILE Sample.disk_full = Some threshold_df /\
    forall r, In r input -> MIN_YEAR <= year (death_date_lag_0 r) ->
              (exists precip,
                 load_precip_data Sample.disk_full (DHSID r) (DHS_survey r) = Ok precip) /\
              stats_rows (DHSID r) threshold_df <> [].
Proof.
  split.
  - apply (extreme_file_written_iff Sample.disk ∅ "survey.csv").
    vm_compute. discriminate.
  - apply (extreme_file_written_iff Sample.disk_full ∅ "survey.csv").
    vm_compute. reflexivity.
Defined.

(** ** Records before the first valid year *)

(** The file system with another table under one input name. *)
Lemma with_input_lookup (fs : files) (filename : string) (input : list record) :
  INPUT_DIR (mkFiles (<[filename := input]> (INPUT_DIR fs)) (CITY_LIST_DIR fs)
               (PRECIP_DIR fs) (THRESHOLD_FILE fs)) !! filename = Some input.
Proof. apply lookup_insert_eq. Qed.

(** X16.  What a pipeline does with a file depends on the input table only
    through its records dated 1981 or later: replacing the table by one
    with the same such records, in the same order, changes neither the
    result nor the table written.  Records of earlier years are never
    looked up, so they can neither fail a file nor change a value. *)
Theorem earlier_records_are_ignored (fs : files) (filename : string)
    (input input' : list record) :
  INPUT_DIR fs !! filename = Some input ->
  filter_min_year input' = filter_min_year input ->
  let fs' := mkFiles (<[filename := input']> (INPUT_DIR fs)) (CITY_LIST_DIR fs)
               (PRECIP_DIR fs) (THRESHOLD_FILE fs) in
  (forall O, Extreme.process_file fs' O filename = Extreme.process_file fs O filename) /\
  (forall O, Rsd.process_file fs' O filename = Rsd.process_file fs O filename) /\
  (forall O, WetDays.process_file fs' O filename = WetDays.process_file fs O filename).
Proof.
  intros Hin Hsame fs'. subst fs'. split; [|split]; intros O.
  - unfold Extreme.process_file, Extreme.process_file_try, read_csv.
    rewrite with_input_lookup, Hin. simpl. now rewrite Hsame.
  - unfold Rsd.process_file, Rsd.process_file_try, read_csv.
    rewrite with_input_lookup, Hin. simpl. now rewrite Hsame.
  - unfold WetDays.process_file, WetDays.process_file_try, read_csv.
    rewrite with_input_lookup, Hin. simpl. now rewrite Hsame.
Qed.

Lemma earlier_records_are_ignored_witness :
  let fs' := mkFiles (<["survey.csv" := [Sample.child_2020; Sample.child_2022]]>
                        (INPUT_DIR Sample.disk))
               (CITY_LIST_DIR Sample.disk) (PRECIP_DIR Sample.disk)
               (THRESHOLD_FILE Sample.disk) in
  Rsd.process_file fs' ∅ "survey.csv" = Rsd.process_file Sample.disk ∅ "survey.csv".
Proof.
  intros fs'.
  destruct (earlier_records_are_ignored Sample.disk "survey.csv"
              [Sample.child_1979; Sample.child_2020; Sample.child_2022]
              [Sample.child_2020; Sample.child_2022]) as (_ & H & _);
    [vm_compute; reflexivity | reflexivity | apply H].
Defined.

(** ** The shape of the tables written *)

(** X17.  A table written by a pipeline has one row for each input record
    dated 1981 or later, and each row has twelve values in each of its
    monthly columns (days, excess and intensity; monthly and cumulative
    RSD; wet days). *)
Theorem written_tables_shape (fs : files) (filename : string) :
  (forall O O' name, Extreme.process_file fs O filename = (O', Some name) ->
     exists input df,
       INPUT_DIR fs !! filename = Some input /\ O' !! filename = Some df /\
       length df = length (filter_min_year input) /\
       Forall (fun row => length (Extreme.p999_days row) = 12%nat /\
                          length (Extreme.p999_excess row) = 12%nat /\
                          length (Extreme.p999_intensity row) = 12%nat) df) /\
  (forall O O' name, Rsd.process_file fs O filename = (O', Some name) ->
     exists input df,
       INPUT_DIR fs !! filename = Some input /\ O' !! filename = Some df /\
       length df = length (filter_min_year input) /\
       Forall (fun row => length (Rsd.rsd_month row) = 12%nat /\
                          length (Rsd.rsd_cumulative row) = 12%nat) df) /\
  (forall O O' name, WetDays.process_file fs O filename = (O', Some name) ->
     exists input df,
       INPUT_DIR fs !! filename = Some input /\ O' !! filename = Some df /\
       length df = length (filter_min_year input) /\
       Forall (fun row => length (WetDays.wet_days row) = 12%nat) df).
Proof.
  split; [|split].
  - intros O O' name (df & Htry & Hout)%extreme_process_file_Some.
    destruct (extreme_rows_written _ _ _ Htry) as (input & th & Hin & _ & Hrows).
    exists input, df. split; [exact Hin|]. split; [exact Hout|].
    split; [symmetry; exact (Forall2_length _ _ _ Hrows)|].
    clear Htry Hout. induction Hrows as [|r row l k (ms & Hms & ->) _ IH]; constructor; auto.
    destruct (extreme_row _ _ _ _ Hms) as (precip & t & a & _ & ->).
    unfold Extreme.annualize. cbn [Extreme.p999_days Extreme.p999_excess Extreme.p999_intensity].
    rewrite !length_map. repeat split; reflexivity.
  - intros O O' name (df & Htry & Hout)%rsd_process_file_Some.
    destruct (rsd_rows_written _ _ _ Htry) as (input & Hin & Hrows).
    exists input, df. split; [exact Hin|]. split; [exact Hout|].
    split; [symmetry; exact (Forall2_length _ _ _ Hrows)|].
    clear Htry Hout. induction Hrows as [|r row l k ([rsds cums] & Hms & ->) _ IH];
      constructor; auto.
    destruct (rsd_row _ _ _ _ Hms) as (precip & _ & Hrsds & ->).
    unfold Rsd.annualize. cbn [Rsd.rsd_month Rsd.rsd_cumulative fst snd].
    split; [exact (monthly_rsds_length _ _ _ _ Hrsds) | apply cumulative_rsds_length].
  - intros O O' name (df & Htry & Hout)%wet_days_process_file_Some.
    destruct (wet_days_rows_written _ _ _ Htry) as (input & Hin & Hrows).
    exists input, df. split; [exact Hin|]. split; [exact Hout|].
    split; [symmetry; exact (Forall2_length _ _ _ Hrows)|].
    clear Htry Hout. induction Hrows as [|r row l k (ws & Hws & ->) _ IH]; constructor; auto.
    destruct (wet_days_row _ _ _ Hws) as (precip & _ & ->).
    unfold WetDays.annualize. cbn [WetDays.wet_days]. now rewrite length_map.
Qed.

Lemma written_tables_shape_witness :
  exists input df,
    INPUT_DIR Sample.disk_full !! "survey.csv" = Some input /\
    fst (Extreme.process_file Sample.disk_full ∅ "survey.csv") !! "survey.csv" = Some df /\
    length df = length (filter_min_year input) /\
    Forall (fun row => length (Extreme.p999_days row) = 12%nat /\
                       length (Extreme.p999_excess row) = 12%nat /\
                       length (Extreme.p999_intensity row) = 12%nat) df.
Proof.
  destruct (written_tables_shape Sample.disk_full "survey.csv") as (H & _).
  apply (H ∅ _ "survey.csv"). vm_compute. reflexivity.
Defined.

(** ** The worker pool *)

Section Pool.
Context {T : Type} (try : string -> result T).
Context (process_file : gmap string T -> string -> gmap string T * option string).
Hypothesis process_file_try :
  forall O name,
    process_file O name
    = match try name with
      | Ok df => (<[name := df]> O, Some name)
      | Raise _ => (O, None)
      end.

Lemma pool_map_cons O name rest :
  pool_map process_file O (name :: rest)
  = (fst (pool_map process_file (fst (process_file O name)) rest),
     snd (process_file O name) :: snd (pool_map process_file (fst (process_file O name)) rest)).
Proof.
  simpl. destruct (process_file O name) as [written r]. simpl.
  destruct (pool_map process_file written rest). reflexivity.
Qed.

Lemma pool_map_results O names :
  snd (pool_map process_file O names)
  = map (fun name => match try name with Ok _ => Some name | Raise _ => None end) names.
Proof.
  revert O. induction names as [|name rest IH]; intros O; [reflexivity|].
  rewrite pool_map_cons. simpl. rewrite IH, process_file_try.
  now destruct (try name).
Qed.

Lemma pool_map_untouched O names name :
  ~ In name names \/ (exists e, try name = Raise e) ->
  fst (pool_map process_file O names) !! name = O !! name.
Proof.
  intros Hname. revert O. induction names as [|other rest IH]; intros O; [reflexivity|].
  rewrite pool_map_cons. simpl.
  rewrite IH
    by (destruct Hname as [Hout|He]; [left; intros H; apply Hout; now right | now right]).
  rewrite process_file_try. destruct (try other) as [df|e] eqn:Hother; [|reflexivity].
  simpl. apply lookup_insert_ne. intros ->.
  destruct Hname as [Hout|[e He]]; [apply Hout; now left | congruence].
Qed.

Lemma pool_map_written O names name df :
  In name names -> try name = Ok df ->
  fst (pool_map process_file O names) !! name = Some df.
Proof.
  intros Hin Hdf. revert O. induction names as [|other rest IH]; intros O; [destruct Hin|].
  rewrite pool_map_cons. simpl.
  destruct (in_dec String.string_dec name rest) as [Hrest|Hrest]; [now apply IH|].
  destruct Hin as [->|Hin]; [|contradiction].
  rewrite pool_map_untouched by now left.
  rewrite process_file_try, Hdf. apply lookup_insert_eq.
Qed.

Lemma process_file_commute O a b :
  fst (process_file (fst (process_file O a)) b) = fst (process_file (fst (process_file O b)) a).
Proof.
  rewrite !process_file_try.
  destruct (try a) as [da|ea] eqn:Ha, (try b) as [db|eb] eqn:Hb; simpl;
    rewrite ?process_file_try, ?Ha, ?Hb; simpl; try reflexivity.
  destruct (String.string_dec a b) as [->|Hne]; [congruence|].
  apply map_eq. intros k.
  destruct (String.string_dec k a) as [Hka|Hka], (String.string_dec k b) as [Hkb|Hkb];
    try subst k; try congruence;
    rewrite ?lookup_insert_eq, ?lookup_insert_ne by congruence;
    rewrite ?lookup_insert_eq, ?lookup_insert_ne by congruence; reflexivity.
Qed.

Lemma pool_map_Permutation O names names' :
  Permutation names names' ->
  fst (pool_map process_file O names) = fst (pool_map process_file O names') /\
  Permutation (snd (pool_map process_file O names)) (snd (pool_map process_file O names')).
Proof.
  intros Hperm. split.
  - revert O. induction Hperm as [|x l l' _ IH|x y l|l l' l'' _ IH1 _ IH2]; intros O.
    + reflexivity.
    + rewrite !pool_map_cons. simpl. apply IH.
    + rewrite !pool_map_cons. simpl. now rewrite process_file_commute.
    + now rewrite IH1.
  - rewrite !pool_map_results. now apply Permutation_map.
Qed.
End Pool.

Lemma ends_with_nonempty (suffix name : string) :
  suffix <> EmptyString -> ends_with suffix name = true -> name <> EmptyString.
Proof.
  intros Hs He ->. unfold ends_with in He. simpl in He.
  destruct suffix; [now apply Hs | discriminate He].
Qed.

Lemma glob_csv_In (fs : files) (name : string) :
  In name (glob_csv fs) <->
  (exists table, INPUT_DIR fs !! name = Some table) /\ ends_with ".csv" name = true.
Proof.
  unfold glob_csv. rewrite filter_In, in_map_iff. split.
  - intros [([n t] & Hn & Hin) He]. simpl in Hn. subst n. split; [|exact He].
    exists t. now apply elem_of_map_to_list, list_elem_of_In.
  - intros [[t Ht] He]. split; [|exact He]. exists (name, t). split; [reflexivity|].
    now apply list_elem_of_In, elem_of_map_to_list.
Qed.

Lemma filter_map_length {A B} (p : B -> bool) (q : A -> bool) (g : A -> B) (l : list A) :
  (forall x, In x l -> p (g x) = q x) ->
  length (List.filter p (map g l)) = length (List.filter q l).
Proof.
  induction l as [|x l IH]; intros Hpq; simpl; [reflexivity|].
  rewrite (Hpq x (or_introl eq_refl)).
  destruct (q x); simpl; rewrite IH; auto; intros y Hy; apply Hpq; now right.
Qed.

Lemma run_main_outcome {T} (try : string -> result T)
    (process_file : gmap string T -> string -> gmap string T * option string)
    (fs : files) (O : gmap string T) :
  (forall O' name,
     process_file O' name
     = match try name with
       | Ok df => (<[name := df]> O', Some name)
       | Raise _ => (O', None)
       end) ->
  Spec.main_outcome try fs O (run_main process_file fs O).
Proof.
  intros Hprocess. unfold Spec.main_outcome, run_main.
  pose proof (pool_map_results try process_file Hprocess O (glob_csv fs)) as Hresults.
  pose proof (pool_map_written try process_file Hprocess O (glob_csv fs)) as Hwritten.
  pose proof (pool_map_untouched try process_file Hprocess O (glob_csv fs)) as Huntouched.
  destruct (pool_map process_file O (glob_csv fs)) as [final results]. simpl in *.
  split; [reflexivity|]. split; [|split; [exact Hwritten | exact Huntouched]].
  rewrite Hresults. f_equal. apply filter_map_length.
  intros name [_ Hcsv]%glob_csv_In. destruct (try name); [|reflexivity].
  simpl. apply negb_true_iff, String.eqb_neq.
  now apply (ends_with_nonempty ".csv").
Qed.

(** X18.  A run of [main] hands every [.csv] file of the input directory,
    and nothing else, to the file driver; it reports the number of those
    files and the number of them whose processing did not raise; it
    leaves a written table for each of the latter, and every other entry
    of the output directory as it was: a file that fails neither stops the
    run nor touches the output of another file. *)
Theorem main_outcomes (fs : files) :
  (forall O, Spec.main_outcome (Extreme.process_file_try fs) fs O (Extreme.main fs O)) /\
  (forall O, Spec.main_outcome (Rsd.process_file_try fs) fs O (Rsd.main fs O)) /\
  (forall O, Spec.main_outcome (WetDays.process_file_try fs) fs O (WetDays.main fs O)) /\
  (forall name,
     In name (glob_csv fs) <->
     (exists table, INPUT_DIR fs !! name = Some table) /\ ends_with ".csv" name = true).
Proof.
  split; [|split; [|split]].
  - intros O. apply run_main_outcome. reflexivity.
  - intros O. apply run_main_outcome. reflexivity.
  - intros O. apply run_main_outcome. reflexivity.
  - apply glob_csv_In.
Qed.

Lemma main_outcomes_witness :
  In "a.csv" (glob_csv Sample.disk_two_files) /\
  ~ In "notes.txt" (glob_csv Sample.disk_two_files) /\
  snd (WetDays.main Sample.disk_two_files ∅) = (1, 2) /\
  fst (WetDays.main Sample.disk_two_files ∅) !! "b.csv" = None.
Proof.
  destruct (main_outcomes Sample.disk_two_files) as (_ & _ & Hwet & Hglob).
  split; [apply (proj2 (Hglob "a.csv")); split; [eexists|]; vm_compute; reflexivity|].
  split; [intros H; apply (proj1 (Hglob _)) in H; destruct H as [_ H];
          vm_compute in H; discriminate H|].
  destruct (Hwet ∅) as (Htotal & Hsuccess & _ & Hkept).
  split.
  - destruct (WetDays.main Sample.disk_two_files ∅) as [final [success total]].
    simpl in Htotal, Hsuccess. rewrite Htotal, Hsuccess. vm_compute. reflexivity.
  - rewrite Hkept; [apply lookup_empty|]. right. eexists. vm_compute. reflexivity.
Defined.

(** X19.  The outcome of handing files to the pool does not depend on the
    order of the files: for two orders of the same names the output
    directory is the same and so is the number of successes. *)
Theorem pool_order_is_irrelevant (fs : files) (names names' : list string) :
  Permutation names names' ->
  (forall O,
     fst (pool_map (Extreme.process_file fs) O names)
     = fst (pool_map (Extreme.process_file fs) O names') /\
     length (List.filter truthy (snd (pool_map (Extreme.process_file fs) O names)))
     = length (List.filter truthy (snd (pool_map (Extreme.process_file fs) O names')))) /\
  (forall O,
     fst (pool_map (Rsd.process_file fs) O names)
     = fst (pool_map (Rsd.process_file fs) O names') /\
     length (List.filter truthy (snd (pool_map (Rsd.process_file fs) O names)))
     = length (List.filter truthy (snd (pool_map (Rsd.process_file fs) O names')))) /\
  (forall O,
     fst (pool_map (WetDays.process_file fs) O names)
     = fst (pool_map (WetDays.process_file fs) O names') /\
     length (List.filter truthy (snd (pool_map (WetDays.process_file fs) O names)))
     = length (List.filter truthy (snd (pool_map (WetDays.process_file fs) O names')))).
Proof.
  intros Hperm. split; [|split]; intros O.
  - destruct (pool_map_Permutation (Extreme.process_file_try fs) (Extreme.process_file fs)
                (fun _ _ => eq_refl) O names names' Hperm) as [Hfinal Hresults].
    split; [exact Hfinal|].
    exact (Permutation_length (filter_Permutation_list truthy _ _ Hresults)).
  - destruct (pool_map_Permutation (Rsd.process_file_try fs) (Rsd.process_file fs)
                (fun _ _ => eq_refl) O names names' Hperm) as [Hfinal Hresults].
    split; [exact Hfinal|].
    exact (Permutation_length (filter_Permutation_list truthy _ _ Hresults)).
  - destruct (pool_map_Permutation (WetDays.process_file_try fs) (WetDays.process_file fs)
                (fun _ _ => eq_refl) O names names' Hperm) as [Hfinal Hresults].
    split; [exact Hfinal|].
    exact (Permutation_length (filter_Permutation_list truthy _ _ Hresults)).
Qed.

Lemma pool_order_is_irrelevant_witness :
  fst (pool_map (Rsd.process_file Sample.disk_two_files) ∅ ["a.csv"; "b.csv"])
  = fst (pool_map (Rsd.process_file Sample.disk_two_files) ∅ ["b.csv"; "a.csv"]).
Proof.
  destruct (pool_order_is_irrelevant Sample.disk_two_files ["a.csv"; "b.csv"]
              ["b.csv"; "a.csv"]) as (_ & H & _); [apply perm_swap|].
  apply H.
Defined.

(** ** A location without rain *)

Lemma mean_of_nothing : Pandas.mean [] = nan.
Proof. reflexivity. Qed.

Lemma extreme_load_Ok fs dhsid survey_id threshold_df precip threshold avg :
  Extreme.load_precip_data fs dhsid survey_id threshold_df = Ok (precip, threshold, avg) ->
  load_precip_data fs dhsid survey_id = Ok precip /\
  exists row rest,
    stats_rows dhsid threshold_df = row :: rest /\
    threshold = p999 row /\
    avg = Pandas.mean (map tp (List.filter (fun d => gtb (tp d) (of_Z 0)) precip)).
Proof.
  unfold Extreme.load_precip_data. intros Hload.
  apply bind_Ok in Hload as (precip' & Hp & Hload).
  apply bind_Ok in Hload as (row & Hrow & Hload).
  unfold mret, result_ret in Hload.
  assert (precip' = precip) as -> by congruence.
  split; [exact Hp|].
  destruct (stats_rows dhsid threshold_df) as [|row' rest] eqn:Hrows; [discriminate Hrow|].
  exists row, rest. unfold values0 in Hrow.
  split; [congruence|]. split; congruence.
Qed.

(** X20.  For a location whose series has no day with positive
    precipitation, the wet-day mean loaded by the extreme-precipitation
    pipeline is NaN; every intensity is then 0.0 whatever the threshold,
    and with a threshold that is not negative the triple of every target
    month is (0, 0.0, 0.0). *)
Theorem dry_location_has_no_extremes (fs : files) (dhsid survey_id : string)
    (threshold_df : list stats_row) (precip : list daily) (threshold avg : float) :
  Extreme.load_precip_data fs dhsid survey_id threshold_df = Ok (precip, threshold, avg) ->
  (forall d, In d precip -> gtb (tp d) zero = false) ->
  avg = nan /\
  (forall target_date,
     snd (Extreme.calc_extreme_precip target_date precip threshold avg) = zero) /\
  (leb zero threshold = true ->
   forall target_date,
     Extreme.calc_extreme_precip target_date precip threshold avg = (0, zero, zero)).
Proof.
  intros Hload Hdry.
  destruct (extreme_load_Ok _ _ _ _ _ _ _ Hload) as (_ & row & rest & _ & -> & ->).
  change (of_Z 0) with zero. rewrite (filter_none _ precip Hdry).
  split; [reflexivity|]. split.
  - intros target_date. now apply intensity_zero_without_mean.
  - intros Hpos target_date. unfold Extreme.calc_extreme_precip.
    rewrite extreme_rows. unfold Spec.exceeding_days.
    rewrite (filter_none _ precip); [reflexivity|].
    intros d Hd. apply andb_false_iff. right.
    change (SFltb (p999 row) (tp d)) with (gtb (tp d) (p999 row)).
    destruct (gtb (tp d) (p999 row)) eqn:Hgt; [|reflexivity].
    rewrite <- (Hdry d Hd). symmetry. exact (leb_ltb_trans zero (p999 row) (tp d) Hpos Hgt).
Qed.

Lemma dry_location_has_no_extremes_witness :
  Extreme.calc_extreme_precip (mkTimestamp 2020 1 15) [Sample.on 2020 1 5 0] (of_Z 50) nan
  = (0, zero, zero).
Proof.
  destruct (dry_location_has_no_extremes
              (mkFiles ∅ {[ "S" := [mkCity "A" 1] ]} {[ ("S", 1) := [Sample.on 2020 1 5 0] ]}
                 None)
              "A" "S" [mkStats "A" (of_Z 50) ∅ (Some zero) (Some zero)]
              [Sample.on 2020 1 5 0] (of_Z 50) nan) as (_ & _ & H).
  - vm_compute. reflexivity.
  - intros d [<-|[]]. reflexivity.
  - apply H. reflexivity.
Defined.

(** ** The annual number of wet days *)

Lemma days_in_month_bounds (y m : Z) : 28 <= days_in_month y m <= 31.
Proof.
  unfold days_in_month.
  repeat match goal with |- context [if ?b then _ else _] => destruct b end; lia.
Qed.

Lemma lookback_month_days (y b d m : Z) :
  1 <= b <= 12 -> 1 <= m <= 12 ->
  days_in_month (year (sub_months (mkTimestamp y b d) m))
                (month (sub_months (mkTimestamp y b d) m))
  = if m <? b then days_in_month y (b - m) else days_in_month (y - 1) (b - m + 12).
Proof.
  intros Hb Hm. unfold sub_months. cbn [year month day].
  assert (Hdiv : m / 12 = if m =? 12 then 1 else 0)
    by (destruct (Z.eqb_spec m 12); Z.div_mod_to_equations; lia).
  assert (Hmod : m mod 12 = if m =? 12 then 0 else m)
    by (destruct (Z.eqb_spec m 12); Z.div_mod_to_equations; lia).
  rewrite Hdiv, Hmod.
  destruct (Z.eqb_spec m 12);
    match goal with |- context [?x <? 1] => destruct (Z.ltb_spec x 1) end;
    destruct (Z.ltb_spec m b); cbn [year month]; try lia; f_equal; lia.
Qed.

(** Twelve consecutive calendar months have at most 366 days. *)
Lemma lookback_days (base_date : Timestamp) :
  1 <= month base_date <= 12 ->
  let dim m := days_in_month (year (sub_months base_date m)) (month (sub_months base_date m)) in
  dim 1 + dim 2 + dim 3 + dim 4 + dim 5 + dim 6 + dim 7 + dim 8 + dim 9 + dim 10
    + dim 11 + dim 12 <= 366.
Proof.
  destruct base_date as [y b d]. cbn [month]. intros Hb. cbv zeta beta.
  rewrite !lookback_month_days by lia.
  pose proof (days_in_month_bounds y 2) as Hfeb.
  pose proof (days_in_month_bounds (y - 1) 2) as Hfeb'.
  assert (Hleap : days_in_month y 2 <= 29)
    by (unfold days_in_month; cbn [Z.eqb Pos.eqb]; destruct (is_leap y); lia).
  assert (Hleap' : days_in_month (y - 1) 2 <= 29)
    by (unfold days_in_month; cbn [Z.eqb Pos.eqb]; destruct (is_leap (y - 1)); lia).
  assert (Hcases : b = 1 \/ b = 2 \/ b = 3 \/ b = 4 \/ b = 5 \/ b = 6 \/ b = 7 \/ b = 8
                   \/ b = 9 \/ b = 10 \/ b = 11 \/ b = 12) by lia.
  repeat destruct Hcases as [->|Hcases]; try subst b;
    repeat match goal with
           | |- context [?a <? ?c] =>
               let v := eval vm_compute in (a <? c) in change (a <? c) with v
           end;
    cbv beta iota;
    repeat match goal with
           | |- context [days_in_month ?yy (?a - ?c + 12)] =>
               let k := eval vm_compute in (a - c + 12) in
               change (a - c + 12) with k
           | |- context [days_in_month ?yy (?a - ?c)] =>
               let k := eval vm_compute in (a - c) in
               change (a - c) with k
           end;
    repeat match goal with
           | |- context [days_in_month ?yy ?k] =>
               lazymatch k with
               | 2 => fail
               | _ => let v := eval vm_compute in (days_in_month 0 k) in
                      change (days_in_month yy k) with v
               end
           end;
    lia.
Qed.

Lemma calc_wet_days_bound target_date precip_data t :
  NoDup (map time precip_data) ->
  Forall (fun d => valid (time d)) precip_data ->
  0 <= WetDays.calc_wet_days target_date precip_data t
    <= days_in_month (year target_date) (month target_date).
Proof.
  intros Hnd Hvalid.
  pose proof (monthly_rows_bound target_date precip_data Hnd Hvalid) as Hrows.
  rewrite calc_wet_days_length, exceeding_days_of_month.
  pose proof (filter_length_le (fun d => gtb (tp d) t)
                (monthly_rows target_date precip_data)).
  lia.
Qed.

(** X21.  For a record whose location has a daily series with one row per
    calendar date, the annual wet-days value of its output row is between
    0 and 366. *)
Theorem wet_days_annual_bounded (fs : files) (r : record) (ws : list Z) :
  1 <= month (death_date_lag_0 r) <= 12 ->
  (forall precip, load_precip_data fs (DHSID r) (DHS_survey r) = Ok precip ->
                  NoDup (map time precip) /\ Forall (fun d => valid (time d)) precip) ->
  WetDays.row_metrics fs r = Ok ws ->
  0 <= WetDays.wet_days_annual (WetDays.annualize r ws) <= 366.
Proof.
  intros Hmonth Hseries (precip & Hp & Hws)%wet_days_row.
  destruct (Hseries precip Hp) as [Hnd Hvalid].
  assert (Hlen : length ws = 12%nat) by (rewrite Hws, length_map; reflexivity).
  unfold WetDays.annualize. cbn [WetDays.wet_days_annual].
  rewrite (sum_of_twelve ws Hlen).
  assert (Hnth : forall m, 1 <= m <= 12 ->
            0 <= nth (Z.to_nat (m - 1)) ws 0
              <= days_in_month (year (sub_months (death_date_lag_0 r) m))
                               (month (sub_months (death_date_lag_0 r) m))).
  { intros m Hm. rewrite Hws, (nth_map_range1 _ N_MONTHS m) by exact Hm.
    now apply calc_wet_days_bound. }
  pose proof (lookback_days (death_date_lag_0 r) Hmonth) as Hdays. cbv zeta beta in Hdays.
  pose proof (Hnth 1 ltac:(lia)) as H1. pose proof (Hnth 2 ltac:(lia)) as H2.
  pose proof (Hnth 3 ltac:(lia)) as H3. pose proof (Hnth 4 ltac:(lia)) as H4.
  pose proof (Hnth 5 ltac:(lia)) as H5. pose proof (Hnth 6 ltac:(lia)) as H6.
  pose proof (Hnth 7 ltac:(lia)) as H7. pose proof (Hnth 8 ltac:(lia)) as H8.
  pose proof (Hnth 9 ltac:(lia)) as H9. pose proof (Hnth 10 ltac:(lia)) as H10.
  pose proof (Hnth 11 ltac:(lia)) as H11. pose proof (Hnth 12 ltac:(lia)) as H12.
  change (Z.to_nat (1 - 1)) with 0%nat in H1. change (Z.to_nat (2 - 1)) with 1%nat in H2.
  change (Z.to_nat (3 - 1)) with 2%nat in H3. change (Z.to_nat (4 - 1)) with 3%nat in H4.
  change (Z.to_nat (5 - 1)) with 4%nat in H5. change (Z.to_nat (6 - 1)) with 5%nat in H6.
  change (Z.to_nat (7 - 1)) with 6%nat in H7. change (Z.to_nat (8 - 1)) with 7%nat in H8.
  change (Z.to_nat (9 - 1)) with 8%nat in H9. change (Z.to_nat (10 - 1)) with 9%nat in H10.
  change (Z.to_nat (11 - 1)) with 10%nat in H11. change (Z.to_nat (12 - 1)) with 11%nat in H12.
  lia.
Qed.

Lemma wet_days_annual_bounded_witness :
  match WetDays.row_metrics Sample.disk Sample.child_2022 with
  | Ok ws => 0 <= WetDays.wet_days_annual (WetDays.annualize Sample.child_2022 ws) <= 366
  | Raise _ => False
  end.
Proof.
  destruct (WetDays.row_metrics Sample.disk Sample.child_2022) as [ws|e] eqn:Hrow;
    [|vm_compute in Hrow; discriminate Hrow].
  apply (wet_days_annual_bounded Sample.disk Sample.child_2022 ws); [simpl; lia| |exact Hrow].
  intros precip Hp. vm_compute in Hp. inversion Hp; subst precip. split.
  - apply NoDup_ListNoDup.
    repeat (constructor; [intros Hin; repeat (destruct Hin as [Hin|Hin]; [discriminate Hin|]);
                          destruct Hin|]).
    constructor.
  - do 3 (constructor; [unfold valid; repeat split; vm_compute; discriminate|]). constructor.
Defined.

(** ** Resolving a location *)

Lemma filter_app_first {A} (p : A -> bool) (before : list A) (x : A) (after : list A) :
  (forall y, In y before -> p y = false) -> p x = true ->
  List.filter p (before ++ x :: after) = x :: List.filter p after.
Proof.
  intros Hb Hx. rewrite List.filter_app, (filter_none p before Hb). simpl. now rewrite Hx.
Qed.

(** X22.  [load_precip_data] returns the series of the first row of the
    survey's mapping table whose identifier is the record's: the table is
    read under the survey's name as given, the series under the cleaned
    name and the row's location code.  It raises [IndexError] exactly when
    the mapping table exists and has no row for the identifier, and it
    never raises [KeyError]. *)
Theorem load_precip_data_outcome (fs : files) (dhsid survey_id : string) :
  (forall precip,
     load_precip_data fs dhsid survey_id = Ok precip <->
     exists before row after,
       CITY_LIST_DIR fs !! survey_id = Some (before ++ row :: after) /\
       (forall other, In other before -> city_DHSID other <> dhsid) /\
       city_DHSID row = dhsid /\
       PRECIP_DIR fs !! (survey_clean survey_id, city_id row) = Some precip) /\
  (load_precip_data fs dhsid survey_id = Raise IndexError <->
   exists city_map,
     CITY_LIST_DIR fs !! survey_id = Some city_map /\
     forall row, In row city_map -> city_DHSID row <> dhsid) /\
  load_precip_data fs dhsid survey_id <> Raise KeyError.
Proof.
  unfold load_precip_data, read_csv.
  destruct (CITY_LIST_DIR fs !! survey_id) as [city_map|] eqn:Hmap; simpl.
  - destruct (city_rows dhsid city_map) as [|row rest] eqn:Hrows; simpl.
    + split; [|split; [|discriminate]].
      * intros precip. split; [discriminate|].
        intros (before & row & after & Heq & Hbefore & Hrow & _).
        inversion Heq; subst city_map. unfold city_rows in Hrows.
        rewrite filter_app_first in Hrows; [discriminate Hrows| |now apply String.eqb_eq].
        intros other Hother. now apply String.eqb_neq, Hbefore.
      * split; [intros _|reflexivity]. exists city_map. split; [reflexivity|].
        intros row Hrow. apply String.eqb_neq. exact (filter_nil_all _ _ Hrows row Hrow).
    + destruct (filter_first _ _ _ _ Hrows) as (before & after & -> & Hbefore & Hrow).
      split; [|split].
      * intros precip.
        destruct (PRECIP_DIR fs !! (survey_clean survey_id, city_id row)) as [series|] eqn:Hp.
        -- split.
           ++ intros Heq. inversion Heq; subst series. exists before, row, after.
              split; [reflexivity|]. split; [|split; [now apply String.eqb_eq | exact Hp]].
              intros other Hother. now apply String.eqb_neq, Hbefore.
           ++ intros (before' & row' & after' & Heq & Hbefore' & Hrow' & Hp').
              assert (Hsame : row' = row).
              { inversion Heq as [Hlist]. unfold city_rows in Hrows. rewrite Hlist in Hrows.
                rewrite filter_app_first in Hrows;
                  [now inversion Hrows| |now apply String.eqb_eq].
                intros other Hother. now apply String.eqb_neq, Hbefore'. }
              subst row'. congruence.
        -- split; [discriminate|].
           intros (before' & row' & after' & Heq & Hbefore' & Hrow' & Hp').
           assert (Hsame : row' = row).
           { inversion Heq as [Hlist]. unfold city_rows in Hrows. rewrite Hlist in Hrows.
             rewrite filter_app_first in Hrows;
               [now inversion Hrows| |now apply String.eqb_eq].
             intros other Hother. now apply String.eqb_neq, Hbefore'. }
           subst row'. congruence.
      * split.
        -- destruct (PRECIP_DIR fs !! (survey_clean survey_id, city_id row)); discriminate.
        -- intros (city_map & Heq & Hnone). inversion Heq; subst city_map.
           exfalso. apply (Hnone row); [apply in_or_app; right; now left|].
           now apply String.eqb_eq.
      * destruct (PRECIP_DIR fs !! (survey_clean survey_id, city_id row)); discriminate.
  - split; [|split; [|discriminate]].
    + intros precip. split; [discriminate|].
      intros (before & row & after & Heq & _). discriminate Heq.
    + split; [discriminate | intros (city_map & Heq & _); discriminate Heq].
Qed.

Lemma load_precip_data_outcome_witness :
  exists before row after,
    CITY_LIST_DIR Sample.disk !! Sample.survey = Some (before ++ row :: after) /\
    (forall other, In other before -> city_DHSID other <> "CI201200000002") /\
    city_DHSID row = "CI201200000002" /\
    PRECIP_DIR Sample.disk !! (survey_clean Sample.survey, city_id row)
    = Some Sample.only_2021.
Proof.
  destruct (load_precip_data_outcome Sample.disk "CI201200000002" Sample.survey) as (H & _).
  apply (proj1 (H Sample.only_2021)). vm_compute. reflexivity.
Defined.

(** ** The cleaned survey name *)

Lemma replace_from_0_cons (old new : string) (c : Ascii.ascii) (s : string) :
  replace_from O old new (String c s)
  = if String.prefix old (String c s)
    then new +:+ replace_from (Nat.pred (String.length old)) old new s
    else String c (replace_from O old new s).
Proof. reflexivity. Qed.

Lemma prefix_app_inv (p s : string) :
  String.prefix p s = true -> exists rest, s = p +:+ rest.
Proof.
  revert s. induction p as [|a p IH]; intros s Hp; [now exists s|].
  destruct s as [|b s]; [discriminate Hp|]. simpl in Hp.
  destruct (Ascii.ascii_dec a b) as [->|]; [|discriminate Hp].
  destruct (IH s Hp) as [rest ->]. now exists rest.
Qed.

Lemma prefix_app_refl (p rest : string) : String.prefix p (p +:+ rest) = true.
Proof.
  induction p as [|a p IH]; simpl; [now destruct rest|].
  destruct (Ascii.ascii_dec a a) as [_|Hne]; [exact IH | now destruct Hne].
Qed.

Lemma replace_from_skip (p old new rest : string) :
  replace_from (String.length p) old new (p +:+ rest) = replace_from O old new rest.
Proof. induction p as [|a p IH]; simpl; [reflexivity | exact IH]. Qed.

(** At an occurrence the replacement is written and the scan goes on
    behind the occurrence. *)
Lemma replace_at_match (c : Ascii.ascii) (old new rest : string) :
  replace_from O (String c old) new (String c old +:+ rest)
  = new +:+ replace_from O (String c old) new rest.
Proof.
  change (String c old +:+ rest) with (String c (old +:+ rest)).
  rewrite replace_from_0_cons.
  change (String c (old +:+ rest)) with (String c old +:+ rest) at 1.
  rewrite prefix_app_refl. cbn [String.length Nat.pred].
  now rewrite replace_from_skip.
Qed.

Lemma no_match_without_apostrophe (s : string) :
  ~ In apostrophe (String.list_ascii_of_string s) -> String.prefix "Cote_d'Ivoire" s = false.
Proof.
  intros Hno. destruct (String.prefix "Cote_d'Ivoire" s) eqn:Hp; [|reflexivity].
  destruct (prefix_app_inv _ _ Hp) as [rest ->]. exfalso. apply Hno.
  simpl. do 6 right. now left.
Qed.

(** No occurrence starts inside an apostrophe-free text that is followed
    by an occurrence. *)
Lemma no_early_match (c : Ascii.ascii) (a b : string) :
  ~ In apostrophe (String.list_ascii_of_string (String c a)) ->
  String.prefix "Cote_d'Ivoire" (String c (a +:+ "Cote_d'Ivoire" +:+ b)) = false.
Proof.
  intros Hno.
  destruct (String.prefix "Cote_d'Ivoire" (String c (a +:+ "Cote_d'Ivoire" +:+ b))) eqn:Hp;
    [|reflexivity].
  destruct (prefix_app_inv _ _ Hp) as [rest Heq]. exfalso. clear Hp.
  simpl in Heq. injection Heq as Hc Heq.
  do 5 (destruct a as [|? a]; simpl in Heq; [discriminate Heq | injection Heq as ? Heq]).
  destruct a as [|c6 a]; simpl in Heq; [discriminate Heq | injection Heq as Hc6 _].
  apply Hno. simpl. do 6 right. left. exact Hc6.
Qed.

(** X23.  The cleaned survey name is the name itself when the name has no
    apostrophe, and for a name that reads [a], [Cote_d'Ivoire], [b] with
    no apostrophe in [a] it is [a], [Cote_dIvoire] and the cleaned [b]. *)
Theorem survey_clean_spec :
  (forall s, ~ In apostrophe (String.list_ascii_of_string s) -> survey_clean s = s) /\
  (forall a b,
     ~ In apostrophe (String.list_ascii_of_string a) ->
     survey_clean (a +:+ "Cote_d'Ivoire" +:+ b) = a +:+ "Cote_dIvoire" +:+ survey_clean b).
Proof.
  unfold survey_clean, str_replace. split.
  - induction s as [|c s IH]; intros Hno; [reflexivity|].
    rewrite replace_from_0_cons, (no_match_without_apostrophe _ Hno).
    f_equal. apply IH. intros Hin. apply Hno. now right.
  - induction a as [|c a IH]; intros b Hno; [exact (replace_at_match _ _ _ b)|].
    change (String c a +:+ "Cote_d'Ivoire" +:+ b)
      with (String c (a +:+ "Cote_d'Ivoire" +:+ b)).
    rewrite replace_from_0_cons, (no_early_match c a b Hno).
    change (String c a +:+ "Cote_dIvoire" +:+ replace_from 0 "Cote_d'Ivoire" "Cote_dIvoire" b)
      with (String c (a +:+ "Cote_dIvoire" +:+ replace_from 0 "Cote_d'Ivoire" "Cote_dIvoire" b)).
    f_equal. apply IH. intros Hin. apply Hno. now right.
Qed.

Lemma survey_clean_spec_witness :
  survey_clean "Kenya_2014" = "Kenya_2014" /\
  survey_clean ("DHS_" +:+ "Cote_d'Ivoire" +:+ "_2012")
  = "DHS_" +:+ "Cote_dIvoire" +:+ survey_clean "_2012".
Proof.
  destruct survey_clean_spec as [Hsame Hclean]. split.
  - apply Hsame. simpl. intros H. repeat (destruct H as [H|H]; [discriminate H|]). exact H.
  - apply Hclean. simpl. intros H. repeat (destruct H as [H|H]; [discriminate H|]). exact H.
Defined.

(** ** The annual number of extreme days *)

#[local] Instance spec_float_eq_dec : EqDecision float.
Proof. solve_decision. Defined.

(** Adding a day count to a running total of day counts is exact. *)
Lemma small_sum_exact (a b : Z) :
  0 <= a <= 372 -> 0 <= b <= 31 ->
  add (of_Z a) (of_Z b) = of_Z (a + b) /\ is_nan (of_Z b) = false /\
  add neg_zero (of_Z b) = of_Z b.
Proof.
  intros Ha Hb.
  assert (Htable :
    forallb (fun x =>
      forallb (fun y => bool_decide (add (of_Z x) (of_Z y) = of_Z (x + y))
                        && negb (is_nan (of_Z y))
                        && bool_decide (add neg_zero (of_Z y) = of_Z y))
              (map Z.of_nat (seq 0 32)))
      (map Z.of_nat (seq 0 373)) = true) by (vm_compute; reflexivity).
  rewrite forallb_forall in Htable.
  assert (Hina : In a (map Z.of_nat (seq 0 373)))
    by (apply in_map_iff; exists (Z.to_nat a); rewrite in_seq; lia).
  assert (Hinb : In b (map Z.of_nat (seq 0 32)))
    by (apply in_map_iff; exists (Z.to_nat b); rewrite in_seq; lia).
  pose proof (proj1 (forallb_forall _ _) (Htable a Hina) b Hinb) as Hab.
  apply andb_true_iff in Hab as [Hab Hid]. apply andb_true_iff in Hab as [Hsum Hnan].
  split; [now apply bool_decide_eq_true in Hsum|].
  split; [now apply negb_true_iff | now apply bool_decide_eq_true in Hid].
Qed.

Lemma day_counts_sum_exact (ns : list Z) (acc : Z) :
  Forall (fun n => 0 <= n <= 31) ns -> 0 <= acc -> acc + 31 * Z.of_nat (length ns) <= 372 ->
  fold_left add (Pandas.fillna (map of_Z ns)) (of_Z acc) = of_Z (fold_left Z.add ns acc).
Proof.
  intros Hns. revert acc. induction Hns as [|n ns Hn _ IH]; intros acc Hacc Hbound;
    [reflexivity|].
  simpl length in Hbound. destruct (small_sum_exact acc n) as (Hsum & Hnan & _); [lia | lia |].
  cbn [map Pandas.fillna fold_left]. rewrite Hnan, Hsum. apply IH; lia.
Qed.

(** Adding two partial sums of day counts is exact. *)
Lemma partial_sum_exact (a b : Z) :
  (0 <= a <= 124 /\ 0 <= b <= 124) \/ (0 <= a <= 372 /\ 0 <= b <= 31) ->
  add (of_Z a) (of_Z b) = of_Z (a + b).
Proof.
  intros [[Ha Hb]|[Ha Hb]]; [|now apply small_sum_exact].
  assert (Htable :
    forallb (fun x =>
      forallb (fun y => bool_decide (add (of_Z x) (of_Z y) = of_Z (x + y)))
              (map Z.of_nat (seq 0 125)))
      (map Z.of_nat (seq 0 125)) = true) by (vm_compute; reflexivity).
  rewrite forallb_forall in Htable.
  assert (Hina : In a (map Z.of_nat (seq 0 125)))
    by (apply in_map_iff; exists (Z.to_nat a); rewrite in_seq; lia).
  assert (Hinb : In b (map Z.of_nat (seq 0 125)))
    by (apply in_map_iff; exists (Z.to_nat b); rewrite in_seq; lia).
  pose proof (proj1 (forallb_forall _ _) (Htable a Hina) b Hinb) as Hab.
  now apply bool_decide_eq_true in Hab.
Qed.

Lemma day_counts_are_numbers (ns : list Z) :
  Forall (fun n => 0 <= n <= 31) ns -> Forall (fun x => is_nan x = false) (map of_Z ns).
Proof.
  induction 1 as [|n ns Hn _ IH]; constructor; [|exact IH].
  now destruct (small_sum_exact 0 n) as (_ & Hnan & _); [lia | lia |].
Qed.

(** The sum of twelve day counts as numpy sums a column. *)
Lemma day_counts_column_sum_exact (ns : list Z) :
  Forall (fun n => 0 <= n <= 31) ns -> length ns = 12%nat ->
  Numpy.sum (map of_Z ns) = of_Z (fold_left Z.add ns 0).
Proof.
  intros Hns Hlen.
  do 12 (destruct ns as [|? ns]; [discriminate Hlen|]).
  destruct ns; [|discriminate Hlen]. clear Hlen.
  repeat match goal with
         | H : Forall _ (_ :: _) |- _ => apply List.Forall_cons_iff in H as [? H]
         end.
  clear Hns.
  unfold Numpy.sum.
  cbn [map length Numpy.pairwise_sum Numpy.block_sum Numpy.unrolled fold_left
       Nat.ltb Nat.leb Numpy.PW_BLOCKSIZE].
  rewrite add_neg_zero_l.
  repeat (rewrite partial_sum_exact by lia).
  f_equal. lia.
Qed.

(** The row sum of twelve day counts, whatever the number of rows. *)
Lemma day_counts_row_sum_exact (rows : nat) (ns : list Z) :
  Forall (fun n => 0 <= n <= 31) ns -> length ns = 12%nat ->
  Pandas.sum_axis1 rows (map of_Z ns) = of_Z (fold_left Z.add ns 0).
Proof.
  intros Hns Hlen. unfold Pandas.sum_axis1.
  rewrite (fillna_without_nan _ (day_counts_are_numbers ns Hns)).
  destruct (rows =? 1)%nat; [now apply day_counts_column_sum_exact|].
  destruct Hns as [|n ns Hn Hns]; [discriminate Hlen|].
  simpl length in Hlen. destruct (small_sum_exact 0 n) as (_ & _ & Hid); [lia | lia |].
  cbn [map fold_left]. rewrite Hid.
  rewrite <- (fillna_without_nan _ (day_counts_are_numbers ns Hns)).
  apply (day_counts_sum_exact ns n Hns); lia.
Qed.

Lemma calc_extreme_precip_days_bound target_date precip_data t a :
  NoDup (map time precip_data) ->
  Forall (fun d => valid (time d)) precip_data ->
  0 <= fst (fst (Extreme.calc_extreme_precip target_date precip_data t a))
    <= days_in_month (year target_date) (month target_date).
Proof.
  intros Hnd Hvalid.
  pose proof (monthly_rows_bound target_date precip_data Hnd Hvalid) as Hrows.
  rewrite calc_extreme_precip_days, exceeding_days_of_month.
  pose proof (filter_length_le (fun d => gtb (tp d) t)
                (monthly_rows target_date precip_data)).
  lia.
Qed.

(** X24.  For a record whose location has a daily series with one row per
    calendar date, the annual number of extreme days of its output row is
    exactly the sum of its twelve monthly day counts, in a table of any
    number of rows: the floating-point row sum loses nothing. *)
Theorem extreme_annual_days_exact (fs : files) (threshold_df : list stats_row) (r : record)
    (ms : list (Z * float * float)) (rows : nat) :
  (forall precip t a,
     Extreme.load_precip_data fs (DHSID r) (DHS_survey r) threshold_df = Ok (precip, t, a) ->
     NoDup (map time precip) /\ Forall (fun d => valid (time d)) precip) ->
  Extreme.row_metrics fs threshold_df r = Ok ms ->
  let n_days := map (fun x => fst (fst x)) ms in
  length n_days = 12%nat /\
  Forall (fun n => 0 <= n <= 31) n_days /\
  Extreme.p999_days (Extreme.annualize rows r ms) = map of_Z n_days /\
  Extreme.p999_annual_days (Extreme.annualize rows r ms) = of_Z (fold_left Z.add n_days 0).
Proof.
  intros Hseries (precip & t & a & Hload & Hms)%extreme_row n_days.
  destruct (Hseries precip t a Hload) as [Hnd Hvalid].
  assert (Hlen : length n_days = 12%nat)
    by (unfold n_days; rewrite Hms, !length_map; reflexivity).
  assert (Hbounds : Forall (fun n => 0 <= n <= 31) n_days).
  { unfold n_days. rewrite Hms, map_map. apply List.Forall_forall.
    intros n (m & <- & _)%in_map_iff.
    pose proof (calc_extreme_precip_days_bound (sub_months (death_date_lag_0 r) m)
                  precip t a Hnd Hvalid).
    pose proof (days_in_month_bounds (year (sub_months (death_date_lag_0 r) m))
                  (month (sub_months (death_date_lag_0 r) m))).
    lia. }
  assert (Hdays : Extreme.p999_days (Extreme.annualize rows r ms) = map of_Z n_days)
    by (unfold Extreme.annualize, n_days; cbn [Extreme.p999_days]; now rewrite map_map).
  split; [exact Hlen|]. split; [exact Hbounds|]. split; [exact Hdays|].
  unfold Extreme.annualize. cbn [Extreme.p999_annual_days].
  change (map (fun x => of_Z (fst (fst x))) ms)
    with (Extreme.p999_days (Extreme.annualize rows r ms)).
  rewrite Hdays. now apply day_counts_row_sum_exact.
Qed.

Lemma extreme_annual_days_exact_witness :
  match Extreme.row_metrics Sample.disk_full [Sample.stats_1; Sample.stats_2]
          Sample.child_2020 with
  | Ok ms =>
      map (fun x => fst (fst x)) ms = [0; 0; 1; 1; 1; 1; 1; 1; 1; 1; 0; 0] /\
      Extreme.p999_annual_days (Extreme.annualize 2 Sample.child_2020 ms) = of_Z 8 /\
      Extreme.p999_annual_days (Extreme.annualize 1 Sample.child_2020 ms) = of_Z 8
  | Raise _ => False
  end.
Proof.
  destruct (Extreme.row_metrics Sample.disk_full [Sample.stats_1; Sample.stats_2]
              Sample.child_2020) as [ms|e] eqn:Hrow;
    [|vm_compute in Hrow; discriminate Hrow].
  assert (Hseries : forall precip t a,
            Extreme.load_precip_data Sample.disk_full (DHSID Sample.child_2020)
              (DHS_survey Sample.child_2020) [Sample.stats_1; Sample.stats_2]
            = Ok (precip, t, a) ->
            NoDup (map time precip) /\ Forall (fun d => valid (time d)) precip).
  { intros precip t a Hp. vm_compute in Hp. inversion Hp; subst precip. split.
    - apply NoDup_ListNoDup.
      repeat (constructor; [intros Hin; repeat (destruct Hin as [Hin|Hin]; [discriminate Hin|]);
                            destruct Hin|]).
      constructor.
    - repeat (constructor; [unfold valid; repeat split; vm_compute; discriminate|]).
      constructor. }
  destruct (extreme_annual_days_exact Sample.disk_full [Sample.stats_1; Sample.stats_2]
              Sample.child_2020 ms 2 Hseries Hrow) as (_ & _ & _ & Hmany).
  destruct (extreme_annual_days_exact Sample.disk_full [Sample.stats_1; Sample.stats_2]
              Sample.child_2020 ms 1 Hseries Hrow) as (_ & _ & _ & Hone).
  rewrite Hmany, Hone. vm_compute in Hrow. injection Hrow as <-. repeat split; reflexivity.
Defined.
